(** * Zenalyst analytics backend: aggregation, share and pagination logic

    A shallow embedding of the reporting services, the response helpers
    and the query sanitising middleware, with the properties of the
    revenue-share, ranking, filtering, pagination and statistics code.

    Conventions.
    - A JavaScript number is read at two levels. Where only the order of
      numbers, the shape of a result or a count is at stake, a finite
      number is its exact value, a rational ([Q]), compared exactly as
      the code compares it; equality of numbers is [Qeq] (written [==]).
      Where the result of an addition, a multiplication or a division is
      at stake, a number is a binary64 [B64.double] and every operation
      rounds to the nearest double, ties to even; the services that
      compute totals and percentages are given at that level, in the
      modules whose names end in 64 and in [RegionsService].
    - A numeric document field is a [field]: missing (undefined), null or
      a finite number; the idiom [x || 0] is [or0].
    - The document store is an external collaborator: a collection is the
      list of its documents, and the driver's cursor is modelled in
      [Store] by its documented behaviour.
    - The [formatted...] string fields (Intl.NumberFormat, toFixed) are
      presentation of the numeric fields beside them and are left out of
      the records. *)

From Stdlib Require Import ZArith QArith Qpower Qround Qabs String Ascii Bool List.
From Stdlib Require Import DecimalString DecimalPos.
From Stdlib Require Import Lia Lqa Permutation Sorted.
Import ListNotations.

Local Open Scope Z_scope.
Local Open Scope Q_scope.

(** ** Numbers *)

(** A numeric field of a document, or a numeric argument that may be
    absent. *)
Inductive field : Type :=
  | Missing
  | Null
  | Num (q : Q).

(** [x || 0]: missing and null read as 0 (and 0 itself is falsy, which
    gives 0 again). *)
Definition or0 (v : field) : Q :=
  match v with
  | Num x => x
  | _ => 0
  end.

(** [a < b], [a > b] and [a === b] on numbers, as booleans. *)
Definition Qltb (a b : Q) : bool := negb (Qle_bool b a).
Definition Qgtb (a b : Q) : bool := Qltb b a.
Definition Qeqb (a b : Q) : bool := Qeq_bool a b.

(** A count ([arr.length]) as a number. *)
Definition of_nat (n : nat) : Q := inject_Z (Z.of_nat n).

Module Math.

(** [Math.round]: the nearest integer, a tie going towards +infinity. *)
Definition round (x : Q) : Z := Qfloor (x + (1 # 2)).

(** [Math.ceil]. *)
Definition ceil (x : Q) : Z := Qceiling x.

(** [Math.pow(b, e)] for an integer exponent. *)
Definition pow (b : Q) (e : Z) : Q := Qpower b e.

End Math.

(** ** Arrays *)

Section Arrays.

Context {A : Type}.

(** The clamping of a relative index by [Array.prototype.slice]:
    a negative index counts from the end. *)
Definition rel_index (len k : Z) : Z :=
  if (k <? 0)%Z then Z.max (len + k) 0 else Z.min k len.

(** [arr.slice(start, end)]; [end_ = None] is the one-argument call. *)
Definition slice (l : list A) (start : Z) (end_ : option Z) : list A :=
  let len := Z.of_nat (length l) in
  let from := rel_index len start in
  let final := match end_ with
               | None => len
               | Some e => rel_index len e
               end in
  firstn (Z.to_nat (final - from)) (skipn (Z.to_nat from) l).

(** [arr.sort(cmp)]: the sort is stable; an element moves in front of
    another only when the comparator is negative for that order. The
    array is sorted in place, so every later use of the same array sees
    the sorted order: callers below name the result and keep using it. *)
Fixpoint insert (cmp : A -> A -> Q) (x : A) (l : list A) : list A :=
  match l with
  | [] => [x]
  | y :: l' => if Qltb (cmp y x) 0 then y :: insert cmp x l' else x :: y :: l'
  end.

Fixpoint sort (cmp : A -> A -> Q) (l : list A) : list A :=
  match l with
  | [] => []
  | x :: l' => insert cmp x (sort cmp l')
  end.

(** [arr.reduce((sum, x) => sum + f(x), 0)], read exactly; the sums the
    engine computes, rounded at every addition, are in the binary64
    services. *)
Definition reduce_sum (f : A -> Q) (l : list A) : Q :=
  fold_left (fun sum x => sum + f x) l 0.

End Arrays.

(** ** binary64 numbers

    A Number as the engine holds it: NaN, an infinity, or a finite
    double, given by its exact value. The two zeros are one value here:
    the code below divides only by 100 and by totals its guard found
    positive, so the sign of a zero is never observed. *)

Module B64.

Inductive double : Type :=
  | NaN
  | Inf (negative : bool)
  | Fin (q : Q).

(** The nearest integer to a rational, a tie going to the even one. *)
Definition rne (x : Q) : Z :=
  let n := Qnum x in
  let d := Zpos (Qden x) in
  let f := (n / d)%Z in
  match (2 * (n mod d) ?= d)%Z with
  | Lt => f
  | Gt => (f + 1)%Z
  | Eq => if Z.even f then f else (f + 1)%Z
  end.

(** [floor(log2 x)] for [x > 0]: the difference of the bit lengths of
    the numerator and the denominator, or one less. *)
Definition ilog2 (x : Q) : Z :=
  let k := (Z.log2 (Qnum x) - Z.log2 (Zpos (Qden x)))%Z in
  if Qle_bool (2 ^ k) x then k else (k - 1)%Z.

(** The exponent of the last place of the doubles around [x > 0]: 53
    significant bits, and no spacing below 2^-1074 (the subnormal
    numbers). *)
Definition ulp_exp (x : Q) : Z := Z.max (ilog2 x - 52) (-1074).

(** The double nearest to [x > 0], ties to even; from 2^1024 on the
    result is Infinity. *)
Definition round_pos (x : Q) : double :=
  let e := ulp_exp x in
  let y := inject_Z (rne (x / 2 ^ e)) * 2 ^ e in
  if Qle_bool (2 ^ 1024) y then Inf false else Fin (Qred y).

Definition opp (a : double) : double :=
  match a with
  | NaN => NaN
  | Inf s => Inf (negb s)
  | Fin x => Fin (- x)
  end.

(** The double nearest to a real number: the rounding every arithmetic
    operation ends with. *)
Definition round (x : Q) : double :=
  match Qnum x with
  | Z0 => Fin 0
  | Zpos _ => round_pos x
  | Zneg _ => opp (round_pos (- x))
  end.

(** [a + b]. *)
Definition add (a b : double) : double :=
  match a, b with
  | NaN, _ | _, NaN => NaN
  | Inf s, Inf t => if Bool.eqb s t then Inf s else NaN
  | Inf s, Fin _ => Inf s
  | Fin _, Inf t => Inf t
  | Fin x, Fin y => round (x + y)
  end.

(** [a * b]. *)
Definition mul (a b : double) : double :=
  match a, b with
  | NaN, _ | _, NaN => NaN
  | Inf s, Inf t => Inf (xorb s t)
  | Inf s, Fin y => if Qeqb y 0 then NaN else Inf (xorb s (Qltb y 0))
  | Fin x, Inf t => if Qeqb x 0 then NaN else Inf (xorb (Qltb x 0) t)
  | Fin x, Fin y => round (x * y)
  end.

(** [a / b]: a finite number over zero is an infinity, zero over zero
    is NaN. *)
Definition div (a b : double) : double :=
  match a, b with
  | NaN, _ | _, NaN => NaN
  | Inf _, Inf _ => NaN
  | Inf s, Fin y => Inf (xorb s (Qltb y 0))
  | Fin _, Inf _ => Fin 0
  | Fin x, Fin y =>
      if Qeqb y 0 then (if Qeqb x 0 then NaN else Inf (Qltb x 0))
      else round (x / y)
  end.

(** [a > b]: false when either is NaN. *)
Definition gtb (a b : double) : bool :=
  match a, b with
  | NaN, _ | _, NaN => false
  | Inf s, Inf t => negb s && t
  | Inf s, Fin _ => negb s
  | Fin _, Inf t => t
  | Fin x, Fin y => Qgtb x y
  end.

(** [Math.round]: exact on a finite double, the identity on the rest. *)
Definition Math_round (a : double) : double :=
  match a with
  | Fin x => Fin (inject_Z (Math.round x))
  | _ => a
  end.

(** [Math.pow(10, decimals)]; at [decimals = 2] the power is the double
    100 itself. *)
Definition pow10 (decimals : Z) : double := round (Math.pow 10 decimals).

(** The value a decimal literal denotes: the double nearest to it. *)
Definition literal (q : Q) : Q :=
  match round q with
  | Fin x => x
  | _ => 0
  end.

End B64.

(** ** JavaScript values, for the untyped [data] of a response *)

#[warnings="-register-all"]
Inductive jsval : Type :=
  | JUndefined
  | JNull
  | JBool (b : bool)
  | JNum (q : Q)
  | JNaN
  | JStr (s : string)
  | JArr (items : list jsval)
  | JObj (props : list (string * jsval)).

(** ToBoolean. *)
Definition truthy (v : jsval) : bool :=
  match v with
  | JUndefined | JNull | JNaN => false
  | JBool b => b
  | JNum q => negb (Qeqb q 0)
  | JStr s => negb (String.eqb s "")
  | JArr _ | JObj _ => true
  end.

(** [a && b]: [a] when it is falsy, else [b]. *)
Definition js_and (a b : jsval) : jsval := if truthy a then b else a.

(** The decimal name of an index, as a property key. *)
Definition index_key (i : nat) : string :=
  NilZero.string_of_uint (Nat.to_uint i).

Fixpoint indexed {A : Type} (i : nat) (l : list A) : list (string * A) :=
  match l with
  | [] => []
  | x :: l' => (index_key i, x) :: indexed (S i) l'
  end.

Fixpoint chars (s : string) : list jsval :=
  match s with
  | EmptyString => []
  | String c s' => JStr (String c EmptyString) :: chars s'
  end.

(** The own enumerable properties copied by an object spread [...v]:
    those of an object, the indices of an array or of a string, and
    nothing for undefined, null, a boolean or a number. *)
Definition spread (v : jsval) : list (string * jsval) :=
  match v with
  | JObj props => props
  | JArr items => indexed 0 items
  | JStr s => indexed 0 (chars s)
  | _ => []
  end.

(** Whether an object literal has a key. *)
Definition has_key (k : string) (props : list (string * jsval)) : bool :=
  existsb (fun kv => String.eqb (fst kv) k) props.

(** ** utils/responseHandler.js *)

Module ResponseHandler.

(** What [res.status(code).json(body)] sends. *)
Record sent (B : Type) := mkSent { status : Z; body : B }.
Arguments mkSent {B}.
Arguments status {B}.
Arguments body {B}.

(** A default parameter value applies to an undefined argument. *)
Definition default_arg (d v : jsval) : jsval :=
  match v with
  | JUndefined => d
  | _ => v
  end.

(** [successResponse(res, statusCode = 200, message = 'Success',
    data = null)]. *)
Definition successResponse (statusCode : option Z) (message : option string)
  (data : jsval) : sent (list (string * jsval)) :=
  let statusCode := match statusCode with Some c => c | None => 200%Z end in
  let message := match message with Some m => m | None => "Success"%string end in
  let data := default_arg JNull data in
  let response :=
    [ ("success"%string, JBool true); ("message"%string, JStr message) ]
    ++ spread (js_and data (JObj [ ("data"%string, data) ])) in
  mkSent statusCode response.

(** [errorResponse(res, statusCode = 500,
    message = 'Internal server error', error = null)]. *)
Definition errorResponse (statusCode : option Z) (message : option string)
  (error : jsval) : sent (list (string * jsval)) :=
  let statusCode := match statusCode with Some c => c | None => 500%Z end in
  let message :=
    match message with Some m => m | None => "Internal server error"%string end in
  let error := default_arg JNull error in
  let response :=
    [ ("success"%string, JBool false); ("message"%string, JStr message) ]
    ++ spread (js_and error (JObj [ ("error"%string, error) ])) in
  mkSent statusCode response.

Record paginationInfo := mkPagination {
  currentPage : Z;
  totalPages : Z;
  totalItems : Z;
  itemsPerPage : Z;
  hasNextPage : bool;
  hasPrevPage : bool;
  nextPage : option Z;
  prevPage : option Z
}.

Record paginated (D : Type) := mkPaginated {
  success : bool;
  message : string;
  data : D;
  pagination : paginationInfo
}.
Arguments mkPaginated {D}.
Arguments success {D}.
Arguments message {D}.
Arguments data {D}.
Arguments pagination {D}.

(** [paginatedResponse(res, data, page, limit, total, message)];
    [null] is [None]. The handlers never pass a [limit] of 0, which
    [parseInt(...) || 50] excludes. *)
Definition paginatedResponse {D : Type} (data : D) (page limit total : Z)
  (message : string) : sent (paginated D) :=
  let totalPages := Math.ceil (inject_Z total / inject_Z limit) in
  let hasNextPage := (page <? totalPages)%Z in
  let hasPrevPage := (page >? 1)%Z in
  mkSent 200%Z
    {| success := true;
       message := message;
       data := data;
       pagination :=
         {| currentPage := page;
            totalPages := totalPages;
            totalItems := total;
            itemsPerPage := limit;
            hasNextPage := hasNextPage;
            hasPrevPage := hasPrevPage;
            nextPage := if hasNextPage then Some (page + 1)%Z else None;
            prevPage := if hasPrevPage then Some (page - 1)%Z else None |} |}.

(** [transformData.roundToDecimals(value, decimals = 2)], read exactly:
    the multiple of 10^-decimals nearest to [value], a tie going up. What
    the engine computes is [ResponseHandler64.roundToDecimals] below. *)
Definition roundToDecimals (value : field) (decimals : Z) : Q :=
  match value with
  | Missing | Null => 0
  | Num v =>
      inject_Z (Math.round (v * Math.pow 10 decimals)) / Math.pow 10 decimals
  end.

End ResponseHandler.

(** [transformData.roundToDecimals] in binary64: the product
    [value * 100] is rounded to a double before [Math.round] sees it,
    and the quotient by 100 is rounded again. [None] is a null or
    undefined [value]. *)
Module ResponseHandler64.

(** [transformData.roundToDecimals(value, decimals = 2)] as the engine
    computes it: [Math.round(value * Math.pow(10, decimals)) /
    Math.pow(10, decimals)], the product and the quotient each rounded
    to the nearest double; [None] is a null or undefined value. *)
Definition roundToDecimals (value : option B64.double) (decimals : Z)
  : B64.double :=
  match value with
  | None => B64.Fin 0
  | Some v =>
      B64.div (B64.Math_round (B64.mul v (B64.pow10 decimals)))
        (B64.pow10 decimals)
  end.

End ResponseHandler64.

(** ** services/countriesService.js *)

Module CountriesService.

Import ResponseHandler.

Record country := mkCountry {
  Country : string;
  Yearly_Revenue : field
}.

Record shareEntry := mkShare {
  countryName : string;
  revenue : Q;
  percentage : Q
}.

(** A row of [getTopCountriesByRevenue] and of [getAllCountries]. *)
Module TopRow.
Record t := mk {
  countryName : string;
  yearlyRevenue : Q
}.
End TopRow.

(** [cursor.sort({ "Yearly Revenue": -1 })] of the store: descending, a
    missing or null revenue below every number. The store promises no
    order among documents with equal keys; they are taken here in stored
    order. *)
Definition byStoredRevenueDesc (a b : country) : Q :=
  match Yearly_Revenue a, Yearly_Revenue b with
  | Num x, Num y => y - x
  | Num _, _ => -1
  | _, Num _ => 1
  | _, _ => 0
  end.

(** [cursor.limit(n)]: 0 is no limit, a negative [n] limits to [-n]. *)
Definition limit_cursor (n : Z) (l : list country) : list country :=
  if (n =? 0)%Z then l else firstn (Z.abs_nat n) l.

(** [getTopCountriesByRevenue(limit = 10)], given the documents of the
    collection: the sort and the limit are the store's,
    [find({}).sort({ "Yearly Revenue": -1 }).limit(limit).toArray()],
    and the documents that come back are mapped to rows. *)
Definition getTopCountriesByRevenue (limit : Z) (docs : list country)
  : list TopRow.t :=
  let countries := limit_cursor limit (sort byStoredRevenueDesc docs) in
  map (fun c => {| TopRow.countryName := Country c;
                   TopRow.yearlyRevenue := or0 (Yearly_Revenue c) |})
      countries.

(** The comparator of the in-memory sort:
    [(a, b) => (b['Yearly Revenue'] || 0) - (a['Yearly Revenue'] || 0)]. *)
Definition byRevenueDesc (a b : country) : Q :=
  or0 (Yearly_Revenue b) - or0 (Yearly_Revenue a).

(** [totalRevenue > 0 ? (x / totalRevenue) * 100 : 0]. *)
Definition percentOf (x totalRevenue : Q) : Q :=
  if Qgtb totalRevenue 0 then (x / totalRevenue) * 100 else 0.

Definition sumRevenue (l : list country) : Q :=
  reduce_sum (fun c => or0 (Yearly_Revenue c)) l.

(** The in-memory ranking inside [getRevenueShareByCountry]:
    sort, then [slice(0, limit)]. *)
Definition topCountries (allCountries : list country) (limit : Z)
  : list country :=
  slice (sort byRevenueDesc allCountries) 0 (Some limit).

Definition shareOf (totalRevenue : Q) (c : country) : shareEntry :=
  let revenue := or0 (Yearly_Revenue c) in
  let percentage := percentOf revenue totalRevenue in
  {| countryName := Country c;
     revenue := revenue;
     percentage := roundToDecimals (Num percentage) 2 |}.

Definition othersEntry (totalRevenue : Q) (rest : list country) : shareEntry :=
  let othersRevenue := sumRevenue rest in
  let othersPercentage := percentOf othersRevenue totalRevenue in
  {| countryName := "Others";
     revenue := othersRevenue;
     percentage := roundToDecimals (Num othersPercentage) 2 |}.

(** [getRevenueShareByCountry(limit = 8)], given the documents of the
    collection and the limit the caller passes, with the arithmetic read
    exactly: this reading serves for the rows, their order and their
    number; the totals and percentages the engine computes are those of
    [CountriesService64]. [sorted] is [allCountries] after the in-place
    sort: the length test and the [slice(limit)] of the Others branch
    read that same array. *)
Definition getRevenueShareByCountry (allCountries : list country) (limit : Z)
  : list shareEntry :=
  let totalRevenue := sumRevenue allCountries in
  let sorted := sort byRevenueDesc allCountries in
  let result := map (shareOf totalRevenue) (slice sorted 0 (Some limit)) in
  if (Z.of_nat (length sorted) >? limit)%Z
  then result ++ [othersEntry totalRevenue (slice sorted limit None)]
  else result.

End CountriesService.

(** [getRevenueShareByCountry] in binary64. The total is added up in
    stored order and the Others revenue in sorted order, each sum rounded
    at every step. The comparator of the sort is read exactly: the
    difference of two doubles is negative, zero or positive as their
    exact difference is. *)
Module CountriesService64.

Import B64.

Record shareEntry := mkShare {
  countryName : string;
  revenue : double;
  percentage : double
}.

(** [l.reduce((sum, country) => sum + (country['Yearly Revenue'] || 0), 0)]. *)
Definition sumRevenue (l : list CountriesService.country) : double :=
  fold_left
    (fun sum country => add sum (Fin (or0 (CountriesService.Yearly_Revenue country))))
    l (Fin 0).

(** [totalRevenue > 0 ? (x / totalRevenue) * 100 : 0]. *)
Definition percentOf (x totalRevenue : double) : double :=
  if gtb totalRevenue (Fin 0) then mul (div x totalRevenue) (Fin 100)
  else Fin 0.

Definition shareOf (totalRevenue : double) (c : CountriesService.country)
  : shareEntry :=
  let revenue := Fin (or0 (CountriesService.Yearly_Revenue c)) in
  let percentage := percentOf revenue totalRevenue in
  {| countryName := CountriesService.Country c;
     revenue := revenue;
     percentage := ResponseHandler64.roundToDecimals (Some percentage) 2 |}.

Definition othersEntry (totalRevenue : double)
  (rest : list CountriesService.country) : shareEntry :=
  let othersRevenue := sumRevenue rest in
  let othersPercentage := percentOf othersRevenue totalRevenue in
  {| countryName := "Others";
     revenue := othersRevenue;
     percentage := ResponseHandler64.roundToDecimals (Some othersPercentage) 2 |}.

(** [getRevenueShareByCountry(limit = 8)], given the documents of the
    collection and the limit the caller passes. [sorted] is
    [allCountries] after the in-place sort: the length test and the
    [slice(limit)] of the Others branch read that same array. *)
Definition getRevenueShareByCountry
  (allCountries : list CountriesService.country) (limit : Z)
  : list shareEntry :=
  let totalRevenue := sumRevenue allCountries in
  let sorted := sort CountriesService.byRevenueDesc allCountries in
  let result := map (shareOf totalRevenue) (slice sorted 0 (Some limit)) in
  if (Z.of_nat (length sorted) >? limit)%Z
  then result ++ [othersEntry totalRevenue (slice sorted limit None)]
  else result.

End CountriesService64.

(** ** services/regionsService.js *)

Module RegionsService.

Record region := mkRegion {
  Region : string;
  Yearly_Revenue : field
}.

Record regionRow := mkRegionRow {
  regionName : string;
  revenue : Q;
  percentage : B64.double
}.

Record summary := mkSummary {
  totalRegions : nat;
  regionsWithData : nat;
  totalRevenue : B64.double;
  regions : list regionRow
}.

(** [x !== null]: a missing field is undefined, which is not null. *)
Definition not_null (v : field) : bool :=
  match v with
  | Null => false
  | _ => true
  end.

(** [getRegionsSummary()], given the documents of the collection; the
    total and the percentages are computed in binary64. *)
Definition getRegionsSummary (regions : list region) : summary :=
  let totalRevenue :=
    fold_left (fun sum region => B64.add sum (B64.Fin (or0 (Yearly_Revenue region))))
      regions (B64.Fin 0) in
  let regionsWithData := filter (fun r => not_null (Yearly_Revenue r)) regions in
  {| totalRegions := length regions;
     regionsWithData := length regionsWithData;
     totalRevenue := totalRevenue;
     regions :=
       map (fun r =>
              {| regionName := Region r;
                 revenue := or0 (Yearly_Revenue r);
                 percentage :=
                   if B64.gtb totalRevenue (B64.Fin 0)
                   then B64.mul
                          (B64.div (B64.Fin (or0 (Yearly_Revenue r))) totalRevenue)
                          (B64.Fin 100)
                   else B64.Fin 0 |})
           regions |}.

End RegionsService.

(** ** The quarterly_revenue collection and the document store *)

Record customer := mkCustomer {
  Customer_Name : string;
  Quarter_3_Revenue : field;
  Quarter_4_Revenue : field;
  Variance : field;
  Percentage_of_Variance : field
}.

Module Store.

(** The query documents the services build: an optional
    [{ $gte: m }] on 'Quarter 4 Revenue' and an optional [{ $gt: m }]
    on 'Variance'. *)
Record query := mkQuery {
  Quarter_4_Revenue_gte : option Q;
  Variance_gt : option Q
}.

Definition empty_query : query := mkQuery None None.

(** A comparison operator with a numeric operand selects only documents
    whose field holds a number. *)
Definition field_gte (v : field) (m : Q) : bool :=
  match v with
  | Num x => Qle_bool m x
  | _ => false
  end.

Definition field_gt (v : field) (m : Q) : bool :=
  match v with
  | Num x => Qltb m x
  | _ => false
  end.

Definition matches (q : query) (c : customer) : bool :=
  match Quarter_4_Revenue_gte q with
  | Some m => field_gte (Quarter_4_Revenue c) m
  | None => true
  end
  &&
  match Variance_gt q with
  | Some m => field_gt (Variance c) m
  | None => true
  end.

(** [collection.countDocuments(query)]. *)
Definition countDocuments (q : query) (docs : list customer) : Z :=
  Z.of_nat (length (filter (matches q) docs)).

(** [cursor.sort({ key: -1 })]: descending, a missing or null key below
    every number. The store promises no order among documents with equal
    keys; they are taken here in stored order. The statements about
    pages below are about the number of rows, the documents they come
    from and the order of their keys, which do not depend on that
    choice, or they are made for keys without ties. *)
Definition byKeyDesc (key : customer -> field) (a b : customer) : Q :=
  match key a, key b with
  | Num x, Num y => y - x
  | Num _, _ => -1
  | _, Num _ => 1
  | _, _ => 0
  end.

(** [cursor.limit(n)]: 0 is no limit, a negative [n] limits to [-n]. *)
Definition limit_docs (n : Z) (l : list customer) : list customer :=
  if (n =? 0)%Z then l else firstn (Z.abs_nat n) l.

(** [find(query).sort({ key: -1 }).skip(skip).limit(limit).toArray()];
    the store rejects a negative skip, and the rejection reaches the
    caller as a thrown error ([None]). *)
Definition find_sort_skip_limit (q : query) (key : customer -> field)
  (skip limit : Z) (docs : list customer) : option (list customer) :=
  if (skip <? 0)%Z then None
  else Some (limit_docs limit
               (skipn (Z.to_nat skip)
                  (sort (byKeyDesc key) (filter (matches q) docs)))).

End Store.

(** ** services/revenueService.js and services/customersService.js *)

(** The labels 'positive', 'negative' and 'neutral'. *)
Inductive growth : Type := Positive | Negative | Neutral.

(** The [filters] argument; an absent property takes its destructuring
    default. *)
Record filters := mkFilters {
  minQ4Revenue : option Q;
  positiveGrowthOnly : option bool;
  limit : option Z;
  page : option Z
}.

Record customerRow := mkRow {
  customerName : string;
  q3Revenue : Q;
  q4Revenue : Q;
  variance : Q;
  percentageVariance : Q;
  growthStatus : option growth
}.

Record pageInfo := mkPageInfo {
  currentPage : Z;
  totalPages : Z;
  totalItems : Z;
  itemsPerPage : Z
}.

Record pageResult := mkPageResult {
  customers : list customerRow;
  pagination : pageInfo;
  echoedFilters : option (Q * bool)
}.

Definition withDefault {A : Type} (d : A) (v : option A) : A :=
  match v with
  | Some x => x
  | None => d
  end.

(** The query both services build from [minQ4Revenue] and
    [positiveGrowthOnly]. *)
Definition buildQuery (minQ4Revenue : Q) (positiveGrowthOnly : bool)
  : Store.query :=
  {| Store.Quarter_4_Revenue_gte :=
       if Qgtb minQ4Revenue 0 then Some minQ4Revenue else None;
     Store.Variance_gt := if positiveGrowthOnly then Some 0 else None |}.

Module RevenueService.

Definition formatCustomer (c : customer) : customerRow :=
  {| customerName := Customer_Name c;
     q3Revenue := or0 (Quarter_3_Revenue c);
     q4Revenue := or0 (Quarter_4_Revenue c);
     variance := or0 (Variance c);
     percentageVariance := or0 (Percentage_of_Variance c);
     growthStatus := None |}.

(** [getCustomerQuarterlyData(filters)], given the documents of the
    collection; sorted by 'Variance'. *)
Definition getCustomerQuarterlyData (f : filters) (docs : list customer)
  : option pageResult :=
  let minQ4Revenue := withDefault 0 (minQ4Revenue f) in
  let positiveGrowthOnly := withDefault false (positiveGrowthOnly f) in
  let limit := withDefault 50%Z (limit f) in
  let page := withDefault 1%Z (page f) in
  let query := buildQuery minQ4Revenue positiveGrowthOnly in
  let skip := ((page - 1) * limit)%Z in
  let total := Store.countDocuments query docs in
  match Store.find_sort_skip_limit query Variance skip limit docs with
  | None => None
  | Some customers =>
      Some {| customers := map formatCustomer customers;
              pagination :=
                {| currentPage := page;
                   totalPages := Math.ceil (inject_Z total / inject_Z limit);
                   totalItems := total;
                   itemsPerPage := limit |};
              echoedFilters := None |}
  end.

End RevenueService.

Module CustomersService.

(** The three-way comparison of the variance against 0. *)
Definition growthOf (v : Q) : growth :=
  if Qgtb v 0 then Positive else if Qltb v 0 then Negative else Neutral.

Definition formatCustomer (c : customer) : customerRow :=
  {| customerName := Customer_Name c;
     q3Revenue := or0 (Quarter_3_Revenue c);
     q4Revenue := or0 (Quarter_4_Revenue c);
     variance := or0 (Variance c);
     percentageVariance := or0 (Percentage_of_Variance c);
     growthStatus := Some (growthOf (or0 (Variance c))) |}.

(** [getCustomerAnalysis(filters)], given the documents of the
    collection; sorted by 'Quarter 4 Revenue'. *)
Definition getCustomerAnalysis (f : filters) (docs : list customer)
  : option pageResult :=
  let minQ4Revenue := withDefault 0 (minQ4Revenue f) in
  let positiveGrowthOnly := withDefault false (positiveGrowthOnly f) in
  let limit := withDefault 50%Z (limit f) in
  let page := withDefault 1%Z (page f) in
  let query := buildQuery minQ4Revenue positiveGrowthOnly in
  let skip := ((page - 1) * limit)%Z in
  let total := Store.countDocuments query docs in
  match Store.find_sort_skip_limit query Quarter_4_Revenue skip limit docs with
  | None => None
  | Some customers =>
      Some {| customers := map formatCustomer customers;
              pagination :=
                {| currentPage := page;
                   totalPages := Math.ceil (inject_Z total / inject_Z limit);
                   totalItems := total;
                   itemsPerPage := limit |};
              echoedFilters := Some (minQ4Revenue, positiveGrowthOnly) |}
  end.

Record statistics := mkStatistics {
  totalCustomers : nat;
  customersWithGrowth : nat;
  customersWithDecline : nat;
  customersNoChange : nat;
  growthPercentage : Q;
  declinePercentage : Q;
  noChangePercentage : Q;
  totalQ3Revenue : Q;
  totalQ4Revenue : Q
}.

(** [getCustomerStatistics()], given the documents of the collection,
    with the arithmetic read exactly: this reading serves for the counts
    and for the range of the percentages; what the engine computes is in
    [CustomersService64]. *)
Definition getCustomerStatistics (allCustomers : list customer) : statistics :=
  let totalCustomers := length allCustomers in
  let customersWithGrowth :=
    length (filter (fun c => Qgtb (or0 (Variance c)) 0) allCustomers) in
  let customersWithDecline :=
    length (filter (fun c => Qltb (or0 (Variance c)) 0) allCustomers) in
  let customersNoChange :=
    length (filter (fun c => Qeqb (or0 (Variance c)) 0) allCustomers) in
  let totalQ3Revenue :=
    reduce_sum (fun c => or0 (Quarter_3_Revenue c)) allCustomers in
  let totalQ4Revenue :=
    reduce_sum (fun c => or0 (Quarter_4_Revenue c)) allCustomers in
  {| totalCustomers := totalCustomers;
     customersWithGrowth := customersWithGrowth;
     customersWithDecline := customersWithDecline;
     customersNoChange := customersNoChange;
     growthPercentage :=
       if Qgtb (of_nat totalCustomers) 0
       then (of_nat customersWithGrowth / of_nat totalCustomers) * 100 else 0;
     declinePercentage :=
       if Qgtb (of_nat totalCustomers) 0
       then (of_nat customersWithDecline / of_nat totalCustomers) * 100 else 0;
     noChangePercentage :=
       if Qgtb (of_nat totalCustomers) 0
       then (of_nat customersNoChange / of_nat totalCustomers) * 100 else 0;
     totalQ3Revenue := totalQ3Revenue;
     totalQ4Revenue := totalQ4Revenue |}.

End CustomersService.

(** [getCustomerStatistics] in binary64: the counts are array lengths,
    exact, and each percentage is a rounded quotient times 100, rounded
    again. *)
Module CustomersService64.

Import B64.

Record statistics := mkStatistics {
  totalCustomers : nat;
  customersWithGrowth : nat;
  customersWithDecline : nat;
  customersNoChange : nat;
  growthPercentage : double;
  declinePercentage : double;
  noChangePercentage : double;
  totalQ3Revenue : double;
  totalQ4Revenue : double
}.

(** [totalCustomers > 0 ? (count / totalCustomers) * 100 : 0]. *)
Definition percentOfCount (count totalCustomers : nat) : double :=
  if gtb (Fin (of_nat totalCustomers)) (Fin 0)
  then mul (div (Fin (of_nat count)) (Fin (of_nat totalCustomers))) (Fin 100)
  else Fin 0.

(** [getCustomerStatistics()], given the documents of the collection. *)
Definition getCustomerStatistics (allCustomers : list customer) : statistics :=
  let totalCustomers := length allCustomers in
  let customersWithGrowth :=
    length (filter (fun c => Qgtb (or0 (Variance c)) 0) allCustomers) in
  let customersWithDecline :=
    length (filter (fun c => Qltb (or0 (Variance c)) 0) allCustomers) in
  let customersNoChange :=
    length (filter (fun c => Qeqb (or0 (Variance c)) 0) allCustomers) in
  let totalQ3Revenue :=
    fold_left (fun sum c => add sum (Fin (or0 (Quarter_3_Revenue c))))
      allCustomers (Fin 0) in
  let totalQ4Revenue :=
    fold_left (fun sum c => add sum (Fin (or0 (Quarter_4_Revenue c))))
      allCustomers (Fin 0) in
  {| totalCustomers := totalCustomers;
     customersWithGrowth := customersWithGrowth;
     customersWithDecline := customersWithDecline;
     customersNoChange := customersNoChange;
     growthPercentage := percentOfCount customersWithGrowth totalCustomers;
     declinePercentage := percentOfCount customersWithDecline totalCustomers;
     noChangePercentage := percentOfCount customersNoChange totalCustomers;
     totalQ3Revenue := totalQ3Revenue;
     totalQ4Revenue := totalQ4Revenue |}.

End CustomersService64.

(** ** middleware/validation.js *)

Module Validation.

(** A query-string parameter as the handlers see it: absent, the string
    Express parsed, or the number [sanitizeQuery] stored in its place.
    The number is an integer-valued double, given by its value; the
    integers 2^1024 and -2^1024, which no double has for value, stand
    for Infinity and -Infinity: as a limit either is beyond every array
    length, as the infinity is. *)
Inductive qparam : Type :=
  | Absent
  | Str (s : string)
  | NumV (n : Z).

Definition infinity : Z := 2 ^ 1024.

(** The Number an integer denotes: the nearest double, which is the
    integer itself up to 2^53. *)
Definition toDouble (n : Z) : Z :=
  if (Z.abs n <=? 2 ^ 53)%Z then n
  else match B64.round (inject_Z n) with
       | B64.Fin q => Qfloor q
       | B64.Inf negative => if negative then (- infinity)%Z else infinity
       | B64.NaN => 0%Z
       end.

(** The decimal digits of an integer. *)
Definition decimal (n : Z) : string := NilZero.string_of_int (Z.to_int n).

(** Number::toString picks the shortest digit string that still denotes
    the double [x > 2^53], the nearest to [x] when several do, and pads
    it with zeros. [shortest_step x D k] looks among the integers with
    [k] significant digits, [D] being the number of digits of [x]: only
    the two around [x] can be nearest. *)
Definition shortest_step (x D k : Z) : option Z :=
  let p := (10 ^ (D - k))%Z in
  let lo := (x / p * p)%Z in
  let hi := (lo + p)%Z in
  match (toDouble lo =? x)%Z, (toDouble hi =? x)%Z with
  | true, true =>
      Some (if (x - lo <? hi - x)%Z then lo
            else if (hi - x <? x - lo)%Z then hi
            else if Z.even (lo / p) then lo else hi)
  | true, false => Some lo
  | false, true => Some hi
  | false, false => None
  end.

Fixpoint shortest_from (x D k : Z) (tries : nat) : Z :=
  match tries with
  | O => x
  | S tries' =>
      match shortest_step x D k with
      | Some c => c
      | None => shortest_from x D (k + 1) tries'
      end
  end.

(** Seventeen significant digits denote any double. *)
Definition shortest (x : Z) : Z :=
  shortest_from x (Z.of_nat (String.length (decimal x))) 1 17.

Fixpoint dropTrailingZeros (s : string) : string :=
  match s with
  | EmptyString => EmptyString
  | String c r =>
      match dropTrailingZeros r with
      | EmptyString => if Ascii.eqb c "0" then EmptyString else String c EmptyString
      | r' => String c r'
      end
  end.

(** The exponential form [d.ddde+n] of an integer written [digits]. *)
Definition exponential (digits : string) : string :=
  match dropTrailingZeros digits with
  | EmptyString => digits
  | String d rest =>
      String d (match rest with
                | EmptyString => EmptyString
                | _ => String "." rest
                end)
      ++ "e+" ++ decimal (Z.of_nat (String.length digits) - 1)
  end.

(** Number::toString on an integer-valued double: plain digits below
    10^21, the exponential form from there on. *)
Definition numberToString (n : Z) : string :=
  if (Z.abs n <=? 2 ^ 53)%Z then decimal n
  else if (infinity <=? Z.abs n)%Z
  then (if (n <? 0)%Z then "-Infinity" else "Infinity")
  else
    let digits := decimal (shortest (Z.abs n)) in
    let body :=
      if (Z.of_nat (String.length digits) <=? 21)%Z then digits
      else exponential digits in
    if (n <? 0)%Z then String "-" body else body.

(** ToString, by which [parseInt] reads its argument. *)
Definition toString (v : qparam) : string :=
  match v with
  | Absent => "undefined"
  | Str s => s
  | NumV n => numberToString n
  end.

(** ToBoolean. *)
Definition truthy_param (v : qparam) : bool :=
  match v with
  | Absent => false
  | Str s => negb (String.eqb s "")
  | NumV n => negb (n =? 0)%Z
  end.

(** White space skipped by [parseInt]: TAB, LF, VT, FF, CR, SP, NBSP
    (strings are sequences of code units below 256). *)
Definition isWhite (c : ascii) : bool :=
  let n := nat_of_ascii c in
  ((9 <=? n)%nat && (n <=? 13)%nat) || (n =? 32)%nat || (n =? 160)%nat.

Fixpoint trimStart (s : string) : string :=
  match s with
  | EmptyString => EmptyString
  | String c s' => if isWhite c then trimStart s' else s
  end.

(** The value of a character as a digit: 0-9, then a-z and A-Z as
    10-35. *)
Definition digitVal (c : ascii) : option Z :=
  let n := Z.of_nat (nat_of_ascii c) in
  if ((48 <=? n) && (n <=? 57))%Z then Some (n - 48)%Z
  else if ((97 <=? n) && (n <=? 122))%Z then Some (n - 87)%Z
  else if ((65 <=? n) && (n <=? 90))%Z then Some (n - 55)%Z
  else None.

(** The longest prefix of radix-[R] digits, read as an integer; [acc] is
    [None] until a digit has been read. *)
Fixpoint parseDigits (R : Z) (s : string) (acc : option Z) : option Z :=
  match s with
  | EmptyString => acc
  | String c s' =>
      match digitVal c with
      | Some d =>
          if (d <? R)%Z
          then parseDigits R s'
                 (Some match acc with
                       | Some a => (a * R + d)%Z
                       | None => d
                       end)
          else acc
      | None => acc
      end
  end.

(** [parseInt(string)] with no radix: leading white space, a sign, an
    optional 0x or 0X prefix selecting radix 16, then digits; the
    integer read is rounded to a double; [None] is NaN. *)
Definition parseInt (s : string) : option Z :=
  let s := trimStart s in
  let '(sign, s) :=
    match s with
    | String "-" r => ((-1)%Z, r)
    | String "+" r => (1%Z, r)
    | _ => (1%Z, s)
    end in
  let '(R, s) :=
    match s with
    | String "0" (String "x" r) => (16%Z, r)
    | String "0" (String "X" r) => (16%Z, r)
    | _ => (10%Z, s)
    end in
  option_map (fun n => toDouble (sign * n)) (parseDigits R s None).

Definition parseIntOf (v : qparam) : option Z := parseInt (toString v).

(** [r || d] on the result of [parseInt]: NaN and 0 are falsy. *)
Definition orElse (r : option Z) (d : Z) : Z :=
  match r with
  | Some n => if (n =? 0)%Z then d else n
  | None => d
  end.

(** [sanitizeQuery], on [req.query.limit]. *)
Definition sanitizeQuery_limit (limit : qparam) : qparam :=
  if truthy_param limit then NumV (orElse (parseIntOf limit) 10) else limit.

(** [sanitizeQuery], on [req.query.page]. *)
Definition sanitizeQuery_page (page : qparam) : qparam :=
  if truthy_param page then NumV (orElse (parseIntOf page) 1) else page.

End Validation.

(** ** controllers/countriesController.js, behind the routes
    [router.get(path, sanitizeQuery, handler)] *)

Module CountriesController.

Import Validation.

(** The limit [getTopCountriesByRevenue] passes to its service. *)
Definition topRevenue_limit (limit : qparam) : Z :=
  orElse (parseIntOf limit) 10.

(** The limit [getRevenueShareByCountry] passes to its service. *)
Definition revenueShare_limit (limit : qparam) : Z :=
  orElse (parseIntOf limit) 8.

(** GET /api/countries/top-revenue: the middleware, then the handler. *)
Definition route_topRevenue_limit (limit : qparam) : Z :=
  topRevenue_limit (sanitizeQuery_limit limit).

(** GET /api/countries/revenue-share: the middleware, then the handler. *)
Definition route_revenueShare_limit (limit : qparam) : Z :=
  revenueShare_limit (sanitizeQuery_limit limit).

Definition encodeShare (e : CountriesService.shareEntry) : jsval :=
  JObj [ ("countryName"%string, JStr (CountriesService.countryName e));
         ("revenue"%string, JNum (CountriesService.revenue e));
         ("percentage"%string, JNum (CountriesService.percentage e)) ].

(** The handler [getRevenueShareByCountry] on a request that reached it. *)
Definition getRevenueShareByCountry_handler (limit : qparam)
  (docs : list CountriesService.country)
  : ResponseHandler.sent (list (string * jsval)) :=
  let limit := revenueShare_limit limit in
  let countries := CountriesService.getRevenueShareByCountry docs limit in
  ResponseHandler.successResponse (Some 200%Z)
    (Some "Revenue share by country retrieved successfully"%string)
    (JArr (map encodeShare countries)).

End CountriesController.

(** ** The paginated handlers: revenueController.getCustomerQuarterlyData
    and customersController.getCustomerAnalysis *)

Section PaginatedHandlers.

Import Validation.

(** [error.message] of the error a failed fetch throws. *)
Variable error_message : string.

(** The [filters] object both handlers build; [minQ4Revenue] stands for
    [parseFloat(req.query.minQ4Revenue) || 0] and [positiveGrowthOnly]
    for [req.query.positiveGrowthOnly === 'true']. *)
Definition filtersOf (minQ4Revenue : Q) (positiveGrowthOnly : bool)
  (limit page : qparam) : filters :=
  {| minQ4Revenue := Some minQ4Revenue;
     positiveGrowthOnly := Some positiveGrowthOnly;
     limit := Some (orElse (parseIntOf limit) 50);
     page := Some (orElse (parseIntOf page) 1) |}.

Definition handled : Type :=
  (ResponseHandler.sent (ResponseHandler.paginated (list customerRow))
   + ResponseHandler.sent (list (string * jsval)))%type.

Definition respondPage (result : option pageResult) (ok failed : string)
  : handled :=
  match result with
  | Some result =>
      inl (ResponseHandler.paginatedResponse (customers result)
             (currentPage (pagination result))
             (itemsPerPage (pagination result))
             (totalItems (pagination result)) ok)
  | None =>
      inr (ResponseHandler.errorResponse (Some 500%Z) (Some failed)
             (JStr error_message))
  end.

Definition getCustomerQuarterlyData_handler (f : filters)
  (docs : list customer) : handled :=
  respondPage (RevenueService.getCustomerQuarterlyData f docs)
    "Customer quarterly data retrieved successfully"
    "Failed to retrieve customer quarterly data".

Definition getCustomerAnalysis_handler (f : filters)
  (docs : list customer) : handled :=
  respondPage (CustomersService.getCustomerAnalysis f docs)
    "Customer analysis data retrieved successfully"
    "Failed to retrieve customer analysis data".

End PaginatedHandlers.

(** ** Definitions used to state the properties *)

(** The sum of a list of numbers. *)
Definition sumQ (l : list Q) : Q := fold_right Qplus 0 l.

(** The metric the countries are ranked by. *)
Definition revenueOf (c : CountriesService.country) : Q :=
  or0 (CountriesService.Yearly_Revenue c).

(** Descending order of a key. *)
Definition descending {A : Type} (key : A -> Q) (l : list A) : Prop :=
  StronglySorted (fun a b => key b <= key a) l.

(** Rounding to the nearest integer with a tie going away from zero: the
    rounding the specification names. *)
Definition round_half_away (x : Q) : Z :=
  if Qltb x 0 then (- Qfloor (- x + (1 # 2)))%Z else Qfloor (x + (1 # 2)).

(** A number whose fractional part is exactly one half. *)
Definition is_tie (x : Q) : Prop := inject_Z (Qfloor (x + (1 # 2))) == x + (1 # 2).

(** The rounding the specification names, on the code's scaled value:
    the binary64 product of [v] and 100 is rounded half away from zero
    and divided by 100 in binary64. *)
Definition roundHalfAway64 (v : Q) : B64.double :=
  match B64.mul (B64.Fin v) (B64.pow10 2) with
  | B64.Fin scaled =>
      B64.div (B64.Fin (inject_Z (round_half_away scaled))) (B64.pow10 2)
  | other => other
  end.

(** The binary64 sum of a list of numbers: added to 0 from left to
    right, every addition rounded. *)
Fixpoint sum64_from (acc : B64.double) (l : list Q) : B64.double :=
  match l with
  | [] => acc
  | x :: l' => sum64_from (B64.add acc (B64.Fin x)) l'
  end.

Definition sum64 (l : list Q) : B64.double := sum64_from (B64.Fin 0) l.

(** The order of the store on a numeric field: a missing or null field
    comes below every number. *)
Definition field_le (a b : field) : Prop :=
  match a, b with
  | Num x, Num y => x <= y
  | Num _, _ => False
  | _, _ => True
  end.

(** Descending in the order of the store. *)
Definition storedDescending {A : Type} (key : A -> field) (l : list A) : Prop :=
  StronglySorted (fun a b => field_le (key b) (key a)) l.

(** A multiple of 2^-1074, the smallest positive double: every finite
    double is one. *)
Definition on_grid (x : Q) : Prop :=
  exists k : Z, x == inject_Z k * 2 ^ (-1074).

(** A number that is a finite double: rounding leaves it as it is. *)
Definition is_double (x : Q) : Prop :=
  exists y : Q, B64.round x = B64.Fin y /\ y == x.

(** A non-negative whole number. *)
Definition whole (x : Q) : Prop := exists n : Z, (0 <= n)%Z /\ x == inject_Z n.

(** [counts P l n]: exactly [n] elements of [l] satisfy [P]. *)
Inductive counts {A : Type} (P : A -> Prop) : list A -> nat -> Prop :=
  | counts_nil : counts P [] 0
  | counts_in (a : A) (l : list A) (n : nat) :
      P a -> counts P l n -> counts P (a :: l) (S n)
  | counts_out (a : A) (l : list A) (n : nat) :
      ~ P a -> counts P l n -> counts P (a :: l) n.

(** The filter predicate of the paginated reports, on a document and on
    a returned row. *)
Definition keeps (minQ4Revenue : Q) (positiveGrowthOnly : bool) (c : customer)
  : bool :=
  (Qle_bool minQ4Revenue 0 || Qle_bool minQ4Revenue (or0 (Quarter_4_Revenue c)))
  && (negb positiveGrowthOnly || Qgtb (or0 (Variance c)) 0).

Definition row_ok (minQ4Revenue : Q) (positiveGrowthOnly : bool) (r : customerRow)
  : Prop :=
  (minQ4Revenue <= 0 \/ minQ4Revenue <= q4Revenue r)
  /\ (positiveGrowthOnly = false \/ 0 < variance r).

(** Sample collections: the scenario of three countries, and documents
    whose metric is missing, null or 0. *)
Definition abc : list CountriesService.country :=
  [ CountriesService.mkCountry "A" (Num 100);
    CountriesService.mkCountry "B" (Num 300);
    CountriesService.mkCountry "C" (Num 200) ].

Definition zeros : list CountriesService.country :=
  [ CountriesService.mkCountry "A" Missing;
    CountriesService.mkCountry "B" (Num 0);
    CountriesService.mkCountry "C" Null ].

Definition noRegions : list RegionsService.region :=
  [ RegionsService.mkRegion "North" Missing;
    RegionsService.mkRegion "South" (Num 0) ].

(** Revenues 0.1, 0.2 and -0.3 as the doubles those literals denote:
    their binary64 total is 2^-54, not 0. *)
Definition cancelling : list CountriesService.country :=
  [ CountriesService.mkCountry "A" (Num (B64.literal (1 # 10)));
    CountriesService.mkCountry "B" (Num (B64.literal (2 # 10)));
    CountriesService.mkCountry "C" (Num (- B64.literal (3 # 10))) ].

(** Revenues 0.1, 0.2 and 0.3, as doubles. *)
Definition tenths : list CountriesService.country :=
  [ CountriesService.mkCountry "A" (Num (B64.literal (1 # 10)));
    CountriesService.mkCountry "B" (Num (B64.literal (2 # 10)));
    CountriesService.mkCountry "C" (Num (B64.literal (3 # 10))) ].

(** A negative revenue beside a missing one. *)
Definition lossAndGap : list CountriesService.country :=
  [ CountriesService.mkCountry "A" (Num (-5));
    CountriesService.mkCountry "B" Missing ].

Definition threeCustomers : list customer :=
  [ mkCustomer "X" (Num 90) (Num 100) (Num 10) (Num 11);
    mkCustomer "Y" (Num 250) (Num 200) (Num (-50)) (Num (-20));
    mkCustomer "Z" (Num 70) (Num 70) Missing Null ].

(** The integer written by decimal digits, most significant first, after
    digits that already gave [acc]. *)
Fixpoint uint_val (d : Decimal.uint) (acc : Z) : Z :=
  match d with
  | Decimal.Nil => acc
  | Decimal.D0 d => uint_val d (acc * 10 + 0)
  | Decimal.D1 d => uint_val d (acc * 10 + 1)
  | Decimal.D2 d => uint_val d (acc * 10 + 2)
  | Decimal.D3 d => uint_val d (acc * 10 + 3)
  | Decimal.D4 d => uint_val d (acc * 10 + 4)
  | Decimal.D5 d => uint_val d (acc * 10 + 5)
  | Decimal.D6 d => uint_val d (acc * 10 + 6)
  | Decimal.D7 d => uint_val d (acc * 10 + 7)
  | Decimal.D8 d => uint_val d (acc * 10 + 8)
  | Decimal.D9 d => uint_val d (acc * 10 + 9)
  end%Z.

(** Sample filters: a minimum Q4 revenue of 150, and the third page of
    ten rows. *)
Definition minQ4_150 : filters :=
  mkFilters (Some 150) (Some false) (Some 10%Z) (Some 1%Z).

Definition thirdPage : filters :=
  mkFilters (Some 0) (Some false) (Some 10%Z) (Some 3%Z).


(** Evaluates [digitVal] at the character in the goal, and the radix
    test on its value. *)
Ltac eval_digit :=
  match goal with
  | |- context [Validation.digitVal ?c] =>
      let v := eval vm_compute in (Validation.digitVal c) in
      change (Validation.digitVal c) with v
  end;
  cbv beta iota;
  match goal with
  | |- context [(?d <? ?R)%Z] =>
      let b := eval vm_compute in (d <? R)%Z in
      change (d <? R)%Z with b
  end;
  cbv beta iota.

(** Evaluates [isWhite] at the characters in the goal, and the matches
    that depend on them. *)
Ltac eval_white :=
  repeat match goal with
         | |- context [Validation.isWhite ?c] =>
             let b := eval vm_compute in (Validation.isWhite c) in
             change (Validation.isWhite c) with b
         end;
  cbv beta iota zeta.

(** Replaces the powers of two with closed exponents in the hypotheses
    by their values. *)
Ltac eval_pow2 :=
  repeat match goal with
         | H : context [Qpower 2 ?e] |- _ =>
             let v := eval vm_compute in (Qpower 2 e) in
             change (Qpower 2 e) with v in H
         end.

(** The comparator [(a, b) => key(b) - key(a)] of a descending sort. *)
Definition descBy {A : Type} (key : A -> Q) (a b : A) : Q := key b - key a.

(** ** controllers/customersController.js behind the routes of
    routes/customers.js, and the rest of [sanitizeQuery] *)

Module CustomersController.

Import Validation.

(** [req.query.positiveGrowthOnly] as the handlers see it: absent, the
    string Express parsed, or the boolean [sanitizeQuery] stored in its
    place. *)
Inductive flagParam : Type :=
  | NoFlag
  | FlagStr (s : string)
  | FlagBool (b : bool).

(** ToBoolean. *)
Definition truthy_flag (v : flagParam) : bool :=
  match v with
  | NoFlag => false
  | FlagStr s => negb (String.eqb s "")
  | FlagBool b => b
  end.

(** [v === 'true']: strict equality with the string. *)
Definition is_true_string (v : flagParam) : bool :=
  match v with
  | FlagStr s => String.eqb s "true"
  | _ => false
  end.

(** [sanitizeQuery], on [req.query.positiveGrowthOnly]. *)
Definition sanitizeQuery_positiveGrowthOnly (v : flagParam) : flagParam :=
  if truthy_flag v then FlagBool (is_true_string v) else v.

(** The limit [getCustomerConcentration] passes to its service. *)
Definition concentration_limit (limit : qparam) : Z :=
  orElse (parseIntOf limit) 20.

(** GET /api/customers/concentration: the middleware, then the handler. *)
Definition route_concentration_limit (limit : qparam) : Z :=
  concentration_limit (sanitizeQuery_limit limit).

(** The [filters] object [getCustomerAnalysis] builds from the query;
    [minQ4Revenue] stands for [parseFloat(req.query.minQ4Revenue) || 0]. *)
Definition analysis_filters (minQ4Revenue : Q) (positiveGrowthOnly : flagParam)
  (limit page : qparam) : filters :=
  {| minQ4Revenue := Some minQ4Revenue;
     positiveGrowthOnly := Some (is_true_string positiveGrowthOnly);
     limit := Some (orElse (parseIntOf limit) 50);
     page := Some (orElse (parseIntOf page) 1) |}.

(** GET /api/customers/analysis: the middleware, then the filters the
    handler builds from the query it left. *)
Definition route_analysis_filters (minQ4Revenue : Q)
  (positiveGrowthOnly : flagParam) (limit page : qparam) : filters :=
  analysis_filters minQ4Revenue
    (sanitizeQuery_positiveGrowthOnly positiveGrowthOnly)
    (sanitizeQuery_limit limit) (sanitizeQuery_page page).

End CustomersController.

(** The rows [getCustomerAnalysis] returns for page [pageNo], none when
    the fetch fails. *)
Definition analysisPage (minQ4Revenue : Q) (positiveGrowthOnly : bool)
  (pageSize : Z) (docs : list customer) (pageNo : Z) : list customerRow :=
  match CustomersService.getCustomerAnalysis
          (mkFilters (Some minQ4Revenue) (Some positiveGrowthOnly)
             (Some pageSize) (Some pageNo)) docs with
  | Some r => customers r
  | None => []
  end.

(** The page numbers 1 .. [n]. *)
Definition pageNumbers (n : Z) : list Z :=
  map (fun i => (Z.of_nat i + 1)%Z) (seq 0 (Z.to_nat n)).

(** The documents the analysis selects, in the order of its cursor. *)
Definition analysisSelection (minQ4Revenue : Q) (positiveGrowthOnly : bool)
  (docs : list customer) : list customer :=
  sort (Store.byKeyDesc Quarter_4_Revenue)
    (filter (keeps minQ4Revenue positiveGrowthOnly) docs).

(** ** Lookup by name: countriesService.getCountryByName and its handler *)

Module Lookup.

(** What an awaited call gives: a value, or a thrown error with its
    message. *)
Inductive outcome (A : Type) : Type :=
  | Returned (a : A)
  | Thrown (message : string).
Arguments Returned {A}.
Arguments Thrown {A}.

(** [s.includes(sub)]. *)
Fixpoint includes (s sub : string) : bool :=
  if String.prefix sub s then true
  else match s with
       | EmptyString => false
       | String _ s' => includes s' sub
       end.

(** [collection.findOne({ Country: countryName })]: the first document
    whose field is that string, or null. *)
Definition findOne (countryName : string)
  (docs : list CountriesService.country) : option CountriesService.country :=
  find (fun c => String.eqb (CountriesService.Country c) countryName) docs.

(** [getCountryByName(countryName)]; [fetched] is what the store gives:
    the documents of the collection, or the error it throws, which the
    service throws on. *)
Definition getCountryByName (countryName : string)
  (fetched : outcome (list CountriesService.country))
  : outcome CountriesService.TopRow.t :=
  match fetched with
  | Thrown message => Thrown message
  | Returned docs =>
      match findOne countryName docs with
      | None => Thrown ("Country '" ++ countryName ++ "' not found")
      | Some country =>
          Returned
            {| CountriesService.TopRow.countryName :=
                 CountriesService.Country country;
               CountriesService.TopRow.yearlyRevenue :=
                 or0 (CountriesService.Yearly_Revenue country) |}
      end
  end.

Definition encodeCountry (r : CountriesService.TopRow.t) : jsval :=
  JObj [ ("countryName"%string, JStr (CountriesService.TopRow.countryName r));
         ("yearlyRevenue"%string, JNum (CountriesService.TopRow.yearlyRevenue r)) ].

(** The handler [getCountryByName] of GET /api/countries/:countryName. *)
Definition getCountryByName_handler (countryName : string)
  (fetched : outcome (list CountriesService.country))
  : ResponseHandler.sent (list (string * jsval)) :=
  match getCountryByName countryName fetched with
  | Returned country =>
      ResponseHandler.successResponse (Some 200%Z)
        (Some "Country retrieved successfully"%string) (encodeCountry country)
  | Thrown message =>
      if includes message "not found"
      then ResponseHandler.errorResponse (Some 404%Z)
             (Some "Country not found"%string) (JStr message)
      else ResponseHandler.errorResponse (Some 500%Z)
             (Some "Failed to retrieve country"%string) (JStr message)
  end.

End Lookup.

Definition twoRegions : list RegionsService.region :=
  [ RegionsService.mkRegion "North" (Num 30);
    RegionsService.mkRegion "South" (Num 10);
    RegionsService.mkRegion "West" Null ].

(** ** middleware/errorHandler.js *)

Module ErrorHandler.

(** An error as the middleware reads it: its message, its name, its
    [code] and [statusCode] properties when it has them, the messages of
    the values of [err.errors] ([None] when [err.errors] is undefined),
    and its stack. *)
Record jsError := mkError {
  message : string;
  name : string;
  code : option Z;
  statusCode : option Z;
  status : option string;
  errors : option (list string);
  stack : string
}.

(** [`${statusCode}`.startsWith('4') ? 'fail' : 'error']. *)
Definition statusOf (statusCode : Z) : string :=
  if String.prefix "4" (Validation.toString (Validation.NumV statusCode))
  then "fail" else "error".

(** [new ApiError(statusCode, message)]; the class does not set a name,
    so the name is that of [Error]. *)
Definition ApiError (statusCode : Z) (message stack : string) : jsError :=
  {| message := message;
     name := "Error";
     code := None;
     statusCode := Some statusCode;
     status := Some (statusOf statusCode);
     errors := None;
     stack := stack |}.

(** [notFound]: the error handed to [next] for a route nothing
    matched. *)
Definition notFound (originalUrl stack : string) : jsError :=
  ApiError 404 ("Route " ++ originalUrl ++ " not found") stack.

(** The [error] object of the response body, and the body. *)
Record errorInfo := mkInfo {
  info_message : string;
  info_statusCode : Z;
  info_stack : option string
}.

Record errorBody := mkBody {
  success : bool;
  error : errorInfo
}.

(** [values.map(val => val.message).join(', ')]. *)
Definition joinMessages (messages : list string) : string :=
  String.concat ", " messages.

(** The answer of the catch block. *)
Definition fallbackAnswer : ResponseHandler.sent errorBody :=
  ResponseHandler.mkSent 500%Z
    {| success := false;
       error := {| info_message := "Internal Server Error";
                   info_statusCode := 500;
                   info_stack := None |} |}.

(** The status codes Node accepts when the headers are written; sending
    with another one throws. *)
Definition validStatus (statusCode : Z) : bool :=
  ((100 <=? statusCode) && (statusCode <=? 999))%Z.

(** [errorHandler(err, req, res, next)]; [development] is
    [process.env.NODE_ENV === 'development']. [error] is followed as the
    pair of its [statusCode] and [message]. Inside the try block
    [Object.values] of an undefined [err.errors] throws, and so does
    sending with an invalid status code; the catch block then answers. *)
Definition errorHandler (err : jsError) (development : bool)
  : ResponseHandler.sent errorBody :=
  let error := (statusCode err, message err) in
  let error :=
    if match code err with Some c => (c =? 11000)%Z | None => false end
    then (Some 400%Z, "Duplicate field value entered"%string) else error in
  let validated :=
    if String.eqb (name err) "ValidationError"
    then match errors err with
         | Some messages => Some (Some 400%Z, joinMessages messages)
         | None => None
         end
    else Some error in
  match validated with
  | None => fallbackAnswer
  | Some error =>
      let error :=
        if String.eqb (name err) "CastError"
        then (Some 404%Z, "Resource not found"%string) else error in
      let error :=
        if String.eqb (name err) "JsonWebTokenError"
        then (Some 401%Z, "Invalid token"%string) else error in
      let error :=
        if String.eqb (name err) "TokenExpiredError"
        then (Some 401%Z, "Token expired"%string) else error in
      let statusCode := Validation.orElse (fst error) 500 in
      let message :=
        if String.eqb (snd error) "" then "Internal Server Error"%string
        else snd error in
      if validStatus statusCode
      then ResponseHandler.mkSent statusCode
             {| success := false;
                error := {| info_message := message;
                            info_statusCode := statusCode;
                            info_stack :=
                              if development then Some (stack err)
                              else None |} |}
      else fallbackAnswer
  end.

End ErrorHandler.

(** The number of rows of a report with a given growth label. *)
Definition labelled (g : growth) (rows : list customerRow) : nat :=
  length (filter (fun r => match growthStatus r, g with
                           | Some Positive, Positive => true
                           | Some Negative, Negative => true
                           | Some Neutral, Neutral => true
                           | _, _ => false
                           end) rows).

(** ** Numbers: comparison and rounding *)

Lemma Qltb_lt (a b : Q) : Qltb a b = true <-> a < b.
Proof.
  unfold Qltb. rewrite negb_true_iff. split; intro H.
  - apply Qnot_le_lt. intro Hc. apply Qle_bool_iff in Hc. congruence.
  - apply not_true_is_false. intro Hc. apply Qle_bool_iff in Hc.
    exact (Qlt_not_le _ _ H Hc).
Qed.

Lemma Qltb_ge (a b : Q) : Qltb a b = false <-> b <= a.
Proof.
  unfold Qltb. rewrite negb_false_iff. apply Qle_bool_iff.
Qed.

Lemma Qeqb_eq (a b : Q) : Qeqb a b = true <-> a == b.
Proof. apply Qeq_bool_iff. Qed.



Lemma floor_half_bounds (y : Q) :
  y - (1 # 2) < inject_Z (Qfloor (y + (1 # 2)))
  /\ inject_Z (Qfloor (y + (1 # 2))) <= y + (1 # 2).
Proof.
  split.
  - pose proof (Qlt_floor (y + (1 # 2))) as H.
    rewrite inject_Z_plus in H. change (inject_Z 1) with 1 in H. lra.
  - apply Qfloor_le.
Qed.

(** ** binary64: the error of a rounding *)

Section RoundingFacts.

Import B64.

Lemma rne_near (y : Q) : Qabs (inject_Z (rne y) - y) <= 1 # 2.
Proof.
  destruct y as [n d]. unfold rne. cbn [Qnum Qden].
  pose proof (Z.div_mod n (Zpos d) ltac:(lia)) as Hdm.
  pose proof (Z.mod_pos_bound n (Zpos d) ltac:(lia)) as Hb.
  set (f := (n / Zpos d)%Z) in *. set (r := (n mod Zpos d)%Z) in *.
  apply Qabs_Qle_condition.
  assert (A : (2 * r <= Zpos d)%Z -> - (1 # 2) <= inject_Z f - (n # d) <= 1 # 2).
  { intro H. unfold Qle, Qminus, Qplus, Qopp, inject_Z. cbn [Qnum Qden].
    split; nia. }
  assert (B : (2 * r >= Zpos d)%Z -> - (1 # 2) <= inject_Z (f + 1) - (n # d) <= 1 # 2).
  { intro H. unfold Qle, Qminus, Qplus, Qopp, inject_Z. cbn [Qnum Qden].
    split; nia. }
  destruct (Z.compare_spec (2 * r) (Zpos d)) as [E | L | G].
  - destruct (Z.even f); [apply A | apply B]; lia.
  - apply A. lia.
  - apply B. lia.
Qed.

Lemma rne_int (y : Q) (z : Z) : y == inject_Z z -> rne y = z.
Proof.
  destruct y as [n d]. unfold Qeq, inject_Z, rne. cbn [Qnum Qden]. intro E.
  assert (En : n = (z * Zpos d)%Z) by lia.
  rewrite En, Z.div_mul, Z.mod_mul by lia.
  change (2 * 0)%Z with 0%Z. reflexivity.
Qed.

Lemma rne_nonneg (y : Q) : 0 <= y -> (0 <= rne y)%Z.
Proof.
  destruct y as [n d]. unfold Qle, rne. cbn [Qnum Qden]. intro H.
  assert (0 <= n / Zpos d)%Z by (apply Z.div_pos; lia).
  destruct (_ ?= _)%Z; [destruct (Z.even _) | |]; lia.
Qed.

Lemma pow2_pos (e : Z) : 0 < 2 ^ e.
Proof. apply Qpower_0_lt. reflexivity. Qed.

Lemma pow2_le (a b : Z) : (a <= b)%Z -> 2 ^ a <= 2 ^ b.
Proof. intro H. apply Qpower_le_compat_l; [exact H | discriminate]. Qed.

Lemma pow2_lt_inv (a b : Z) : 2 ^ a < 2 ^ b -> (a < b)%Z.
Proof. intro H. apply (Qpower_lt_compat_l_inv 2); [exact H | reflexivity]. Qed.

Lemma pow2_half (e : Z) : 2 ^ e * (1 # 2) == 2 ^ (e - 1).
Proof.
  unfold Z.sub. rewrite Qpower_plus by discriminate. reflexivity.
Qed.

Lemma Zfrac_le (A B a b : Z) :
  (0 < B)%Z -> (0 < b)%Z -> (A * b <= a * B)%Z ->
  inject_Z A / inject_Z B <= inject_Z a / inject_Z b.
Proof.
  intros HB Hb H. destruct B as [|B|B]; try lia. destruct b as [|b|b]; try lia.
  unfold Qle, Qdiv, Qmult, Qinv, inject_Z. cbn [Qnum Qden]. nia.
Qed.

Lemma ilog2_lower (x : Q) : 0 < x -> 2 ^ ilog2 x <= x.
Proof.
  intro Hx. unfold ilog2.
  destruct (Qle_bool _ x) eqn:E.
  - apply Qle_bool_iff. exact E.
  - clear E. destruct x as [a b].
    assert (Ha : (0 < a)%Z) by (unfold Qlt in Hx; cbn in Hx; lia).
    cbn [Qnum Qden].
    pose proof (Z.log2_spec a Ha) as [La _].
    pose proof (Z.log2_spec (Zpos b) ltac:(lia)) as [_ Ub].
    pose proof (Z.log2_nonneg a) as Na.
    pose proof (Z.log2_nonneg (Zpos b)) as Nb.
    set (la := Z.log2 a) in *. set (lb := Z.log2 (Zpos b)) in *.
    replace (la - lb - 1)%Z with (la - Z.succ lb)%Z by lia.
    rewrite Qpower_minus by discriminate.
    rewrite <- (Zpower_Qpower 2 la) by lia.
    rewrite <- (Zpower_Qpower 2 (Z.succ lb)) by lia.
    rewrite (Qmake_Qdiv a b).
    assert (0 < 2 ^ la)%Z by (apply Z.pow_pos_nonneg; lia).
    assert (0 < 2 ^ Z.succ lb)%Z by (apply Z.pow_pos_nonneg; lia).
    apply Zfrac_le; [assumption | lia | nia].
Qed.

Lemma round_pos_near (x : Q) (k : Z) :
  0 < x -> x < 2 ^ k -> (-1021 <= k <= 1023)%Z ->
  exists y, round_pos x = Fin y /\ Qabs (y - x) <= 2 ^ (k - 54) /\ 0 <= y.
Proof.
  intros Hx Hk Hr. unfold round_pos.
  set (e := ulp_exp x).
  assert (He : (-1074 <= e <= k - 53)%Z).
  { unfold e, ulp_exp.
    assert (ilog2 x < k)%Z.
    { apply pow2_lt_inv. eapply Qle_lt_trans; [apply ilog2_lower; exact Hx | exact Hk]. }
    lia. }
  clearbody e.
  set (m := rne (x / 2 ^ e)).
  pose proof (pow2_pos e) as Pe.
  assert (Hm : Qabs (inject_Z m - x / 2 ^ e) <= 1 # 2) by apply rne_near.
  assert (Hm0 : (0 <= m)%Z).
  { apply rne_nonneg. apply Qle_shift_div_l; [exact Pe |].
    rewrite Qmult_0_l. apply Qlt_le_weak. exact Hx. }
  assert (Hy : Qabs (inject_Z m * 2 ^ e - x) <= 2 ^ (k - 54)).
  { assert (E : inject_Z m * 2 ^ e - x == 2 ^ e * (inject_Z m - x / 2 ^ e)).
    { field. intro Hc. rewrite Hc in Pe. discriminate Pe. }
    rewrite E, Qabs_Qmult, (Qabs_pos (2 ^ e)) by (apply Qlt_le_weak; exact Pe).
    apply Qle_trans with (2 ^ e * (1 # 2)).
    - apply Qmult_le_l; [exact Pe | exact Hm].
    - rewrite pow2_half. apply pow2_le. lia. }
  assert (Hov : Qle_bool (2 ^ 1024) (inject_Z m * 2 ^ e) = false).
  { apply not_true_is_false. intro Hc. apply Qle_bool_iff in Hc.
    apply Qabs_Qle_condition in Hy. destruct Hy as [_ Hy].
    assert (2 ^ k + 2 ^ (k - 54) < 2 ^ 1024).
    { apply Qlt_le_trans with (2 ^ k + 2 ^ k).
      - apply Qplus_lt_r. apply Qpower_lt_compat_l; [lia | reflexivity].
      - assert (E : 2 ^ k + 2 ^ k == 2 ^ (k + 1)).
        { rewrite Qpower_plus by discriminate. change (2 ^ 1) with 2. ring. }
        rewrite E. apply pow2_le. lia. }
    lra. }
  rewrite Hov. exists (Qred (inject_Z m * 2 ^ e)). split; [reflexivity |].
  rewrite Qred_correct. split; [exact Hy |].
  apply Qmult_le_0_compat.
  - unfold Qle, inject_Z. cbn. lia.
  - apply Qlt_le_weak. exact Pe.
Qed.

Lemma round_near (x : Q) (k : Z) :
  0 <= x -> x < 2 ^ k -> (-1021 <= k <= 1023)%Z ->
  exists y, round x = Fin y /\ Qabs (y - x) <= 2 ^ (k - 54) /\ 0 <= y.
Proof.
  intros Hx Hk Hr. unfold round.
  destruct (Qnum x) as [|a|a] eqn:E.
  - exists 0. split; [reflexivity |]. split; [| apply Qle_refl].
    assert (Ex : x == 0) by (destruct x; cbn in E; subst; reflexivity).
    rewrite Ex. change (Qabs (0 - 0)) with 0. apply Qlt_le_weak, pow2_pos.
  - apply round_pos_near; [| exact Hk | exact Hr].
    destruct x as [n d]. cbn in E. subst n. reflexivity.
  - exfalso. destruct x as [n d]. cbn in E. subst n.
    unfold Qle in Hx. cbn in Hx. lia.
Qed.

Lemma round_pos_integer (x : Q) (n : Z) :
  x == inject_Z n -> (0 < n < 2 ^ 53)%Z ->
  exists y, round_pos x = Fin y /\ y == x.
Proof.
  intros Ex Hn.
  assert (Hx : 0 < x) by (rewrite Ex; unfold Qlt, inject_Z; cbn; lia).
  assert (Hk : x < 2 ^ 53).
  { rewrite Ex, <- (Zpower_Qpower 2 53) by lia.
    unfold Qlt, inject_Z. cbn [Qnum Qden]. lia. }
  unfold round_pos.
  set (e := ulp_exp x).
  assert (He : (-1074 <= e <= 0)%Z).
  { unfold e, ulp_exp.
    assert (ilog2 x < 53)%Z.
    { apply pow2_lt_inv. eapply Qle_lt_trans; [apply ilog2_lower; exact Hx | exact Hk]. }
    lia. }
  clearbody e.
  pose proof (pow2_pos e) as Pe.
  assert (Em : x / 2 ^ e == inject_Z (n * 2 ^ (- e))).
  { rewrite inject_Z_mult, (Zpower_Qpower 2 (- e)) by lia.
    rewrite Qpower_opp, Ex. change (inject_Z 2) with 2. reflexivity. }
  rewrite (rne_int _ _ Em).
  assert (Ey : inject_Z (n * 2 ^ (- e)) * 2 ^ e == x).
  { rewrite <- Em. field. intro Hc. rewrite Hc in Pe. discriminate Pe. }
  assert (Hov : Qle_bool (2 ^ 1024) (inject_Z (n * 2 ^ (- e)) * 2 ^ e) = false).
  { apply not_true_is_false. intro Hc. apply Qle_bool_iff in Hc.
    rewrite Ey in Hc.
    assert (2 ^ 53 <= 2 ^ 1024) by (apply pow2_le; lia). lra. }
  rewrite Hov. eexists. split; [reflexivity |].
  rewrite Qred_correct. exact Ey.
Qed.

Lemma round_integer (x : Q) (n : Z) :
  x == inject_Z n -> (0 <= n < 2 ^ 53)%Z ->
  exists y, round x = Fin y /\ y == x.
Proof.
  intros Ex Hn. unfold round.
  destruct (Qnum x) as [|a|a] eqn:E.
  - exists 0. split; [reflexivity |].
    destruct x; cbn in E; subst; reflexivity.
  - apply (round_pos_integer x n Ex).
    assert (0 < x) by (destruct x as [m d]; cbn in E; subst m; reflexivity).
    rewrite Ex in H. unfold Qlt, inject_Z in H. cbn in H. lia.
  - exfalso. destruct x as [m d]. cbn in E. subst m.
    unfold Qeq, inject_Z in Ex. cbn in Ex. lia.
Qed.

Lemma pow2_nonzero (e : Z) : ~ 2 ^ e == 0.
Proof. intro H. pose proof (pow2_pos e) as P. rewrite H in P. discriminate P. Qed.

Lemma pow2_grid (m e : Z) :
  (-1074 <= e)%Z -> on_grid (inject_Z m * 2 ^ e).
Proof.
  intro He. exists (m * 2 ^ (e + 1074))%Z.
  rewrite inject_Z_mult, (Zpower_Qpower 2 (e + 1074)) by lia.
  change (inject_Z 2) with 2.
  rewrite <- Qmult_assoc, <- Qpower_plus by discriminate.
  replace (e + 1074 + -1074)%Z with e by lia. reflexivity.
Qed.

Lemma on_grid_comp (x y : Q) : x == y -> on_grid x -> on_grid y.
Proof. intros E [k Hk]. exists k. rewrite <- E. exact Hk. Qed.

Lemma on_grid_plus (x y : Q) : on_grid x -> on_grid y -> on_grid (x + y).
Proof.
  intros [k Hk] [j Hj]. exists (k + j)%Z.
  rewrite inject_Z_plus, Hk, Hj. ring.
Qed.

Lemma ulp_exp_min (x : Q) : (-1074 <= B64.ulp_exp x)%Z.
Proof. unfold B64.ulp_exp. lia. Qed.

Lemma round_pos_grid (x y : Q) : B64.round_pos x = B64.Fin y -> on_grid y.
Proof.
  unfold B64.round_pos. cbv zeta.
  destruct (Qle_bool _ _); [discriminate |].
  intro E.
  assert (Ey : y = Qred (inject_Z (B64.rne (x / 2 ^ B64.ulp_exp x))
                         * 2 ^ B64.ulp_exp x)) by congruence.
  rewrite Ey.
  apply (on_grid_comp (inject_Z (B64.rne (x / 2 ^ B64.ulp_exp x))
                       * 2 ^ B64.ulp_exp x)).
  - symmetry. apply Qred_correct.
  - apply pow2_grid, ulp_exp_min.
Qed.

Lemma on_grid_opp (x : Q) : on_grid x -> on_grid (- x).
Proof.
  intros [k Hk]. exists (- k)%Z.
  rewrite inject_Z_opp, Hk. ring.
Qed.

Lemma round_grid (x y : Q) : B64.round x = B64.Fin y -> on_grid y.
Proof.
  unfold B64.round. destruct (Qnum x).
  - intro E. assert (Ey : y = 0) by congruence. rewrite Ey.
    exists 0%Z. reflexivity.
  - apply round_pos_grid.
  - destruct (B64.round_pos (- x)) as [| s | z] eqn:Ez; try discriminate.
    cbn [B64.opp]. intro E. assert (Ey : y = - z) by congruence. rewrite Ey.
    apply on_grid_opp, (round_pos_grid (- x)), Ez.
Qed.

Lemma is_double_grid (x : Q) : is_double x -> on_grid x.
Proof.
  intros (y & Ey & Hy). apply (on_grid_comp y x Hy), (round_grid x), Ey.
Qed.

(** A sum or a number on the grid of the doubles is rounded with a
    relative error of at most 2^-53: above the subnormal range by the
    53 bits kept, within it exactly. *)
Lemma round_pos_rel (x : Q) :
  0 < x -> x < 2 ^ 1023 -> on_grid x ->
  exists y, B64.round_pos x = B64.Fin y
            /\ Qabs (y - x) <= x * (1 # 9007199254740992).
Proof.
  intros Hx Hk [k Hgrid]. unfold B64.round_pos. cbv zeta.
  pose proof (ilog2_lower x Hx) as HL.
  assert (HL' : (B64.ilog2 x < 1023)%Z).
  { apply pow2_lt_inv. eapply Qle_lt_trans; [exact HL | exact Hk]. }
  set (L := B64.ilog2 x) in *.
  set (e := B64.ulp_exp x).
  assert (He : (e = L - 52 /\ -1074 <= L - 52)%Z \/ (e = -1074 /\ L - 52 < -1074)%Z).
  { unfold e, B64.ulp_exp. fold L. lia. }
  clearbody e.
  pose proof (pow2_pos e) as Pe.
  set (m := B64.rne (x / 2 ^ e)).
  assert (Hy : Qabs (inject_Z m * 2 ^ e - x) <= x * (1 # 9007199254740992)
               /\ Qabs (inject_Z m * 2 ^ e - x) <= 2 ^ 969).
  { destruct He as [[He Hn] | [He Hs]].
    - assert (Hm : Qabs (inject_Z m - x / 2 ^ e) <= 1 # 2) by apply rne_near.
      assert (E : inject_Z m * 2 ^ e - x == 2 ^ e * (inject_Z m - x / 2 ^ e)).
      { field. apply pow2_nonzero. }
      assert (Hb : Qabs (inject_Z m * 2 ^ e - x) <= 2 ^ e * (1 # 2)).
      { rewrite E, Qabs_Qmult, (Qabs_pos (2 ^ e)) by (apply Qlt_le_weak; exact Pe).
        apply Qmult_le_l; [exact Pe | exact Hm]. }
      assert (E2 : 2 ^ e * (1 # 2) == 2 ^ L * (1 # 9007199254740992)).
      { rewrite He. unfold Z.sub. rewrite Qpower_plus by discriminate.
        rewrite <- Qmult_assoc. reflexivity. }
      split.
      + apply (Qle_trans _ _ _ Hb). rewrite E2.
        apply Qmult_le_compat_r; [exact HL | discriminate].
      + apply (Qle_trans _ _ _ Hb). rewrite pow2_half. apply pow2_le. lia.
    - assert (Em : x / 2 ^ e == inject_Z k).
      { rewrite He, Hgrid. field. apply pow2_nonzero. }
      unfold m. rewrite (rne_int _ _ Em).
      assert (E0 : inject_Z k * 2 ^ e - x == 0).
      { rewrite He, Hgrid. ring. }
      rewrite E0. change (Qabs 0) with 0. split.
      + apply Qmult_le_0_compat; [apply Qlt_le_weak, Hx | discriminate].
      + apply Qlt_le_weak, pow2_pos. }
  destruct Hy as [Hrel Habs].
  assert (Hov : Qle_bool (2 ^ 1024) (inject_Z m * 2 ^ e) = false).
  { apply not_true_is_false. intro Hc. apply Qle_bool_iff in Hc.
    apply Qabs_Qle_condition in Habs. destruct Habs as [_ Habs].
    assert (2 ^ 1023 + 2 ^ 969 < 2 ^ 1024) by reflexivity.
    lra. }
  rewrite Hov. eexists. split; [reflexivity |].
  rewrite Qred_correct. exact Hrel.
Qed.

Lemma round_rel (x : Q) :
  0 <= x -> x < 2 ^ 1023 -> on_grid x ->
  exists y, B64.round x = B64.Fin y
            /\ Qabs (y - x) <= x * (1 # 9007199254740992)
            /\ on_grid y.
Proof.
  intros Hx Hk Hg.
  assert (H : exists y, B64.round x = B64.Fin y
                        /\ Qabs (y - x) <= x * (1 # 9007199254740992)).
  { unfold B64.round. destruct (Qnum x) as [| a | a] eqn:E.
    - exists 0. split; [reflexivity |].
      assert (Ex : x == 0) by (destruct x; cbn in E; subst; reflexivity).
      rewrite Ex. discriminate.
    - apply round_pos_rel; [| exact Hk | exact Hg].
      destruct x as [n d]. cbn in E. subst n. reflexivity.
    - exfalso. destruct x as [n d]. cbn in E. subst n.
      unfold Qle in Hx. cbn in Hx. lia. }
  destruct H as (y & Ey & Hy). exists y. split; [exact Ey |].
  split; [exact Hy |]. apply (round_grid x), Ey.
Qed.

End RoundingFacts.

(** ** Arrays: sort *)

Section SortFacts.

Context {A : Type}.
Variable cmp : A -> A -> Q.

Lemma insert_perm (x : A) (l : list A) : Permutation (insert cmp x l) (x :: l).
Proof.
  induction l as [| y l IH]; simpl.
  - apply Permutation_refl.
  - destruct (Qltb (cmp y x) 0).
    + apply perm_trans with (y :: x :: l).
      * apply perm_skip, IH.
      * apply perm_swap.
    + apply Permutation_refl.
Qed.

Lemma sort_perm (l : list A) : Permutation (sort cmp l) l.
Proof.
  induction l as [| x l IH]; simpl.
  - apply perm_nil.
  - apply perm_trans with (x :: sort cmp l).
    + apply insert_perm.
    + apply perm_skip, IH.
Qed.

Lemma sort_length (l : list A) : length (sort cmp l) = length l.
Proof. apply Permutation_length, sort_perm. Qed.

End SortFacts.

Section DescendingSort.

Context {A : Type}.
Variable key : A -> Q.

Lemma insert_descending (x : A) (l : list A) :
  descending key l -> descending key (insert (descBy key) x l).
Proof.
  unfold descending. induction l as [| y l IH]; simpl; intro Hs.
  - constructor; [constructor | constructor].
  - inversion Hs as [| ? ? Hl Hy]; subst.
    destruct (Qltb (descBy key y x) 0) eqn:E.
    + apply Qltb_lt in E. unfold descBy in E.
      constructor; [apply IH, Hl |].
      assert (Hp : Permutation (insert (descBy key) x l) (x :: l)) by apply insert_perm.
      apply Forall_forall. intros z Hz.
      apply (Permutation_in _ Hp) in Hz. destruct Hz as [-> | Hz].
      * lra.
      * rewrite Forall_forall in Hy. apply Hy, Hz.
    + apply Qltb_ge in E. unfold descBy in E.
      constructor; [exact Hs |].
      constructor; [lra |].
      rewrite Forall_forall in Hy |- *. intros z Hz.
      specialize (Hy z Hz). lra.
Qed.

Lemma sort_descending (l : list A) : descending key (sort (descBy key) l).
Proof.
  induction l as [| x l IH]; simpl.
  - constructor.
  - apply insert_descending, IH.
Qed.

Lemma insert_filter_key (k : Q) (x : A) (l : list A) :
  filter (fun a => Qeqb (key a) k) (insert (descBy key) x l)
  = filter (fun a => Qeqb (key a) k) (x :: l).
Proof.
  induction l as [| y l IH]; [reflexivity |].
  simpl insert. destruct (Qltb (descBy key y x) 0) eqn:E; [| reflexivity].
  apply Qltb_lt in E. unfold descBy in E.
  change (filter (fun a => Qeqb (key a) k) (y :: insert (descBy key) x l))
    with (if Qeqb (key y) k
          then y :: filter (fun a => Qeqb (key a) k) (insert (descBy key) x l)
          else filter (fun a => Qeqb (key a) k) (insert (descBy key) x l)).
  rewrite IH. simpl.
  destruct (Qeqb (key x) k) eqn:Ex; destruct (Qeqb (key y) k) eqn:Ey;
    try reflexivity.
  apply Qeqb_eq in Ex. apply Qeqb_eq in Ey. lra.
Qed.

(** Stability: records with the same key keep their input order. *)
Lemma sort_stable (k : Q) (l : list A) :
  filter (fun a => Qeqb (key a) k) (sort (descBy key) l)
  = filter (fun a => Qeqb (key a) k) l.
Proof.
  induction l as [| x l IH]; [reflexivity |].
  simpl sort. rewrite insert_filter_key. simpl. rewrite IH. reflexivity.
Qed.

End DescendingSort.

Section OrderFacts.

Context {A : Type}.
Variable key : A -> Q.

Lemma descending_app (l1 l2 : list A) :
  descending key (l1 ++ l2) ->
  descending key l1 /\ descending key l2
  /\ (forall a b, In a l1 -> In b l2 -> key b <= key a).
Proof.
  unfold descending. induction l1 as [| x l1 IH]; simpl; intro H.
  - split; [constructor | split; [exact H |]]. intros a b [].
  - inversion H as [| ? ? Hs Hx]; subst.
    destruct (IH Hs) as (H1 & H2 & H3).
    apply Forall_app in Hx. destruct Hx as [Hx1 Hx2].
    split; [constructor; assumption |]. split; [exact H2 |].
    intros a b [<- | Ha] Hb.
    + rewrite Forall_forall in Hx2. apply Hx2, Hb.
    + apply H3; assumption.
Qed.

Lemma descending_firstn (k : nat) (l : list A) :
  descending key l -> descending key (firstn k l).
Proof.
  intro H. rewrite <- (firstn_skipn k l) in H.
  apply descending_app in H. apply H.
Qed.

Lemma descending_head_max (x : A) (l : list A) :
  descending key (x :: l) -> forall a, In a (x :: l) -> key a <= key x.
Proof.
  unfold descending. intros H a [<- | Ha].
  - apply Qle_refl.
  - inversion H as [| ? ? _ Hx]; subst.
    rewrite Forall_forall in Hx. apply Hx, Ha.
Qed.

(** Sorting a list that is already in descending order changes nothing. *)
Lemma sort_descending_id (l : list A) :
  descending key l -> sort (descBy key) l = l.
Proof.
  unfold descending. induction l as [| x l IH]; [reflexivity |].
  intro H. inversion H as [| ? ? Hs Hx]; subst.
  simpl. rewrite (IH Hs).
  destruct l as [| y l]; [reflexivity |].
  simpl. inversion Hx as [| ? ? Hy _]; subst.
  assert (E : Qltb (descBy key y x) 0 = false)
    by (apply Qltb_ge; unfold descBy; lra).
  rewrite E. reflexivity.
Qed.

Lemma descending_map {B : Type} (f : A -> B) (keyB : B -> Q) (l : list A) :
  (forall a, keyB (f a) = key a) ->
  descending key l -> descending keyB (map f l).
Proof.
  unfold descending. intros Hf H.
  induction H as [| x l Hs IH Hx]; simpl; constructor.
  - exact IH.
  - apply Forall_forall. intros b Hb.
    apply in_map_iff in Hb. destruct Hb as (a & <- & Ha).
    rewrite !Hf. rewrite Forall_forall in Hx. apply Hx, Ha.
Qed.

End OrderFacts.

Lemma insert_ext {A : Type} (cmp1 cmp2 : A -> A -> Q) (x : A) (l : list A) :
  (forall y, In y l -> cmp1 y x = cmp2 y x) ->
  insert cmp1 x l = insert cmp2 x l.
Proof.
  induction l as [| y l IH]; intro H; [reflexivity |].
  simpl. rewrite (H y) by (left; reflexivity).
  destruct (Qltb (cmp2 y x) 0); [| reflexivity].
  f_equal. apply IH. intros z Hz. apply H. right. exact Hz.
Qed.

Lemma sort_ext {A : Type} (cmp1 cmp2 : A -> A -> Q) (l : list A) :
  (forall x y, In x l -> In y l -> cmp1 x y = cmp2 x y) ->
  sort cmp1 l = sort cmp2 l.
Proof.
  induction l as [| x l IH]; intro H; [reflexivity |].
  simpl. rewrite IH by (intros a b Ha Hb; apply H; right; assumption).
  apply insert_ext. intros y Hy.
  apply (Permutation_in _ (sort_perm cmp2 l)) in Hy.
  apply H; [right; exact Hy | left; reflexivity].
Qed.

Lemma descending_skipn {A : Type} (key : A -> Q) (k : nat) (l : list A) :
  descending key l -> descending key (skipn k l).
Proof.
  intro H. rewrite <- (firstn_skipn k l) in H.
  apply descending_app in H. apply H.
Qed.

(** The store's descending order on a field: a comparator that agrees
    with it sorts into it. *)
Section StoredOrder.

Context {A : Type}.
Variable key : A -> field.
Variable cmp : A -> A -> Q.
Hypothesis cmp_spec :
  forall a b : A,
    cmp a b = match key a, key b with
              | Num x, Num y => y - x
              | Num _, _ => -1
              | _, Num _ => 1
              | _, _ => 0
              end.

Lemma field_le_trans (a b c : field) :
  field_le a b -> field_le b c -> field_le a c.
Proof.
  destruct a, b, c; simpl; try tauto. apply Qle_trans.
Qed.

Lemma stored_before (x y : A) :
  Qltb (cmp y x) 0 = true -> field_le (key x) (key y).
Proof.
  rewrite cmp_spec. intro H. apply Qltb_lt in H.
  destruct (key x), (key y); simpl; try exact I; try lra; discriminate H.
Qed.

Lemma stored_after (x y : A) :
  Qltb (cmp y x) 0 = false -> field_le (key y) (key x).
Proof.
  rewrite cmp_spec. intro H. apply Qltb_ge in H.
  destruct (key x), (key y); simpl; try exact I; try lra;
    exfalso; apply H; reflexivity.
Qed.

Lemma insert_storedDescending (x : A) (l : list A) :
  storedDescending key l -> storedDescending key (insert cmp x l).
Proof.
  unfold storedDescending. induction l as [| y l IH]; simpl; intro Hs.
  - constructor; [constructor | constructor].
  - inversion Hs as [| ? ? Hl Hy]; subst.
    destruct (Qltb (cmp y x) 0) eqn:E.
    + constructor; [apply IH, Hl |].
      assert (Hp : Permutation (insert cmp x l) (x :: l)) by apply insert_perm.
      apply Forall_forall. intros z Hz.
      apply (Permutation_in _ Hp) in Hz. destruct Hz as [-> | Hz].
      * apply stored_before, E.
      * rewrite Forall_forall in Hy. apply Hy, Hz.
    + constructor; [exact Hs |].
      constructor; [apply stored_after, E |].
      rewrite Forall_forall in Hy |- *. intros z Hz.
      apply (field_le_trans _ (key y)); [apply Hy, Hz | apply stored_after, E].
Qed.

Lemma sort_storedDescending (l : list A) : storedDescending key (sort cmp l).
Proof.
  induction l as [| x l IH]; simpl.
  - constructor.
  - apply insert_storedDescending, IH.
Qed.

(** Without ties the store's descending order leaves one arrangement
    only. *)
Lemma storedDescending_unique (l1 l2 : list A) :
  (forall a b : A,
      In a l1 -> In b l1 ->
      field_le (key a) (key b) -> field_le (key b) (key a) -> a = b) ->
  Permutation l1 l2 ->
  storedDescending key l1 -> storedDescending key l2 -> l1 = l2.
Proof.
  unfold storedDescending. revert l2.
  induction l1 as [| x l1 IH]; intros l2 Hties Hperm H1 H2.
  - apply Permutation_nil in Hperm. subst. reflexivity.
  - destruct l2 as [| y l2].
    + apply Permutation_sym, Permutation_nil in Hperm. discriminate.
    + inversion H1 as [| ? ? Hs1 Hx]; subst.
      inversion H2 as [| ? ? Hs2 Hy]; subst.
      rewrite Forall_forall in Hx, Hy.
      assert (Hxy : x = y).
      { assert (Hxin : In x (y :: l2))
          by (apply (Permutation_in _ Hperm); left; reflexivity).
        assert (Hyin : In y (x :: l1))
          by (apply (Permutation_in _ (Permutation_sym Hperm)); left; reflexivity).
        destruct Hxin as [-> | Hxin]; [reflexivity |].
        destruct Hyin as [-> | Hyin]; [reflexivity |].
        apply Hties.
        - left. reflexivity.
        - right. exact Hyin.
        - apply Hy, Hxin.
        - apply Hx, Hyin. }
      subst y. f_equal. apply IH.
      * intros a b Ha Hb. apply Hties; right; assumption.
      * apply (Permutation_cons_inv Hperm).
      * exact Hs1.
      * exact Hs2.
Qed.

End StoredOrder.

(** ** Arrays: slice *)

Section SliceFacts.

Context {A : Type}.

Lemma rel_index_range (len k : Z) :
  (0 <= len -> 0 <= rel_index len k <= len)%Z.
Proof. unfold rel_index. destruct (k <? 0)%Z eqn:E; lia. Qed.

Lemma slice_head (l : list A) (k : Z) :
  slice l 0 (Some k) = firstn (Z.to_nat (rel_index (Z.of_nat (length l)) k)) l.
Proof.
  unfold slice.
  assert (H0 : rel_index (Z.of_nat (length l)) 0 = 0%Z).
  { unfold rel_index. simpl. lia. }
  rewrite H0. simpl skipn. rewrite Z.sub_0_r. reflexivity.
Qed.

Lemma slice_tail (l : list A) (k : Z) :
  slice l k None = skipn (Z.to_nat (rel_index (Z.of_nat (length l)) k)) l.
Proof.
  unfold slice.
  pose proof (rel_index_range (Z.of_nat (length l)) k (Nat2Z.is_nonneg _)) as Hr.
  apply firstn_all2. rewrite length_skipn. lia.
Qed.

(** [slice(0, k)] and [slice(k)] split the array, whatever the sign of
    [k]. *)
Lemma slice_split (l : list A) (k : Z) :
  slice l 0 (Some k) ++ slice l k None = l.
Proof. rewrite slice_head, slice_tail. apply firstn_skipn. Qed.

Lemma slice_head_length (l : list A) (k : Z) :
  length (slice l 0 (Some k))
  = Z.to_nat (rel_index (Z.of_nat (length l)) k).
Proof.
  rewrite slice_head, length_firstn.
  pose proof (rel_index_range (Z.of_nat (length l)) k (Nat2Z.is_nonneg _)).
  lia.
Qed.

Lemma slice_tail_skipn (l : list A) (k : Z) :
  slice l k None = skipn (length (slice l 0 (Some k))) l.
Proof. rewrite slice_head_length. apply slice_tail. Qed.

Lemma slice_head_nonneg (l : list A) (k : Z) :
  (0 <= k)%Z -> slice l 0 (Some k) = firstn (Z.to_nat k) l.
Proof.
  intro Hk. rewrite slice_head. unfold rel_index.
  destruct (k <? 0)%Z eqn:E; [lia |].
  destruct (Z.le_ge_cases k (Z.of_nat (length l))) as [Hle | Hge].
  - rewrite Z.min_l by lia. reflexivity.
  - rewrite Z.min_r by lia. rewrite Nat2Z.id.
    rewrite firstn_all. symmetry. apply firstn_all2. lia.
Qed.

Lemma slice_head_all (l : list A) (k : Z) :
  (Z.of_nat (length l) <= k)%Z -> slice l 0 (Some k) = l.
Proof.
  intro Hk. rewrite slice_head_nonneg by lia. apply firstn_all2. lia.
Qed.

End SliceFacts.

(** ** Sums *)

Lemma sumQ_app (l1 l2 : list Q) : sumQ (l1 ++ l2) == sumQ l1 + sumQ l2.
Proof.
  induction l1 as [| x l1 IH]; simpl.
  - lra.
  - rewrite IH. lra.
Qed.

Lemma sumQ_perm (l1 l2 : list Q) : Permutation l1 l2 -> sumQ l1 == sumQ l2.
Proof.
  induction 1 as [| x l1 l2 _ IH | x y l | l1 l2 l3 _ IH1 _ IH2]; simpl.
  - reflexivity.
  - rewrite IH. reflexivity.
  - lra.
  - rewrite IH1. exact IH2.
Qed.

Lemma sumQ_scaled (t : Q) (l : list Q) :
  sumQ (map (fun x => x / t * 100) l) == sumQ l / t * 100.
Proof.
  induction l as [| x l IH]; simpl.
  - unfold Qdiv. lra.
  - rewrite IH. unfold Qdiv. lra.
Qed.

Lemma of_nat_nonneg (n : nat) : 0 <= of_nat n.
Proof.
  unfold of_nat. change 0 with (inject_Z 0). rewrite <- Zle_Qle. lia.
Qed.

(** ** The share report *)

Import CountriesService.

(** The report is the head rows followed by at most one Others row. *)
Lemma share_shape (recs : list country) (limit : Z) :
  getRevenueShareByCountry recs limit
  = map (shareOf (sumRevenue recs)) (topCountries recs limit)
    ++ (if (limit <? Z.of_nat (length recs))%Z
        then [othersEntry (sumRevenue recs)
                (slice (sort byRevenueDesc recs) limit None)]
        else []).
Proof.
  unfold getRevenueShareByCountry, topCountries.
  rewrite sort_length, Z.gtb_ltb.
  destruct (limit <? Z.of_nat (length recs))%Z; [reflexivity |].
  symmetry. apply app_nil_r.
Qed.

(** *** The report in binary64 *)

Lemma pow10_hundred : B64.pow10 2 = B64.Fin 100.
Proof. vm_compute. reflexivity. Qed.

Lemma sum64_from_fold {A : Type} (f : A -> Q) (l : list A) (acc : B64.double) :
  fold_left (fun sum x => B64.add sum (B64.Fin (f x))) l acc
  = sum64_from acc (map f l).
Proof.
  revert acc. induction l as [| x l IH]; intro acc; [reflexivity |].
  apply IH.
Qed.

Lemma sumRevenue64_sum64 (l : list country) :
  CountriesService64.sumRevenue l = sum64 (map revenueOf l).
Proof. apply (sum64_from_fold revenueOf). Qed.

Lemma share64_shape (recs : list country) (limit : Z) :
  CountriesService64.getRevenueShareByCountry recs limit
  = map (CountriesService64.shareOf (CountriesService64.sumRevenue recs))
      (topCountries recs limit)
    ++ (if (limit <? Z.of_nat (length recs))%Z
        then [CountriesService64.othersEntry (CountriesService64.sumRevenue recs)
                (slice (sort byRevenueDesc recs) limit None)]
        else []).
Proof.
  unfold CountriesService64.getRevenueShareByCountry, topCountries.
  rewrite sort_length, Z.gtb_ltb.
  destruct (limit <? Z.of_nat (length recs))%Z; [reflexivity |].
  symmetry. apply app_nil_r.
Qed.

(** C2. The report carries an Others row exactly when there are more
    records than the limit. The row then comes last, is labelled
    "Others", and its value is the sum of the metric over the records
    after the head in sorted position, added in that order in binary64;
    with the limit at or above the record count the report is the rows
    of the sorted records alone. *)
Theorem others_row_iff_over_limit (recs : list country) (limit : Z) :
  let sorted := sort byRevenueDesc recs in
  let head := topCountries recs limit in
  let rest := skipn (length head) sorted in
  let total := CountriesService64.sumRevenue recs in
  let out := CountriesService64.getRevenueShareByCountry recs limit in
  head ++ rest = sorted
  /\ Permutation sorted recs
  /\ firstn (length head) out = map (CountriesService64.shareOf total) head
  /\ ((limit < Z.of_nat (length recs))%Z ->
      exists others : CountriesService64.shareEntry,
        skipn (length head) out = [others]
        /\ CountriesService64.countryName others = "Others"%string
        /\ CountriesService64.revenue others = sum64 (map revenueOf rest)
        /\ CountriesService64.percentage others
           = ResponseHandler64.roundToDecimals
               (Some (CountriesService64.percentOf
                        (sum64 (map revenueOf rest)) total)) 2)
  /\ ((Z.of_nat (length recs) <= limit)%Z ->
      out = map (CountriesService64.shareOf total) sorted)
  /\ length out
     = (length head + (if (limit <? Z.of_nat (length recs))%Z then 1 else 0))%nat.
Proof.
  cbv zeta.
  assert (Hshape := share64_shape recs limit).
  rewrite slice_tail_skipn in Hshape. fold (topCountries recs limit) in Hshape.
  set (head := topCountries recs limit) in *.
  set (total := CountriesService64.sumRevenue recs) in *.
  assert (Hlen : length (map (CountriesService64.shareOf total) head) = length head)
    by apply length_map.
  split; [| split; [| split; [| split; [| split]]]].
  - unfold head, topCountries. rewrite <- slice_tail_skipn. apply slice_split.
  - apply sort_perm.
  - rewrite Hshape, <- Hlen, firstn_app, Nat.sub_diag, firstn_all.
    simpl. apply app_nil_r.
  - intro Hover. apply Z.ltb_lt in Hover. rewrite Hover in Hshape.
    eexists. split.
    + rewrite Hshape, <- Hlen, skipn_app, Nat.sub_diag, skipn_all. reflexivity.
    + unfold CountriesService64.othersEntry.
      cbn [CountriesService64.countryName CountriesService64.revenue
           CountriesService64.percentage].
      rewrite sumRevenue64_sum64, Hlen. repeat split.
  - intro Hall. rewrite share64_shape.
    assert (E : (limit <? Z.of_nat (length recs))%Z = false)
      by (apply Z.ltb_ge; exact Hall).
    rewrite E, app_nil_r. unfold topCountries.
    rewrite slice_head_all by (rewrite sort_length; lia). reflexivity.
  - rewrite Hshape, length_app, Hlen.
    destruct (limit <? Z.of_nat (length recs))%Z; reflexivity.
Qed.

Lemma others_row_iff_over_limit_witness :
  (2 < Z.of_nat (length abc))%Z
  /\ exists others : CountriesService64.shareEntry,
       skipn (length (topCountries abc 2))
         (CountriesService64.getRevenueShareByCountry abc 2) = [others]
       /\ CountriesService64.countryName others = "Others"%string
       /\ CountriesService64.revenue others
          = sum64 (map revenueOf
                     (skipn (length (topCountries abc 2)) (sort byRevenueDesc abc))).
Proof.
  assert (H : (2 < Z.of_nat (length abc))%Z) by (vm_compute; reflexivity).
  split; [exact H |].
  destruct (others_row_iff_over_limit abc 2) as (_ & _ & _ & Hothers & _).
  destruct (Hothers H) as (others & Hlast & Hname & Hrev & _).
  exists others. exact (conj Hlast (conj Hname Hrev)).
Defined.

Example others_row_abc :
  map CountriesService64.countryName
    (CountriesService64.getRevenueShareByCountry abc 2)
  = ["B"; "C"; "Others"]%string
  /\ map CountriesService64.countryName
       (CountriesService64.getRevenueShareByCountry abc 3)
     = ["B"; "C"; "A"]%string
  /\ map CountriesService64.countryName
       (CountriesService64.getRevenueShareByCountry abc (-1))
     = ["B"; "C"; "Others"]%string.
Proof. repeat split. Qed.

(** The scenario of three countries: 50, 33.33 and 16.67 are the doubles
    nearest to those hundredths. *)
Example share_abc :
  map (fun e => (CountriesService64.countryName e,
                 CountriesService64.revenue e,
                 CountriesService64.percentage e))
      (CountriesService64.getRevenueShareByCountry abc 2)
  = [ ("B", B64.Fin 300, B64.Fin 50);
      ("C", B64.Fin 200, B64.round (3333 # 100));
      ("Others", B64.Fin 100, B64.round (1667 # 100)) ]%string.
Proof. vm_compute. reflexivity. Qed.

(** *** Shares of whole-number revenues *)

Lemma whole_nonneg (x : Q) : whole x -> 0 <= x.
Proof.
  intros (n & Hn & E). rewrite E. change 0 with (inject_Z 0).
  rewrite <- Zle_Qle. exact Hn.
Qed.

Lemma whole_plus (x y : Q) : whole x -> whole y -> whole (x + y).
Proof.
  intros (n & Hn & En) (m & Hm & Em). exists (n + m)%Z. split; [lia |].
  rewrite inject_Z_plus, En, Em. reflexivity.
Qed.

Lemma whole_comp (x y : Q) : x == y -> whole x -> whole y.
Proof.
  intros E (n & Hn & En). exists n. split; [exact Hn |].
  rewrite <- E. exact En.
Qed.

Lemma sumQ_nonneg (l : list Q) : Forall (fun x => 0 <= x) l -> 0 <= sumQ l.
Proof.
  induction 1 as [| x l Hx _ IH]; simpl; lra.
Qed.

Lemma sumQ_member (x : Q) (l : list Q) :
  Forall (fun y => 0 <= y) l -> In x l -> x <= sumQ l.
Proof.
  induction 1 as [| y l Hy Hl IH]; simpl; intros [].
  - subst. pose proof (sumQ_nonneg l Hl). lra.
  - specialize (IH H). lra.
Qed.

Lemma whole_all_nonneg (l : list Q) :
  Forall whole l -> Forall (fun x => 0 <= x) l.
Proof. apply Forall_impl. exact whole_nonneg. Qed.

(** A whole number below 2^53 is a double, so rounding leaves it as it
    is. *)
Lemma round_whole (x : Q) :
  whole x -> x < 2 ^ 53 -> exists y, B64.round x = B64.Fin y /\ y == x.
Proof.
  intros (n & Hn & E) Hx. apply (round_integer x n E). split; [exact Hn |].
  rewrite E, <- (Zpower_Qpower 2 53) in Hx by lia.
  rewrite <- Zlt_Qlt in Hx. exact Hx.
Qed.

(** Whole numbers whose sum stays below 2^53 are added without any
    rounding error. *)
Lemma sum64_from_whole (l : list Q) (acc : Q) :
  whole acc -> Forall whole l -> acc + sumQ l < 2 ^ 53 ->
  exists y, sum64_from (B64.Fin acc) l = B64.Fin y /\ y == acc + sumQ l.
Proof.
  intros Hacc Hl. revert acc Hacc.
  induction Hl as [| x l Hx Hl IH]; intros acc Hacc Hsum.
  - exists acc. split; [reflexivity |]. simpl. lra.
  - simpl in Hsum. pose proof (sumQ_nonneg l (whole_all_nonneg l Hl)) as Hpos.
    destruct (round_whole (acc + x)) as (y & Ey & Hy).
    + apply whole_plus; assumption.
    + lra.
    + cbn [sum64_from B64.add]. rewrite Ey.
      destruct (IH y) as (z & Ez & Hz).
      * apply (whole_comp (acc + x)); [symmetry; exact Hy |].
        apply whole_plus; assumption.
      * lra.
      * exists z. split; [exact Ez |]. simpl. lra.
Qed.

Lemma sum64_whole (l : list Q) :
  Forall whole l -> sumQ l < 2 ^ 53 ->
  exists y, sum64 l = B64.Fin y /\ y == sumQ l.
Proof.
  intros Hl Hsum. destruct (sum64_from_whole l 0) as (y & Ey & Hy).
  - exists 0%Z. split; [lia | reflexivity].
  - exact Hl.
  - lra.
  - exists y. split; [exact Ey |]. lra.
Qed.

(** The percentage of a share between 0 and twice the total, as the
    report rounds it, is within 0.0051 of the exact share: the four
    roundings of the arithmetic add less than 0.0001 to the 0.005 of
    [Math.round]. *)
Lemma percentage64_close (x t : Q) :
  0 <= x -> x <= t + t -> 0 < t ->
  exists r : Q,
    ResponseHandler64.roundToDecimals
      (Some (CountriesService64.percentOf (B64.Fin x) (B64.Fin t))) 2
    = B64.Fin r
    /\ Qabs (r - x / t * 100) <= 51 # 10000.
Proof.
  intros Hx Hxt Ht.
  assert (Hgt : Qgtb t 0 = true) by (apply Qltb_lt; exact Ht).
  assert (Hne : Qeqb t 0 = false).
  { apply not_true_is_false. intro Hc. apply Qeq_bool_iff in Hc. lra. }
  unfold CountriesService64.percentOf. cbn [B64.gtb B64.div]. rewrite Hgt, Hne.
  assert (Hp : 0 <= x / t /\ x / t <= 2).
  { split.
    - apply Qle_shift_div_l; [exact Ht | lra].
    - apply Qle_shift_div_r; [exact Ht | lra]. }
  set (p := x / t) in *. destruct Hp as [Hp0 Hp1].
  destruct (round_near p 2) as (z1 & E1 & H1 & N1);
    [exact Hp0 | change (2 ^ 2) with 4; lra | lia |].
  rewrite E1. cbn [B64.mul].
  apply Qabs_Qle_condition in H1. eval_pow2.
  destruct (round_near (z1 * 100) 8) as (z2 & E2 & H2 & N2);
    [lra | change (2 ^ 8) with 256; lra | lia |].
  rewrite E2. unfold ResponseHandler64.roundToDecimals.
  rewrite pow10_hundred. cbn [B64.mul].
  apply Qabs_Qle_condition in H2. eval_pow2.
  destruct (round_near (z2 * 100) 15) as (z3 & E3 & H3 & N3);
    [lra | change (2 ^ 15) with 32768; lra | lia |].
  rewrite E3. cbn [B64.Math_round B64.div].
  change (Qeqb 100 0) with false. cbv iota.
  apply Qabs_Qle_condition in H3. eval_pow2.
  unfold Math.round. pose proof (floor_half_bounds z3) as [Hn1 Hn2].
  assert (Hn0 : 0 <= inject_Z (Qfloor (z3 + (1 # 2)))).
  { change 0 with (inject_Z (Qfloor 0)). rewrite <- Zle_Qle.
    apply Qfloor_resp_le. lra. }
  set (n := inject_Z (Qfloor (z3 + (1 # 2)))) in *.
  destruct (round_near (n / 100) 8) as (r & E4 & H4 & _).
  - apply Qle_shift_div_l; [reflexivity | lra].
  - change (2 ^ 8) with 256. apply Qlt_shift_div_r; [reflexivity | lra].
  - lia.
  - exists r. split; [exact E4 |].
    apply Qabs_Qle_condition in H4. eval_pow2.
    assert (Hd : n / 100 == n * (1 # 100)) by reflexivity.
    rewrite Hd in H4.
    apply Qabs_Qle_condition. lra.
Qed.

(** When every number of a list is computed within [eps], the sum of the
    computed numbers is within [eps] per term of the exact sum. *)
Lemma computed_sum_close (f : Q -> B64.double) (g : Q -> Q) (eps : Q)
  (P : Q -> Prop) (vs : list Q) :
  (forall v : Q, P v -> exists r : Q, f v = B64.Fin r /\ Qabs (r - g v) <= eps) ->
  Forall P vs ->
  exists ps : list Q,
    map f vs = map B64.Fin ps
    /\ length ps = length vs
    /\ Qabs (sumQ ps - sumQ (map g vs)) <= eps * of_nat (length vs).
Proof.
  intros Hf Hvs. induction Hvs as [| v vs Hv _ IH].
  - exists []. split; [reflexivity |]. split; [reflexivity |].
    change (Qabs (0 - 0) <= eps * 0). apply Qabs_Qle_condition. lra.
  - destruct IH as (ps & Eps & Hlen & Hps).
    destruct (Hf v Hv) as (r & Er & Hr).
    exists (r :: ps). split; [| split].
    + cbn [map]. rewrite Er, Eps. reflexivity.
    + cbn [length]. rewrite Hlen. reflexivity.
    + assert (Hn : of_nat (length (v :: vs)) == 1 + of_nat (length vs)).
      { unfold of_nat. simpl length. rewrite Nat2Z.inj_succ, <- Z.add_1_l.
        rewrite inject_Z_plus. reflexivity. }
      rewrite Hn.
      change (sumQ (map g (v :: vs))) with (g v + sumQ (map g vs)).
      change (sumQ (r :: ps)) with (r + sumQ ps).
      apply Qabs_Qle_condition in Hr. apply Qabs_Qle_condition in Hps.
      apply Qabs_Qle_condition. lra.
Qed.

Lemma percentages64_close (t : Q) (vs : list Q) :
  0 < t -> Forall (fun v => 0 <= v /\ v <= t + t) vs ->
  exists ps : list Q,
    map (fun v => ResponseHandler64.roundToDecimals
                    (Some (CountriesService64.percentOf (B64.Fin v) (B64.Fin t))) 2)
        vs
    = map B64.Fin ps
    /\ length ps = length vs
    /\ Qabs (sumQ ps - sumQ vs / t * 100) <= (51 # 10000) * of_nat (length vs).
Proof.
  intros Ht Hvs.
  destruct (computed_sum_close
              (fun v => ResponseHandler64.roundToDecimals
                          (Some (CountriesService64.percentOf (B64.Fin v)
                                   (B64.Fin t))) 2)
              (fun v => v / t * 100) (51 # 10000)
              (fun v => 0 <= v /\ v <= t + t) vs)
    as (ps & Eps & Hlen & Hps).
  - intros v [Hv0 Hvt]. apply percentage64_close; assumption.
  - exact Hvs.
  - exists ps. split; [exact Eps |]. split; [exact Hlen |].
    rewrite sumQ_scaled in Hps. exact Hps.
Qed.

(** Adding non-negative doubles from left to right in binary64 keeps
    every partial sum within a relative error that grows by 2^-53 per
    addition. *)
Lemma Qmult_le_l_weak (x y z : Q) : 0 <= z -> x <= y -> z * x <= z * y.
Proof.
  intros Hz H. rewrite (Qmult_comm z x), (Qmult_comm z y).
  apply Qmult_le_compat_r; assumption.
Qed.

Lemma of_nat_S (n : nat) : of_nat (S n) == 1 + of_nat n.
Proof.
  unfold of_nat. rewrite Nat2Z.inj_succ, <- Z.add_1_l, inject_Z_plus. reflexivity.
Qed.

Lemma sum64_from_nonneg (l : list Q) (a : Q) :
  0 <= a -> on_grid a ->
  Forall (fun x => 0 <= x /\ on_grid x) l ->
  of_nat (length l) <= 4294967296 ->
  (1 + 2 * of_nat (length l) * (1 # 9007199254740992)) * (a + sumQ l) < 2 ^ 1023 ->
  exists r : Q,
    sum64_from (B64.Fin a) l = B64.Fin r
    /\ on_grid r
    /\ (1 - of_nat (length l) * (1 # 9007199254740992)) * (a + sumQ l) <= r
    /\ r <= (1 + 2 * of_nat (length l) * (1 # 9007199254740992)) * (a + sumQ l).
Proof.
  intros Ha Hg Hl. revert a Ha Hg.
  induction Hl as [| x l [Hx Hxg] Hl IH]; intros a Ha Hg Hlen Hbound.
  - exists a. split; [reflexivity |]. split; [exact Hg |].
    change (sumQ []) with 0. change (of_nat (length (@nil Q))) with 0.
    split; lra.
  - cbn [length] in Hlen, Hbound |- *. rewrite of_nat_S in Hlen, Hbound.
    change (sumQ (x :: l)) with (x + sumQ l) in *.
    pose proof (of_nat_nonneg (length l)) as Hk.
    set (k := of_nat (length l)) in *.
    assert (Hs : 0 <= sumQ l).
    { apply sumQ_nonneg. revert Hl. apply Forall_impl. intros y [Hy _]. exact Hy. }
    set (S' := sumQ l) in *.
    assert (HT : a + x + S' < 2 ^ 1023).
    { assert (H1 : (a + x + S') * 1 <= (a + x + S') * (1 + 2 * (1 + k) * (1 # 9007199254740992))).
      { apply Qmult_le_l_weak. lra. lra. }
      lra. }
    destruct (round_rel (a + x)) as (a1 & E1 & H1 & G1);
      [lra | lra | apply on_grid_plus; assumption |].
    apply Qabs_Qle_condition in H1.
    assert (Hux : 0 <= (a + x) * (1 # 9007199254740992)) by (apply Qmult_le_0_compat; lra).
    assert (Ha1 : 0 <= a1).
    { assert ((a + x) * (1 # 9007199254740992) <= (a + x) * 1) by (apply Qmult_le_l_weak; lra). lra. }
    destruct (IH a1 Ha1 G1) as (r & Er & Gr & Hlo & Hhi).
    + lra.
    + fold k. fold S'.
      assert (Hc : (1 + 2 * k * (1 # 9007199254740992)) * (a1 + S') <= (1 + 2 * k * (1 # 9007199254740992)) * ((1 + (1 # 9007199254740992)) * (a + x + S'))).
      { apply Qmult_le_l_weak; [lra |].
        assert (0 <= S' * (1 # 9007199254740992)) by (apply Qmult_le_0_compat; lra). lra. }
      assert (Hd : (1 + 2 * k * (1 # 9007199254740992)) * (1 + (1 # 9007199254740992)) * (a + x + S')
                   <= (1 + 2 * (1 + k) * (1 # 9007199254740992)) * (a + x + S')).
      { apply Qmult_le_compat_r; [| lra]. lra. }
      lra.
    + fold k in Hlo, Hhi. fold S' in Hlo, Hhi.
      exists r. split; [cbn [sum64_from B64.add]; rewrite E1; exact Er |].
      split; [exact Gr |].
      rewrite of_nat_S. fold k.
      assert (HSu : 0 <= S' * (1 # 9007199254740992)) by (apply Qmult_le_0_compat; lra).
      split.
      * assert (Hc : (1 - k * (1 # 9007199254740992)) * ((1 - (1 # 9007199254740992)) * (a + x + S')) <= (1 - k * (1 # 9007199254740992)) * (a1 + S')).
        { apply Qmult_le_l_weak; [lra | lra]. }
        assert (Hd : (1 - (1 + k) * (1 # 9007199254740992)) * (a + x + S')
                     <= (1 - k * (1 # 9007199254740992)) * (1 - (1 # 9007199254740992)) * (a + x + S')).
        { apply Qmult_le_compat_r; [| lra].
          assert (0 <= k * (1 # 9007199254740992) * (1 # 9007199254740992)) by (repeat apply Qmult_le_0_compat; lra). lra. }
        lra.
      * assert (Hc : (1 + 2 * k * (1 # 9007199254740992)) * (a1 + S') <= (1 + 2 * k * (1 # 9007199254740992)) * ((1 + (1 # 9007199254740992)) * (a + x + S'))).
        { apply Qmult_le_l_weak; [lra | lra]. }
        assert (Hd : (1 + 2 * k * (1 # 9007199254740992)) * (1 + (1 # 9007199254740992)) * (a + x + S')
                     <= (1 + 2 * (1 + k) * (1 # 9007199254740992)) * (a + x + S')).
        { apply Qmult_le_compat_r; [| lra]. lra. }
        lra.
Qed.

(** For at most 2^32 non-negative doubles the binary64 sum is finite
    and within 2^-20 of the exact sum, relatively. *)
Lemma sum64_nonneg (l : list Q) :
  Forall (fun x => 0 <= x /\ on_grid x) l ->
  (Z.of_nat (length l) <= 2 ^ 32)%Z ->
  sumQ l < 2 ^ 1022 ->
  exists r : Q,
    sum64 l = B64.Fin r
    /\ (1 - (1 # 2097152)) * sumQ l <= r
    /\ r <= (1 + (1 # 1048576)) * sumQ l.
Proof.
  intros Hl Hlen Hsum.
  assert (Hs : 0 <= sumQ l).
  { apply sumQ_nonneg. revert Hl. apply Forall_impl. intros y [Hy _]. exact Hy. }
  assert (Hk : of_nat (length l) <= 4294967296).
  { unfold of_nat. change 4294967296 with (inject_Z 4294967296).
    rewrite <- Zle_Qle. exact Hlen. }
  pose proof (of_nat_nonneg (length l)) as Hk0.
  destruct (sum64_from_nonneg l 0) as (r & Er & _ & Hlo & Hhi).
  - apply Qle_refl.
  - exists 0%Z. reflexivity.
  - exact Hl.
  - exact Hk.
  - assert (H2 : 2 ^ 1022 + 2 ^ 1022 == 2 ^ 1023) by reflexivity.
    assert (H1 : (1 + 2 * of_nat (length l) * (1 # 9007199254740992)) * (0 + sumQ l)
                 <= 2 * (0 + sumQ l)).
    { apply Qmult_le_compat_r; lra. }
    lra.
  - exists r. split; [exact Er |]. split.
    + assert (H1 : (1 - (1 # 2097152)) * (0 + sumQ l)
                   <= (1 - of_nat (length l) * (1 # 9007199254740992)) * (0 + sumQ l)).
      { apply Qmult_le_compat_r; lra. }
      lra.
    + assert (H1 : (1 + 2 * of_nat (length l) * (1 # 9007199254740992)) * (0 + sumQ l)
                   <= (1 + (1 # 1048576)) * (0 + sumQ l)).
      { apply Qmult_le_compat_r; lra. }
      lra.
Qed.

(** With whole-number revenues below 2^53 in total, the total and the
    revenues shown are exact: they are the numbers [vs], which add up to
    the total, and each percentage is computed from one of them. *)
Lemma whole_share_values (recs : list country) (limit : Z) :
  Forall (fun c => whole (revenueOf c)) recs ->
  sumQ (map revenueOf recs) < 2 ^ 53 ->
  exists (t : Q) (vs : list Q),
    CountriesService64.sumRevenue recs = B64.Fin t
    /\ t == sumQ (map revenueOf recs)
    /\ map CountriesService64.revenue
         (CountriesService64.getRevenueShareByCountry recs limit)
       = map B64.Fin vs
    /\ map CountriesService64.percentage
         (CountriesService64.getRevenueShareByCountry recs limit)
       = map (fun v => ResponseHandler64.roundToDecimals
                         (Some (CountriesService64.percentOf (B64.Fin v)
                                  (B64.Fin t))) 2) vs
    /\ Forall (fun v => 0 <= v /\ v <= t) vs
    /\ sumQ vs == t.
Proof.
  intros Hwhole Hbound.
  assert (Hall : forall l : list country,
             Permutation l recs -> Forall whole (map revenueOf l)).
  { intros l Hperm. apply Forall_forall. intros x Hx.
    apply in_map_iff in Hx. destruct Hx as (c & <- & Hc).
    rewrite Forall_forall in Hwhole. apply Hwhole.
    apply (Permutation_in _ Hperm Hc). }
  set (T := sumQ (map revenueOf recs)) in *.
  destruct (sum64_whole (map revenueOf recs)) as (t & Et & Ht);
    [apply Hall, Permutation_refl | exact Hbound |].
  rewrite <- sumRevenue64_sum64 in Et. fold T in Ht.
  set (sorted := sort byRevenueDesc recs).
  assert (Hperm : Permutation sorted recs) by apply sort_perm.
  assert (Hsorted : sumQ (map revenueOf sorted) == T)
    by (apply sumQ_perm, Permutation_map, Hperm).
  pose proof (slice_split sorted limit) as Hsplit.
  set (head := slice sorted 0 (Some limit)) in *.
  set (rest := slice sorted limit None) in *.
  assert (Hparts : sumQ (map revenueOf head) + sumQ (map revenueOf rest) == T).
  { rewrite <- Hsorted, <- Hsplit, map_app, sumQ_app. reflexivity. }
  pose proof (Hall sorted Hperm) as Hws.
  rewrite <- Hsplit, map_app in Hws. apply Forall_app in Hws.
  destruct Hws as [Hwh Hwr].
  pose proof (sumQ_nonneg _ (whole_all_nonneg _ Hwh)) as Hh0.
  pose proof (sumQ_nonneg _ (whole_all_nonneg _ Hwr)) as Hr0.
  destruct (sum64_whole (map revenueOf rest)) as (o & Eo & Ho);
    [exact Hwr | lra |].
  rewrite <- sumRevenue64_sum64 in Eo.
  exists t, (map revenueOf head
             ++ (if (limit <? Z.of_nat (length recs))%Z then [o] else [])).
  split; [exact Et |]. split; [exact Ht |].
  split; [| split; [| split]].
  - rewrite share64_shape. unfold topCountries.
    fold sorted. fold head. fold rest.
    rewrite !map_app, !map_map. f_equal.
    destruct (limit <? Z.of_nat (length recs))%Z; [| reflexivity].
    unfold CountriesService64.othersEntry.
    cbn [map CountriesService64.revenue]. rewrite Eo. reflexivity.
  - rewrite share64_shape. unfold topCountries.
    fold sorted. fold head. fold rest.
    rewrite Et, !map_app, !map_map. f_equal.
    destruct (limit <? Z.of_nat (length recs))%Z; [| reflexivity].
    unfold CountriesService64.othersEntry.
    cbn [map CountriesService64.percentage]. rewrite Eo. reflexivity.
  - apply Forall_app. split.
    + apply Forall_forall. intros v Hv. split.
      * pose proof (whole_all_nonneg _ Hwh) as Hn.
        rewrite Forall_forall in Hn. apply Hn, Hv.
      * pose proof (sumQ_member v _ (whole_all_nonneg _ Hwh) Hv). lra.
    + destruct (limit <? Z.of_nat (length recs))%Z; constructor; [| constructor].
      lra.
  - rewrite sumQ_app.
    destruct (limit <? Z.of_nat (length recs))%Z eqn:E.
    + simpl. lra.
    + apply Z.ltb_ge in E.
      assert (Eh : head = sorted).
      { unfold head. apply slice_head_all. unfold sorted.
        rewrite sort_length. lia. }
      rewrite Eh, Hsorted. simpl. lra.
Qed.

(** C1. For at most 2^32 records whose revenues are non-negative
    doubles with a strictly positive sum below 2^1022, the total the
    report computes is finite and positive, every percentage of the
    share report (head rows plus the Others row when there is one) is a
    finite number, and the percentages add up to 100 within 0.01 per
    row. *)
Theorem nonneg_revenue_shares_sum_to_100 (recs : list country) (limit : Z) :
  Forall (fun c => is_double (revenueOf c) /\ 0 <= revenueOf c) recs ->
  (Z.of_nat (length recs) <= 2 ^ 32)%Z ->
  0 < sumQ (map revenueOf recs) ->
  sumQ (map revenueOf recs) < 2 ^ 1022 ->
  exists (total : Q) (ps : list Q),
    CountriesService64.sumRevenue recs = B64.Fin total
    /\ 0 < total
    /\ map CountriesService64.percentage
         (CountriesService64.getRevenueShareByCountry recs limit)
       = map B64.Fin ps
    /\ Qabs (sumQ ps - 100) <= (1 # 100) * of_nat (length ps).
Proof.
  intros Hrecs Hn Hpos Hbound.
  assert (Hall : forall l : list country,
             (forall c, In c l -> In c recs) ->
             Forall (fun x => 0 <= x /\ on_grid x) (map revenueOf l)).
  { intros l Hin. apply Forall_forall. intros x Hx.
    apply in_map_iff in Hx. destruct Hx as (c & <- & Hc).
    rewrite Forall_forall in Hrecs. destruct (Hrecs c (Hin c Hc)) as [Hd H0].
    split; [exact H0 | apply is_double_grid, Hd]. }
  set (S := sumQ (map revenueOf recs)) in *.
  destruct (sum64_nonneg (map revenueOf recs)) as (t & Et & Htlo & Hthi).
  { apply Hall. auto. }
  { rewrite length_map. exact Hn. }
  { exact Hbound. }
  rewrite <- sumRevenue64_sum64 in Et. fold S in Htlo, Hthi.
  assert (Ht0 : 0 < t) by lra.
  set (sorted := sort byRevenueDesc recs).
  assert (Hperm : Permutation sorted recs) by apply sort_perm.
  assert (Hsorted : sumQ (map revenueOf sorted) == S)
    by (apply sumQ_perm, Permutation_map, Hperm).
  pose proof (slice_split sorted limit) as Hsplit.
  set (head := slice sorted 0 (Some limit)) in *.
  set (rest := slice sorted limit None) in *.
  assert (Hparts : sumQ (map revenueOf head) + sumQ (map revenueOf rest) == S).
  { rewrite <- Hsorted, <- Hsplit, map_app, sumQ_app. reflexivity. }
  assert (Hin_sorted : forall c, In c sorted -> In c recs)
    by (intros c Hc; apply (Permutation_in _ Hperm Hc)).
  assert (Hh : Forall (fun x => 0 <= x /\ on_grid x) (map revenueOf head)).
  { apply Hall. intros c Hc. apply Hin_sorted. rewrite <- Hsplit.
    apply in_or_app. left. exact Hc. }
  assert (Hr : Forall (fun x => 0 <= x /\ on_grid x) (map revenueOf rest)).
  { apply Hall. intros c Hc. apply Hin_sorted. rewrite <- Hsplit.
    apply in_or_app. right. exact Hc. }
  assert (Hh0 : Forall (fun x => 0 <= x) (map revenueOf head))
    by (revert Hh; apply Forall_impl; intros y [Hy _]; exact Hy).
  assert (Hr0 : Forall (fun x => 0 <= x) (map revenueOf rest))
    by (revert Hr; apply Forall_impl; intros y [Hy _]; exact Hy).
  pose proof (sumQ_nonneg _ Hh0) as HH. pose proof (sumQ_nonneg _ Hr0) as HO.
  assert (Hlen_sorted : length sorted = length recs) by apply sort_length.
  destruct (sum64_nonneg (map revenueOf rest)) as (o & Eo & Holo & Hohi).
  { exact Hr. }
  { rewrite length_map.
    assert (Hl : length (head ++ rest) = length sorted)
      by (rewrite Hsplit; reflexivity).
    rewrite length_app in Hl. lia. }
  { lra. }
  rewrite <- sumRevenue64_sum64 in Eo.
  set (vs := map revenueOf head
             ++ (if (limit <? Z.of_nat (length recs))%Z then [o] else [])).
  assert (Hvs : Forall (fun v => 0 <= v /\ v <= t + t) vs).
  { apply Forall_app. split.
    - apply Forall_forall. intros v Hv.
      pose proof (sumQ_member v _ Hh0 Hv) as Hm.
      rewrite Forall_forall in Hh0. specialize (Hh0 v Hv). split; lra.
    - destruct (limit <? Z.of_nat (length recs))%Z; constructor; [| constructor].
      split; lra. }
  assert (Hsum : (1 - (1 # 500000)) * t <= sumQ vs
                 /\ sumQ vs <= (1 + (1 # 500000)) * t).
  { unfold vs. rewrite sumQ_app.
    destruct (limit <? Z.of_nat (length recs))%Z eqn:E.
    - change (sumQ [o]) with (o + 0). split; lra.
    - apply Z.ltb_ge in E.
      assert (Eh : head = sorted).
      { unfold head. apply slice_head_all. unfold sorted.
        rewrite sort_length. lia. }
      rewrite Eh, Hsorted. change (sumQ []) with 0. split; lra. }
  assert (Hone : 1 <= of_nat (length vs)).
  { assert (Hv1 : (1 <= length vs)%nat).
    { unfold vs. rewrite length_app, length_map.
      destruct (limit <? Z.of_nat (length recs))%Z eqn:E; [simpl; lia |].
      apply Z.ltb_ge in E.
      assert (Eh : head = sorted).
      { unfold head. apply slice_head_all. unfold sorted.
        rewrite sort_length. lia. }
      rewrite Eh, Hlen_sorted.
      destruct recs; [| simpl; lia].
      exfalso. unfold S in Hpos. simpl in Hpos. discriminate Hpos. }
    unfold of_nat. change 1 with (inject_Z 1). rewrite <- Zle_Qle. lia. }
  destruct (percentages64_close t vs) as (ps & Eps & Hlen & Hps);
    [exact Ht0 | exact Hvs |].
  exists t, ps. split; [exact Et |]. split; [exact Ht0 |]. split.
  - rewrite share64_shape, <- Eps. unfold vs, topCountries.
    fold sorted. fold head. fold rest.
    rewrite Et, !map_app, !map_map. f_equal.
    destruct (limit <? Z.of_nat (length recs))%Z; [| reflexivity].
    unfold CountriesService64.othersEntry.
    cbn [map CountriesService64.percentage]. rewrite Eo. reflexivity.
  - rewrite Hlen. destruct Hsum as [Hslo Hshi].
    assert (Hq : 1 - (1 # 500000) <= sumQ vs / t /\ sumQ vs / t <= 1 + (1 # 500000)).
    { split.
      - apply Qle_shift_div_l; [exact Ht0 | exact Hslo].
      - apply Qle_shift_div_r; [exact Ht0 | exact Hshi]. }
    set (q := sumQ vs / t) in *.
    apply Qabs_Qle_condition in Hps. apply Qabs_Qle_condition. lra.
Qed.

Lemma nonneg_revenue_shares_sum_to_100_witness :
  Forall (fun c => is_double (revenueOf c) /\ 0 <= revenueOf c) abc
  /\ (Z.of_nat (length abc) <= 2 ^ 32)%Z
  /\ 0 < sumQ (map revenueOf abc)
  /\ sumQ (map revenueOf abc) < 2 ^ 1022
  /\ exists (total : Q) (ps : list Q),
       CountriesService64.sumRevenue abc = B64.Fin total
       /\ 0 < total
       /\ map CountriesService64.percentage
            (CountriesService64.getRevenueShareByCountry abc 2)
          = map B64.Fin ps
       /\ Qabs (sumQ ps - 100) <= (1 # 100) * of_nat (length ps).
Proof.
  assert (H1 : Forall (fun c => is_double (revenueOf c) /\ 0 <= revenueOf c) abc).
  { repeat constructor; try discriminate.
    - exists 100. split; [vm_compute; reflexivity | reflexivity].
    - exists 300. split; [vm_compute; reflexivity | reflexivity].
    - exists 200. split; [vm_compute; reflexivity | reflexivity]. }
  assert (H2 : (Z.of_nat (length abc) <= 2 ^ 32)%Z) by (vm_compute; discriminate).
  assert (H3 : 0 < sumQ (map revenueOf abc)) by reflexivity.
  assert (H4 : sumQ (map revenueOf abc) < 2 ^ 1022) by reflexivity.
  exact (conj H1 (conj H2 (conj H3 (conj H4
           (nonneg_revenue_shares_sum_to_100 abc 2 H1 H2 H3 H4))))).
Defined.

(** Revenues 0.1, 0.2 and -0.3 cancel to a total of 2^-54, which the
    guard finds positive: the percentages are of the order of 10^17 and
    add up to 0. *)
Lemma cancelling_shares_sum_to_0 :
  CountriesService64.sumRevenue cancelling = B64.Fin (1 # 18014398509481984)
  /\ B64.gtb (CountriesService64.sumRevenue cancelling) (B64.Fin 0) = true
  /\ map CountriesService64.percentage
       (CountriesService64.getRevenueShareByCountry cancelling 8)
     = map B64.Fin
         [360287970189639680; 180143985094819840; - 540431955284459520]
  /\ sumQ [360287970189639680; 180143985094819840; - 540431955284459520] == 0
  /\ ~ Qabs (sumQ [360287970189639680; 180143985094819840;
                   - 540431955284459520] - 100)
       <= (1 # 100) * of_nat 3.
Proof.
  split; [vm_compute; reflexivity |].
  split; [vm_compute; reflexivity |].
  split; [vm_compute; reflexivity |].
  split; [vm_compute; reflexivity |].
  intro H. apply Qle_bool_iff in H. vm_compute in H. discriminate H.
Qed.

(** ** The rankings *)

Lemma limit_cursor_split (n : Z) (l : list country) :
  exists dropped : list country,
    limit_cursor n l ++ dropped = l
    /\ (n = 0%Z -> dropped = [])
    /\ ((Z.of_nat (length l) <= Z.abs n)%Z -> dropped = [])
    /\ (n <> 0%Z ->
        length (limit_cursor n l) = Nat.min (Z.abs_nat n) (length l)).
Proof.
  unfold limit_cursor. destruct (n =? 0)%Z eqn:E.
  - apply Z.eqb_eq in E. exists []. rewrite app_nil_r.
    repeat split; try reflexivity. intro H. contradiction.
  - apply Z.eqb_neq in E. exists (skipn (Z.abs_nat n) l).
    split; [apply firstn_skipn |]. split; [intro H; contradiction |].
    split; [| intros _; apply length_firstn].
    intro H. apply skipn_all2. lia.
Qed.

(** C5. The ranking computed in memory returns, for a limit of 0 or
    more, min(limit, number of records) records: the first ones of the
    stable descending sort of the whole input by the metric, a missing
    metric counting as 0; a limit past the end returns the whole sorted
    set. The ranking [getTopCountriesByRevenue] asks of the store returns
    the rows of the first records of a descending arrangement of the
    whole input in the store's order, where a missing metric comes below
    every number and is shown as 0: min(limit, number of records) of them
    for a limit of 1 or more, all of them when the limit is at or past
    the end, and all of them at limit 0. When every metric is a number
    its rows are in descending order of the metric shown. *)
Theorem ranking_is_sorted_prefix (recs : list country) (limit : Z) :
  ((0 <= limit)%Z ->
   length (topCountries recs limit) = Nat.min (Z.to_nat limit) (length recs)
   /\ topCountries recs limit = firstn (Z.to_nat limit) (sort byRevenueDesc recs))
  /\ Permutation (sort byRevenueDesc recs) recs
  /\ descending revenueOf (sort byRevenueDesc recs)
  /\ (forall k : Q,
        filter (fun c => Qeqb (revenueOf c) k) (sort byRevenueDesc recs)
        = filter (fun c => Qeqb (revenueOf c) k) recs)
  /\ (forall extra : nat,
        topCountries recs (Z.of_nat (length recs) + Z.of_nat extra)
        = sort byRevenueDesc recs)
  /\ (exists found dropped : list country,
        map TopRow.countryName (getTopCountriesByRevenue limit recs)
        = map Country found
        /\ map TopRow.yearlyRevenue (getTopCountriesByRevenue limit recs)
           = map revenueOf found
        /\ Permutation (found ++ dropped) recs
        /\ storedDescending Yearly_Revenue (found ++ dropped)
        /\ ((1 <= limit)%Z ->
            length found = Nat.min (Z.to_nat limit) (length recs))
        /\ ((Z.of_nat (length recs) <= limit)%Z -> dropped = [])
        /\ (limit = 0%Z -> dropped = []))
  /\ (Forall (fun c => exists x : Q, Yearly_Revenue c = Num x) recs ->
      descending TopRow.yearlyRevenue (getTopCountriesByRevenue limit recs)).
Proof.
  split; [| split; [| split; [| split; [| split; [| split]]]]].
  - intro Hlimit.
    assert (Hpre : topCountries recs limit
                   = firstn (Z.to_nat limit) (sort byRevenueDesc recs))
      by (apply slice_head_nonneg, Hlimit).
    split; [| exact Hpre].
    rewrite Hpre, length_firstn, sort_length. reflexivity.
  - apply sort_perm.
  - apply (sort_descending revenueOf).
  - intro k. apply (sort_stable revenueOf).
  - intro extra. unfold topCountries.
    apply slice_head_all. rewrite sort_length. lia.
  - set (arranged := sort byStoredRevenueDesc recs).
    destruct (limit_cursor_split limit arranged)
      as (dropped & Hsplit & Hzero & Hall & Hlen).
    exists (limit_cursor limit arranged), dropped.
    unfold getTopCountriesByRevenue. fold arranged. rewrite !map_map.
    split; [reflexivity |]. split; [reflexivity |].
    split; [rewrite Hsplit; apply sort_perm |].
    split.
    { rewrite Hsplit.
      apply (sort_storedDescending Yearly_Revenue byStoredRevenueDesc).
      intros a b. reflexivity. }
    split.
    { intro H1. rewrite Hlen by lia.
      unfold arranged. rewrite sort_length. f_equal. lia. }
    split; [| exact Hzero].
    intro Hn. apply Hall. unfold arranged. rewrite sort_length. lia.
  - intro Hnum. unfold getTopCountriesByRevenue.
    apply (descending_map revenueOf); [reflexivity |].
    assert (Hd : descending revenueOf (sort byStoredRevenueDesc recs)).
    { rewrite (sort_ext _ (descBy revenueOf)).
      - apply sort_descending.
      - intros a b Ha Hb. rewrite Forall_forall in Hnum.
        destruct (Hnum a Ha) as [x Hx]. destruct (Hnum b Hb) as [y Hy].
        unfold byStoredRevenueDesc, descBy, revenueOf. rewrite Hx, Hy.
        reflexivity. }
    unfold limit_cursor. destruct (limit =? 0)%Z; [exact Hd |].
    apply descending_firstn, Hd.
Qed.

Lemma ranking_is_sorted_prefix_witness :
  (0 <= 2)%Z
  /\ length (topCountries abc 2) = Nat.min (Z.to_nat 2) (length abc)
  /\ topCountries abc 2 = firstn (Z.to_nat 2) (sort byRevenueDesc abc)
  /\ Forall (fun c => exists x : Q, Yearly_Revenue c = Num x) abc
  /\ descending TopRow.yearlyRevenue (getTopCountriesByRevenue 2 abc).
Proof.
  assert (H : (0 <= 2)%Z) by lia.
  assert (Hnum : Forall (fun c => exists x : Q, Yearly_Revenue c = Num x) abc)
    by (repeat constructor; eexists; reflexivity).
  destruct (ranking_is_sorted_prefix abc 2) as (Hmem & _ & _ & _ & _ & _ & Hdesc).
  destruct (Hmem H) as (Hlen & Hpre).
  exact (conj H (conj Hlen (conj Hpre (conj Hnum (Hdesc Hnum))))).
Defined.

(** At limit 0 the store applies no limit, so the ranking it serves
    returns every record; and it ranks a missing revenue below a
    negative one, where the ranking in memory counts it as 0. *)
Lemma store_ranking_at_limit_0 :
  (0 <= 0)%Z
  /\ length (getTopCountriesByRevenue 0 abc) = 3%nat
  /\ Nat.min (Z.to_nat 0) (length abc) = 0%nat
  /\ map TopRow.countryName (getTopCountriesByRevenue 10 lossAndGap)
     = ["A"; "B"]%string
  /\ map TopRow.yearlyRevenue (getTopCountriesByRevenue 10 lossAndGap)
     = [- (5); 0]
  /\ map Country (topCountries lossAndGap 10) = ["B"; "A"]%string.
Proof.
  split; [lia |]. repeat split.
Qed.

Example ranking_abc :
  map Country (topCountries abc 2) = ["B"; "C"]%string
  /\ map TopRow.countryName (getTopCountriesByRevenue 2 abc) = ["B"; "C"]%string.
Proof. split; reflexivity. Qed.

(** ** Zero totals *)

Lemma round64_zero :
  ResponseHandler64.roundToDecimals (Some (B64.Fin 0)) 2 = B64.Fin 0.
Proof. vm_compute. reflexivity. Qed.

Lemma guard_not_positive (t : Q) : t == 0 -> B64.gtb (B64.Fin t) (B64.Fin 0) = false.
Proof.
  intro Ht. cbn [B64.gtb]. unfold Qgtb. apply Qltb_ge. rewrite Ht. apply Qle_refl.
Qed.

Lemma share64_zero_total (recs : list country) (limit : Z) (t : Q) :
  CountriesService64.sumRevenue recs = B64.Fin t -> t == 0 ->
  Forall (fun e => CountriesService64.percentage e = B64.Fin 0)
    (CountriesService64.getRevenueShareByCountry recs limit).
Proof.
  intros Et Ht. rewrite share64_shape, Et. apply Forall_app. split.
  - apply Forall_forall. intros e He.
    apply in_map_iff in He. destruct He as (c & <- & _).
    unfold CountriesService64.shareOf, CountriesService64.percentOf.
    cbn [CountriesService64.percentage].
    rewrite (guard_not_positive t Ht). apply round64_zero.
  - destruct (limit <? Z.of_nat (length recs))%Z; constructor; [| constructor].
    unfold CountriesService64.othersEntry, CountriesService64.percentOf.
    cbn [CountriesService64.percentage].
    rewrite (guard_not_positive t Ht). apply round64_zero.
Qed.

Lemma regions_zero_total (regs : list RegionsService.region) (t : Q) :
  RegionsService.totalRevenue (RegionsService.getRegionsSummary regs) = B64.Fin t ->
  t == 0 ->
  Forall (fun r => RegionsService.percentage r = B64.Fin 0)
    (RegionsService.regions (RegionsService.getRegionsSummary regs)).
Proof.
  unfold RegionsService.getRegionsSummary.
  cbn [RegionsService.totalRevenue RegionsService.regions]. intros Et Ht.
  rewrite Et, (guard_not_positive t Ht).
  apply Forall_forall. intros r Hr.
  apply in_map_iff in Hr. destruct Hr as (x & <- & _). reflexivity.
Qed.

(** C3. When the total is 0 every percentage is exactly 0, never NaN or
    an infinity: the rows of the share report (head and Others), the
    rows of the regions summary, and the three percentages of the
    customer statistics (whose total is the number of customers). *)
Theorem zero_total_gives_zero_percentages :
  (forall (recs : list country) (limit : Z) (t : Q),
      CountriesService64.sumRevenue recs = B64.Fin t -> t == 0 ->
      Forall (fun e => CountriesService64.percentage e = B64.Fin 0)
        (CountriesService64.getRevenueShareByCountry recs limit))
  /\ (forall (regs : list RegionsService.region) (t : Q),
         RegionsService.totalRevenue (RegionsService.getRegionsSummary regs)
         = B64.Fin t ->
         t == 0 ->
         Forall (fun r => RegionsService.percentage r = B64.Fin 0)
           (RegionsService.regions (RegionsService.getRegionsSummary regs)))
  /\ (forall allCustomers : list customer,
         let s := CustomersService64.getCustomerStatistics allCustomers in
         CustomersService64.totalCustomers s = 0%nat ->
         CustomersService64.growthPercentage s = B64.Fin 0
         /\ CustomersService64.declinePercentage s = B64.Fin 0
         /\ CustomersService64.noChangePercentage s = B64.Fin 0).
Proof.
  split; [| split].
  - intros recs limit t. apply share64_zero_total.
  - intros regs t. apply regions_zero_total.
  - intros allCustomers s Hs. unfold s in *.
    unfold CustomersService64.getCustomerStatistics in *.
    cbn [CustomersService64.totalCustomers CustomersService64.growthPercentage
         CustomersService64.declinePercentage
         CustomersService64.noChangePercentage] in *.
    rewrite Hs. repeat split.
Qed.

Lemma zero_total_gives_zero_percentages_witness :
  (CountriesService64.sumRevenue zeros = B64.Fin 0
   /\ Forall (fun e => CountriesService64.percentage e = B64.Fin 0)
        (CountriesService64.getRevenueShareByCountry zeros 2))
  /\ (RegionsService.totalRevenue (RegionsService.getRegionsSummary noRegions)
      = B64.Fin 0
      /\ Forall (fun r => RegionsService.percentage r = B64.Fin 0)
           (RegionsService.regions (RegionsService.getRegionsSummary noRegions)))
  /\ (CustomersService64.totalCustomers
        (CustomersService64.getCustomerStatistics []) = 0%nat
      /\ CustomersService64.growthPercentage
           (CustomersService64.getCustomerStatistics []) = B64.Fin 0).
Proof.
  destruct zero_total_gives_zero_percentages as (Hshare & Hregions & Hstats).
  assert (H0 : 0 == 0) by reflexivity.
  split; [| split].
  - assert (Ht : CountriesService64.sumRevenue zeros = B64.Fin 0) by reflexivity.
    exact (conj Ht (Hshare zeros 2%Z 0 Ht H0)).
  - assert (Ht : RegionsService.totalRevenue
                   (RegionsService.getRegionsSummary noRegions) = B64.Fin 0)
      by reflexivity.
    exact (conj Ht (Hregions noRegions 0 Ht H0)).
  - assert (Ht : CustomersService64.totalCustomers
                   (CustomersService64.getCustomerStatistics []) = 0%nat)
      by reflexivity.
    exact (conj Ht (proj1 (Hstats [] Ht))).
Defined.

(** What the guard keeps out: at a total of 0 the division itself gives
    NaN for a revenue of 0 and an infinity for any other. *)
Example unguarded_division_at_zero :
  B64.mul (B64.div (B64.Fin 0) (B64.Fin 0)) (B64.Fin 100) = B64.NaN
  /\ B64.mul (B64.div (B64.Fin 5) (B64.Fin 0)) (B64.Fin 100) = B64.Inf false.
Proof. split; reflexivity. Qed.

(** ** Growth distribution *)

Lemma growth_counts (l : list customer) :
  (length (filter (fun c => Qgtb (or0 (Variance c)) 0) l)
   + length (filter (fun c => Qltb (or0 (Variance c)) 0) l)
   + length (filter (fun c => Qeqb (or0 (Variance c)) 0) l)
   = length l)%nat.
Proof.
  induction l as [| c l IH]; [reflexivity |].
  simpl. set (v := or0 (Variance c)).
  destruct (Qgtb v 0) eqn:Eg; destruct (Qltb v 0) eqn:El;
    destruct (Qeqb v 0) eqn:Ee; simpl; try lia; exfalso;
    unfold Qgtb in Eg;
    try (apply Qltb_lt in Eg); try (apply Qltb_ge in Eg);
    try (apply Qltb_lt in El); try (apply Qltb_ge in El);
    try (apply Qeqb_eq in Ee); try lra.
  assert (Hv : v == 0) by lra.
  apply Qeqb_eq in Hv. congruence.
Qed.

Lemma of_nat_plus (a b : nat) : of_nat (a + b) == of_nat a + of_nat b.
Proof.
  unfold of_nat. rewrite Nat2Z.inj_add, inject_Z_plus. reflexivity.
Qed.

Lemma of_nat_positive (n : nat) : (0 < n)%nat -> 0 < of_nat n.
Proof.
  intro H. unfold of_nat. change 0 with (inject_Z 0). rewrite <- Zlt_Qlt. lia.
Qed.

Lemma of_nat_le (a b : nat) : (a <= b)%nat -> of_nat a <= of_nat b.
Proof.
  intro H. unfold of_nat. rewrite <- Zle_Qle. lia.
Qed.

(** A filter counts the elements its test accepts. *)
Lemma counts_filter {A : Type} (P : A -> Prop) (test : A -> bool) (l : list A) :
  (forall a : A, test a = true <-> P a) ->
  counts P l (length (filter test l)).
Proof.
  intro Hspec. induction l as [| a l IH]; [constructor |].
  cbn [filter]. destruct (test a) eqn:E.
  - apply counts_in; [apply Hspec, E | exact IH].
  - apply counts_out; [| exact IH].
    intro Hp. apply Hspec in Hp. congruence.
Qed.

(** An unrounded percentage, [(x / t) * 100] in binary64 for a part [x]
    of a positive total [t], is within 4 in 10^14 of the exact one. *)
Lemma percent64_close (x t : Q) :
  0 <= x -> x <= t -> 0 < t ->
  exists p : Q,
    B64.mul (B64.div (B64.Fin x) (B64.Fin t)) (B64.Fin 100) = B64.Fin p
    /\ Qabs (p - x / t * 100) <= 1 # 30000000000000.
Proof.
  intros Hx Hxt Ht.
  assert (Hne : Qeqb t 0 = false).
  { apply not_true_is_false. intro H. apply Qeq_bool_iff in H. lra. }
  cbn [B64.div]. rewrite Hne.
  assert (Hp : 0 <= x / t /\ x / t <= 1).
  { split.
    - apply Qle_shift_div_l; [exact Ht | lra].
    - apply Qle_shift_div_r; [exact Ht | lra]. }
  set (q := x / t) in *. destruct Hp as [Hp0 Hp1].
  destruct (round_near q 1) as (z1 & E1 & H1 & N1);
    [exact Hp0 | change (2 ^ 1) with 2; lra | lia |].
  rewrite E1. cbn [B64.mul].
  apply Qabs_Qle_condition in H1. eval_pow2.
  destruct (round_near (z1 * 100) 7) as (z2 & E2 & H2 & _);
    [lra | change (2 ^ 7) with 128; lra | lia |].
  exists z2. split; [exact E2 |].
  apply Qabs_Qle_condition in H2. eval_pow2.
  apply Qabs_Qle_condition. lra.
Qed.

Lemma percentOfCount_close (count total : nat) :
  (count <= total)%nat -> (0 < total)%nat ->
  exists p : Q,
    CustomersService64.percentOfCount count total = B64.Fin p
    /\ Qabs (p - of_nat count / of_nat total * 100) <= 1 # 30000000000000.
Proof.
  intros Hle Hpos. unfold CustomersService64.percentOfCount.
  pose proof (of_nat_positive total Hpos) as Ht.
  assert (Hgt : Qgtb (of_nat total) 0 = true) by (apply Qltb_lt; exact Ht).
  cbn [B64.gtb]. rewrite Hgt.
  apply percent64_close;
    [apply of_nat_nonneg | apply of_nat_le, Hle | exact Ht].
Qed.

(** C8. The counts are those of the customers with a variance above 0,
    below 0 and equal to 0 (a missing variance counting as 0) and add up
    to the number of customers. On a non-empty input the three
    percentages are finite and add up to 100 within 10^-13, the rounding
    of the binary64 quotients and products; on the empty input each is
    exactly 0. *)
Theorem growth_distribution_adds_up :
  (forall allCustomers : list customer,
      let s := CustomersService64.getCustomerStatistics allCustomers in
      counts (fun c => 0 < or0 (Variance c)) allCustomers
        (CustomersService64.customersWithGrowth s)
      /\ counts (fun c => or0 (Variance c) < 0) allCustomers
           (CustomersService64.customersWithDecline s)
      /\ counts (fun c => or0 (Variance c) == 0) allCustomers
           (CustomersService64.customersNoChange s)
      /\ (CustomersService64.customersWithGrowth s
          + CustomersService64.customersWithDecline s
          + CustomersService64.customersNoChange s
          = length allCustomers)%nat
      /\ CustomersService64.totalCustomers s = length allCustomers)
  /\ (forall (c : customer) (rest : list customer),
         let s := CustomersService64.getCustomerStatistics (c :: rest) in
         exists g d z : Q,
           CustomersService64.growthPercentage s = B64.Fin g
           /\ CustomersService64.declinePercentage s = B64.Fin d
           /\ CustomersService64.noChangePercentage s = B64.Fin z
           /\ Qabs (g + d + z - 100) <= 1 # 10000000000000)
  /\ (let s := CustomersService64.getCustomerStatistics [] in
      CustomersService64.growthPercentage s = B64.Fin 0
      /\ CustomersService64.declinePercentage s = B64.Fin 0
      /\ CustomersService64.noChangePercentage s = B64.Fin 0).
Proof.
  split; [| split].
  - intro allCustomers. cbv zeta.
    unfold CustomersService64.getCustomerStatistics.
    cbn [CustomersService64.customersWithGrowth
         CustomersService64.customersWithDecline
         CustomersService64.customersNoChange
         CustomersService64.totalCustomers].
    split; [| split; [| split; [| split]]].
    + apply counts_filter. intro a. unfold Qgtb. apply Qltb_lt.
    + apply counts_filter. intro a. apply Qltb_lt.
    + apply counts_filter. intro a. apply Qeqb_eq.
    + apply growth_counts.
    + reflexivity.
  - intros c rest. cbv zeta.
    pose proof (growth_counts (c :: rest)) as Hc.
    unfold CustomersService64.getCustomerStatistics.
    cbn [CustomersService64.growthPercentage CustomersService64.declinePercentage
         CustomersService64.noChangePercentage].
    set (n := length (c :: rest)) in *.
    set (g := length (filter (fun c => Qgtb (or0 (Variance c)) 0) (c :: rest))) in *.
    set (d := length (filter (fun c => Qltb (or0 (Variance c)) 0) (c :: rest))) in *.
    set (z := length (filter (fun c => Qeqb (or0 (Variance c)) 0) (c :: rest))) in *.
    assert (Hn : (0 < n)%nat) by (unfold n; simpl; lia).
    destruct (percentOfCount_close g n) as (pg & Eg & Hg); [lia | exact Hn |].
    destruct (percentOfCount_close d n) as (pd & Ed & Hd); [lia | exact Hn |].
    destruct (percentOfCount_close z n) as (pz & Ez & Hz); [lia | exact Hn |].
    exists pg, pd, pz. repeat split; try assumption.
    pose proof (of_nat_positive n Hn) as Hpos.
    assert (Hsum : of_nat g / of_nat n * 100 + of_nat d / of_nat n * 100
                   + of_nat z / of_nat n * 100 == 100).
    { assert (E : of_nat g + of_nat d + of_nat z == of_nat n)
        by (rewrite <- !of_nat_plus, Hc; reflexivity).
      setoid_replace (of_nat g / of_nat n * 100 + of_nat d / of_nat n * 100
                      + of_nat z / of_nat n * 100)
        with ((of_nat g + of_nat d + of_nat z) / of_nat n * 100)
        by (field; lra).
      rewrite E. field. lra. }
    apply Qabs_Qle_condition in Hg, Hd, Hz.
    apply Qabs_Qle_condition. lra.
  - repeat split.
Qed.

(** Three customers, one growing, one declining, one unchanged: each
    percentage is the double 33.33333333333333 and the three add up to
    less than 100. *)
Lemma growth_percentages_of_three :
  let s := CustomersService64.getCustomerStatistics threeCustomers in
  CustomersService64.growthPercentage s
  = B64.Fin (2345624805922133 # 70368744177664)
  /\ CustomersService64.declinePercentage s
     = B64.Fin (2345624805922133 # 70368744177664)
  /\ CustomersService64.noChangePercentage s
     = B64.Fin (2345624805922133 # 70368744177664)
  /\ (2345624805922133 # 70368744177664) + (2345624805922133 # 70368744177664)
     + (2345624805922133 # 70368744177664) < 100.
Proof.
  cbv zeta. split; [vm_compute; reflexivity |].
  split; [vm_compute; reflexivity |].
  split; [vm_compute; reflexivity |]. reflexivity.
Qed.

Example growth_distribution_three :
  let s := CustomersService64.getCustomerStatistics threeCustomers in
  (CustomersService64.customersWithGrowth s,
   CustomersService64.customersWithDecline s,
   CustomersService64.customersNoChange s) = (1, 1, 1)%nat.
Proof. reflexivity. Qed.

(** ** Rounding to two decimals *)

(** The floors of [x + 1/2] and [-x + 1/2] cancel, except on a tie,
    where they add up to 1. *)
Lemma floor_half_opp (x : Q) :
  let n := Qfloor (x + (1 # 2)) in
  let m := Qfloor (- x + (1 # 2)) in
  (is_tie x -> (n + m = 1)%Z) /\ (~ is_tie x -> (n + m = 0)%Z).
Proof.
  cbv zeta. unfold is_tie.
  destruct (floor_half_bounds x) as [Hn1 Hn2].
  destruct (floor_half_bounds (- x)) as [Hm1 Hm2].
  set (n := Qfloor (x + (1 # 2))) in *.
  set (m := Qfloor (- x + (1 # 2))) in *.
  assert (Hlo : inject_Z (-1) < inject_Z (n + m)).
  { rewrite inject_Z_plus. change (inject_Z (-1)) with (-1). lra. }
  assert (Hhi : inject_Z (n + m) <= inject_Z 1).
  { rewrite inject_Z_plus. change (inject_Z 1) with 1. lra. }
  rewrite <- Zlt_Qlt in Hlo. rewrite <- Zle_Qle in Hhi.
  split.
  - intro Htie.
    assert (H1 : inject_Z 0 < inject_Z (n + m)).
    { rewrite inject_Z_plus. change (inject_Z 0) with 0. lra. }
    rewrite <- Zlt_Qlt in H1. lia.
  - intro Hnot.
    assert (Hz : (n + m <> 1)%Z).
    { intro E. apply Hnot.
      assert (E' : inject_Z n + inject_Z m == 1).
      { rewrite <- inject_Z_plus, E. reflexivity. }
      lra. }
    lia.
Qed.

Lemma math_round_half_away (x : Q) :
  (0 <= x -> Math.round x = round_half_away x)
  /\ (~ is_tie x -> Math.round x = round_half_away x)
  /\ (x < 0 -> is_tie x -> Math.round x = (round_half_away x + 1)%Z).
Proof.
  unfold Math.round, round_half_away.
  destruct (floor_half_opp x) as [Htie Hnot].
  destruct (Qltb x 0) eqn:E.
  - apply Qltb_lt in E. repeat split.
    + intro H. lra.
    + intro H. specialize (Hnot H). lia.
    + intros _ H. specialize (Htie H). lia.
  - apply Qltb_ge in E. repeat split.
    intros H _. lra.
Qed.

Lemma round_pos_sign (x y : Q) : 0 < x -> B64.round_pos x = B64.Fin y -> 0 <= y.
Proof.
  intros Hx. unfold B64.round_pos. cbv zeta.
  destruct (Qle_bool _ _); [discriminate |].
  intro E. injection E as <-.
  set (e := B64.ulp_exp x).
  assert (H : 0 <= inject_Z (B64.rne (x / 2 ^ e)) * 2 ^ e).
  { apply Qmult_le_0_compat.
    - change 0 with (inject_Z 0). rewrite <- Zle_Qle. apply rne_nonneg.
      apply Qle_shift_div_l; [apply pow2_pos |].
      rewrite Qmult_0_l. apply Qlt_le_weak, Hx.
    - apply Qlt_le_weak, pow2_pos. }
  pose proof (Qred_correct (inject_Z (B64.rne (x / 2 ^ e)) * 2 ^ e)) as Hr.
  change (0 <= Qred (inject_Z (B64.rne (x / 2 ^ e)) * 2 ^ e)). lra.
Qed.

(** Rounding keeps the sign. *)
Lemma round_sign (x y : Q) :
  B64.round x = B64.Fin y -> (0 <= x -> 0 <= y) /\ (x <= 0 -> y <= 0).
Proof.
  unfold B64.round. destruct x as [n d]. cbn [Qnum].
  destruct n as [| p | p]; intro E.
  - injection E as <-. split; intros _; apply Qle_refl.
  - split.
    + intros _. apply (round_pos_sign (Zpos p # d)); [reflexivity | exact E].
    + intro H. unfold Qle in H. cbn in H. lia.
  - split.
    + intro H. unfold Qle in H. cbn in H. lia.
    + intros _. destruct (B64.round_pos (- (Zneg p # d))) as [| s | z] eqn:Ez;
        try discriminate E.
      cbn [B64.opp] in E. injection E as <-.
      pose proof (round_pos_sign (- (Zneg p # d)) z ltac:(reflexivity) Ez). lra.
Qed.

Lemma roundToDecimals64_scaled (v scaled : Q) :
  B64.mul (B64.Fin v) (B64.Fin 100) = B64.Fin scaled ->
  ResponseHandler64.roundToDecimals (Some (B64.Fin v)) 2
  = B64.round (inject_Z (Math.round scaled) / 100).
Proof.
  intro E. unfold ResponseHandler64.roundToDecimals.
  rewrite pow10_hundred, E. reflexivity.
Qed.

Lemma roundHalfAway64_scaled (v scaled : Q) :
  B64.mul (B64.Fin v) (B64.Fin 100) = B64.Fin scaled ->
  roundHalfAway64 v = B64.round (inject_Z (round_half_away scaled) / 100).
Proof.
  intro E. unfold roundHalfAway64.
  rewrite pow10_hundred, E. reflexivity.
Qed.

(** C4, as the code has it. [roundToDecimals(v, 2)] takes the binary64
    product of [v] and 100 to the nearest integer, a tie going towards
    +infinity, and divides by 100 in binary64. This is rounding half
    away from zero for every [v >= 0] and whenever the product is not a
    tie; when the product is a negative tie the integer is the one
    towards zero, 1 above the half-away integer. A null or undefined
    value gives 0. *)
Theorem roundToDecimals_is_half_up (v scaled : Q) :
  B64.mul (B64.Fin v) (B64.Fin 100) = B64.Fin scaled ->
  let r := ResponseHandler64.roundToDecimals (Some (B64.Fin v)) 2 in
  r = B64.round (inject_Z (Qfloor (scaled + (1 # 2))) / 100)
  /\ (0 <= v -> r = roundHalfAway64 v)
  /\ (~ is_tie scaled -> r = roundHalfAway64 v)
  /\ (scaled < 0 -> is_tie scaled ->
      r = B64.round (inject_Z (round_half_away scaled + 1) / 100)
      /\ roundHalfAway64 v = B64.round (inject_Z (round_half_away scaled) / 100)
      /\ inject_Z (round_half_away scaled) < scaled
         < inject_Z (round_half_away scaled + 1))
  /\ ResponseHandler64.roundToDecimals None 2 = B64.Fin 0.
Proof.
  intro E. cbv zeta.
  rewrite (roundToDecimals64_scaled v scaled E),
          (roundHalfAway64_scaled v scaled E).
  destruct (math_round_half_away scaled) as (Hpos & Hnot & Hneg).
  split; [reflexivity |]. split; [| split; [| split]].
  - intro Hv. rewrite Hpos; [reflexivity |].
    cbn [B64.mul] in E. apply round_sign in E. apply E.
    apply Qmult_le_0_compat; [exact Hv | discriminate].
  - intro Ht. rewrite Hnot by exact Ht. reflexivity.
  - intros Hs Ht. rewrite Hneg by assumption.
    split; [reflexivity |]. split; [reflexivity |].
    specialize (Hneg Hs Ht). unfold Math.round in Hneg.
    unfold is_tie in Ht. rewrite Hneg in Ht.
    rewrite inject_Z_plus in *. change (inject_Z 1) with 1 in *. lra.
  - reflexivity.
Qed.

Lemma roundToDecimals_is_half_up_witness :
  (B64.mul (B64.Fin (1 # 8)) (B64.Fin 100) = B64.Fin (25 # 2)
   /\ 0 <= 1 # 8
   /\ ResponseHandler64.roundToDecimals (Some (B64.Fin (1 # 8))) 2
      = roundHalfAway64 (1 # 8))
  /\ (B64.mul (B64.Fin (- (1 # 8))) (B64.Fin 100) = B64.Fin (- (25 # 2))
      /\ - (25 # 2) < 0 /\ is_tie (- (25 # 2))
      /\ ResponseHandler64.roundToDecimals (Some (B64.Fin (- (1 # 8)))) 2
         = B64.round (inject_Z (round_half_away (- (25 # 2)) + 1) / 100)).
Proof.
  split.
  - assert (E : B64.mul (B64.Fin (1 # 8)) (B64.Fin 100) = B64.Fin (25 # 2))
      by (vm_compute; reflexivity).
    assert (H : 0 <= 1 # 8) by (vm_compute; discriminate).
    destruct (roundToDecimals_is_half_up (1 # 8) (25 # 2) E) as (_ & Hpos & _).
    exact (conj E (conj H (Hpos H))).
  - assert (E : B64.mul (B64.Fin (- (1 # 8))) (B64.Fin 100)
                = B64.Fin (- (25 # 2)))
      by (vm_compute; reflexivity).
    assert (H : - (25 # 2) < 0) by reflexivity.
    assert (Ht : is_tie (- (25 # 2))) by reflexivity.
    destruct (roundToDecimals_is_half_up (- (1 # 8)) (- (25 # 2)) E)
      as (_ & _ & _ & Hneg & _).
    exact (conj E (conj H (conj Ht (proj1 (Hneg H Ht))))).
Defined.

(** C4, as stated, fails: -0.125 is a double, its product with 100 is
    the tie -12.5, which [Math.round] takes to -12, so the result is the
    double -0.12, towards zero, where rounding half away from zero gives
    -0.13. *)
Lemma roundToDecimals_negative_tie :
  - (1 # 8) < 0
  /\ B64.round (- (1 # 8)) = B64.Fin (- (1 # 8))
  /\ B64.mul (B64.Fin (- (1 # 8))) (B64.pow10 2) = B64.Fin (- (25 # 2))
  /\ is_tie (- (25 # 2))
  /\ ResponseHandler64.roundToDecimals (Some (B64.Fin (- (1 # 8)))) 2
     = B64.round (- (12 # 100))
  /\ roundHalfAway64 (- (1 # 8)) = B64.round (- (13 # 100))
  /\ ResponseHandler64.roundToDecimals (Some (B64.Fin (- (1 # 8)))) 2
     <> roundHalfAway64 (- (1 # 8)).
Proof.
  split; [reflexivity |].
  split; [vm_compute; reflexivity |].
  split; [vm_compute; reflexivity |].
  split; [reflexivity |].
  split; [vm_compute; reflexivity |].
  split; [vm_compute; reflexivity |].
  vm_compute. discriminate.
Qed.

(** The product is rounded before [Math.round] sees it: the double
    nearest to 2.675 lies below 2.675, yet its product with 100 rounds
    to the tie 267.5, and the result is 2.68. *)
Example roundToDecimals_2675 :
  B64.literal (2675 # 1000) < 2675 # 1000
  /\ B64.mul (B64.Fin (B64.literal (2675 # 1000))) (B64.Fin 100)
     = B64.Fin (535 # 2)
  /\ ResponseHandler64.roundToDecimals
       (Some (B64.Fin (B64.literal (2675 # 1000)))) 2
     = B64.round (268 # 100).
Proof.
  split; [vm_compute; reflexivity |].
  split; vm_compute; reflexivity.
Qed.

(** ** Query parameters: parseInt reads back the number it is given *)

Import Validation.

Lemma parseDigits_uint (d : Decimal.uint) (a : Z) :
  parseDigits 10 (NilEmpty.string_of_uint d) (Some a) = Some (uint_val d a).
Proof.
  revert a.
  induction d; intro a; [reflexivity | ..];
    cbn [NilEmpty.string_of_uint parseDigits uint_val];
    eval_digit; apply IHd.
Qed.

Lemma parseDigits_uint_start (d : Decimal.uint) :
  d <> Decimal.Nil ->
  parseDigits 10 (NilEmpty.string_of_uint d) None = Some (uint_val d 0).
Proof.
  destruct d; intro Hd; [congruence | ..];
    cbn [NilEmpty.string_of_uint parseDigits uint_val];
    eval_digit; apply parseDigits_uint.
Qed.

Lemma of_uint_acc_val (d : Decimal.uint) (acc : positive) :
  Zpos (Pos.of_uint_acc d acc) = uint_val d (Zpos acc).
Proof.
  revert acc.
  induction d; intro acc; [reflexivity | ..];
    cbn [Pos.of_uint_acc uint_val]; rewrite IHd; f_equal; lia.
Qed.

Lemma of_uint_val (d : Decimal.uint) : Z.of_N (Pos.of_uint d) = uint_val d 0.
Proof.
  induction d; [reflexivity | exact IHd | ..];
    cbn [Pos.of_uint uint_val Z.of_N]; apply of_uint_acc_val.
Qed.

(** A decimal numeral has no leading white space, no sign and no 0x
    prefix: [parseInt] reads all of it, and reads its opposite after a
    minus sign. *)
Lemma parseInt_numeral (d : Decimal.uint) :
  d <> Decimal.Nil ->
  parseInt (NilEmpty.string_of_uint d) = Some (toDouble (uint_val d 0))
  /\ parseInt (String "-" (NilEmpty.string_of_uint d))
     = Some (toDouble (- uint_val d 0)).
Proof.
  intro Hd.
  pose proof (parseDigits_uint_start d Hd) as Hp.
  destruct d as [| d | d | d | d | d | d | d | d | d | d]; [congruence | ..];
    try (unfold parseInt; cbn [NilEmpty.string_of_uint trimStart] in *;
         eval_white; rewrite Hp; cbn [option_map];
         split; do 2 f_equal; lia).
  destruct d; unfold parseInt; cbn [NilEmpty.string_of_uint trimStart] in *;
    eval_white; rewrite Hp; cbn [option_map]; split; do 2 f_equal; lia.
Qed.

(** Up to 2^53 every integer is a double. *)
Lemma toDouble_safe (n : Z) : (Z.abs n <= 2 ^ 53)%Z -> toDouble n = n.
Proof.
  intro H. unfold toDouble. apply Z.leb_le in H. rewrite H. reflexivity.
Qed.

(** A stored number of magnitude up to 2^53 is printed in plain digits
    and read back as itself. *)
Lemma parseIntOf_number (n : Z) :
  (Z.abs n <= 2 ^ 53)%Z -> parseIntOf (NumV n) = Some n.
Proof.
  intro Hsafe. unfold parseIntOf, toString, numberToString.
  assert (Hb : (Z.abs n <=? 2 ^ 53)%Z = true) by (apply Z.leb_le; exact Hsafe).
  rewrite Hb. unfold decimal.
  rewrite <- (toDouble_safe n Hsafe) at 2.
  destruct n as [| p | p]; [reflexivity | |];
    cbn [Z.to_int NilZero.string_of_int];
    pose proof (DecimalPos.Unsigned.to_uint_nonnil p) as Hnil;
    pose proof (DecimalPos.Unsigned.of_to p) as Hof;
    pose proof (of_uint_val (Pos.to_uint p)) as Hval;
    rewrite Hof in Hval; cbn [Z.of_N] in Hval;
    destruct (parseInt_numeral (Pos.to_uint p) Hnil) as [Hpos Hneg];
    assert (Hs : NilZero.string_of_uint (Pos.to_uint p)
                 = NilEmpty.string_of_uint (Pos.to_uint p))
      by (destruct (Pos.to_uint p); [congruence | reflexivity ..]);
    rewrite Hs.
  - rewrite Hpos, <- Hval. reflexivity.
  - rewrite Hneg, <- Hval. reflexivity.
Qed.

Lemma orElse_nonzero (r : option Z) (d : Z) : d <> 0%Z -> orElse r d <> 0%Z.
Proof.
  intro Hd. unfold orElse. destruct r as [n |]; [| exact Hd].
  destruct (n =? 0)%Z eqn:E; [exact Hd |]. apply Z.eqb_neq, E.
Qed.

Lemma orElse_fallback (r : option Z) (d : Z) :
  r = None \/ r = Some 0%Z -> orElse r d = d.
Proof. intros [-> | ->]; reflexivity. Qed.

Lemma orElse_pass (n d : Z) : n <> 0%Z -> orElse (Some n) d = n.
Proof.
  intro Hn. unfold orElse. apply Z.eqb_neq in Hn. rewrite Hn. reflexivity.
Qed.

Import CountriesController.

(** What the handlers read after the middleware: the parameter itself
    when it is falsy, else a nonzero number. *)
Lemma sanitized_limit (q : qparam) :
  (truthy_param q = false /\ sanitizeQuery_limit q = q)
  \/ (truthy_param q = true
      /\ sanitizeQuery_limit q = NumV (orElse (parseIntOf q) 10)).
Proof.
  unfold sanitizeQuery_limit. destruct (truthy_param q); [right | left]; split;
    reflexivity.
Qed.

Lemma falsy_param_parse (q : qparam) :
  truthy_param q = false -> parseIntOf q = None \/ parseIntOf q = Some 0%Z.
Proof.
  destruct q as [| s | n]; simpl; intro H.
  - left. reflexivity.
  - apply negb_false_iff, String.eqb_eq in H. subst s. left. reflexivity.
  - apply negb_false_iff, Z.eqb_eq in H. subst n. right. reflexivity.
Qed.

(** C9, as the code has it. The limit a handler passes on is never
    zero. A parameter that is missing or empty gives the handler's own
    fallback, 10 for top countries and 8 for the revenue share; one that
    [parseInt] reads as NaN or 0 gives a positive limit; one read as a
    nonzero integer of magnitude up to 2^53, negative ones included, is
    passed on unchanged. *)
Theorem limit_fallback (q : qparam) :
  route_topRevenue_limit q <> 0%Z
  /\ route_revenueShare_limit q <> 0%Z
  /\ (truthy_param q = false ->
      route_topRevenue_limit q = 10%Z /\ route_revenueShare_limit q = 8%Z)
  /\ (parseIntOf q = None \/ parseIntOf q = Some 0%Z ->
      (0 < route_topRevenue_limit q)%Z /\ (0 < route_revenueShare_limit q)%Z)
  /\ (forall n : Z,
        truthy_param q = true -> parseIntOf q = Some n -> n <> 0%Z ->
        (Z.abs n <= 2 ^ 53)%Z ->
        route_topRevenue_limit q = n /\ route_revenueShare_limit q = n).
Proof.
  unfold route_topRevenue_limit, route_revenueShare_limit,
    topRevenue_limit, revenueShare_limit.
  split; [apply orElse_nonzero; discriminate |].
  split; [apply orElse_nonzero; discriminate |].
  destruct (sanitized_limit q) as [[Hf ->] | [Ht ->]].
  - split; [| split].
    + intros _. rewrite !orElse_fallback by (apply falsy_param_parse, Hf).
      split; reflexivity.
    + intro Hp. rewrite !orElse_fallback by exact Hp. split; reflexivity.
    + intros n Hq. congruence.
  - split; [| split].
    + intro Hq. congruence.
    + intro Hp. rewrite (orElse_fallback (parseIntOf q)) by exact Hp.
      split; reflexivity.
    + intros n _ Hp Hn Hsafe.
      rewrite Hp, (orElse_pass n 10) by exact Hn.
      rewrite (parseIntOf_number n Hsafe), !orElse_pass by exact Hn.
      split; reflexivity.
Qed.

Lemma limit_fallback_witness :
  (truthy_param Absent = false
   /\ route_topRevenue_limit Absent = 10%Z
   /\ route_revenueShare_limit Absent = 8%Z)
  /\ ((parseIntOf (Str "abc") = None \/ parseIntOf (Str "abc") = Some 0%Z)
      /\ (0 < route_revenueShare_limit (Str "abc"))%Z)
  /\ (truthy_param (Str "3") = true /\ parseIntOf (Str "3") = Some 3%Z
      /\ 3%Z <> 0%Z /\ (Z.abs 3 <= 2 ^ 53)%Z
      /\ route_revenueShare_limit (Str "3") = 3%Z).
Proof.
  split; [| split].
  - destruct (limit_fallback Absent) as (_ & _ & H & _).
    destruct (H eq_refl) as [H10 H8]. exact (conj eq_refl (conj H10 H8)).
  - destruct (limit_fallback (Str "abc")) as (_ & _ & _ & H & _).
    exact (conj (or_introl eq_refl) (proj2 (H (or_introl eq_refl)))).
  - destruct (limit_fallback (Str "3")) as (_ & _ & _ & _ & H).
    assert (H3 : 3%Z <> 0%Z) by discriminate.
    assert (Hs : (Z.abs 3 <= 2 ^ 53)%Z) by (vm_compute; discriminate).
    exact (conj eq_refl (conj eq_refl
             (conj H3 (conj Hs (proj2 (H 3%Z eq_refl eq_refl H3 Hs)))))).
Defined.

(** C9, as stated, fails: the string "-5" is not a positive integer, yet
    both handlers pass -5 on, not the fallback 10 or 8. *)
Lemma negative_limit_passed_on :
  route_topRevenue_limit (Str "-5") = (-5)%Z
  /\ route_revenueShare_limit (Str "-5") = (-5)%Z
  /\ ~ (0 < route_topRevenue_limit (Str "-5"))%Z
  /\ ~ (0 < route_revenueShare_limit (Str "-5"))%Z.
Proof. repeat split; vm_compute; discriminate. Qed.

Example limits_seen :
  map route_revenueShare_limit [Absent; Str ""; Str "abc"; Str "0"; Str "12"]
  = [8; 8; 10; 10; 12]%Z
  /\ map route_topRevenue_limit [Absent; Str ""; Str "abc"; Str "0"; Str "12"]
     = [10; 10; 10; 10; 12]%Z.
Proof. split; vm_compute; reflexivity. Qed.

(** Beyond 2^53 the number the middleware stores is not always the
    integer written, and the handler reads it back through its printed
    form: 2^53 + 1 arrives as 2^53, and 10^21, printed 1e+21, as 1. *)
Example large_limits_seen :
  route_revenueShare_limit (Str "9007199254740993") = 9007199254740992%Z
  /\ toString (sanitizeQuery_limit (Str "1000000000000000000000"))
     = "1e+21"%string
  /\ route_revenueShare_limit (Str "1000000000000000000000") = 1%Z
  /\ route_topRevenue_limit (Str "1000000000000000000000") = 1%Z.
Proof. repeat split; vm_compute; reflexivity. Qed.

(** ** The success envelope *)

(** C10. The body of a success response is [success] and [message],
    followed by [data] exactly when the data argument is truthy: null,
    undefined, 0, NaN, false and the empty string leave no data key; any
    truthy value, an empty array or object included, is carried
    unchanged. *)
Theorem successResponse_data_iff_truthy
  (statusCode : option Z) (message : option string) (data : jsval) :
  let sent := ResponseHandler.successResponse statusCode message data in
  ResponseHandler.body sent
  = [ ("success"%string, JBool true);
      ("message"%string, JStr (withDefault "Success"%string message)) ]
    ++ (if truthy data then [ ("data"%string, data) ] else [])
  /\ has_key "data" (ResponseHandler.body sent) = truthy data
  /\ ResponseHandler.status sent = withDefault 200%Z statusCode.
Proof.
  cbv zeta.
  assert (Hbody :
    ResponseHandler.body (ResponseHandler.successResponse statusCode message data)
    = [ ("success"%string, JBool true);
        ("message"%string, JStr (withDefault "Success"%string message)) ]
      ++ (if truthy data then [ ("data"%string, data) ] else [])).
  { unfold ResponseHandler.successResponse, js_and. cbn [ResponseHandler.body].
    destruct message as [m |]; cbn [withDefault]; f_equal;
      (destruct data as [| | b | q | | s | items | props];
       cbn [ResponseHandler.default_arg truthy spread];
       try reflexivity;
       [ destruct b; reflexivity
       | destruct (negb (Qeqb q 0)); reflexivity
       | destruct s; reflexivity ]). }
  split; [exact Hbody |]. split.
  - rewrite Hbody. destruct (truthy data); reflexivity.
  - destruct statusCode; reflexivity.
Qed.

Example successResponse_falsy_and_empty :
  map (fun d => map fst (ResponseHandler.body
                           (ResponseHandler.successResponse None None d)))
      [ JNull; JNum 0; JBool false; JStr ""; JUndefined; JArr []; JObj [] ]
  = [ ["success"; "message"]; ["success"; "message"]; ["success"; "message"];
      ["success"; "message"]; ["success"; "message"];
      ["success"; "message"; "data"]; ["success"; "message"; "data"] ]%string.
Proof. reflexivity. Qed.

(** ** Filtering and pagination *)

Lemma matches_keeps (m : Q) (p : bool) (c : customer) :
  Store.matches (buildQuery m p) c = keeps m p c.
Proof.
  unfold Store.matches, buildQuery, keeps. cbn [Store.Quarter_4_Revenue_gte
    Store.Variance_gt].
  f_equal.
  - unfold Qgtb. destruct (Qltb 0 m) eqn:E.
    + apply Qltb_lt in E.
      assert (H0 : Qle_bool m 0 = false).
      { apply not_true_is_false. intro H. apply Qle_bool_iff in H. lra. }
      rewrite H0. destruct (Quarter_4_Revenue c); simpl; auto.
    + apply Qltb_ge in E. apply Qle_bool_iff in E. rewrite E. reflexivity.
  - destruct p; [| reflexivity].
    destruct (Variance c); reflexivity.
Qed.

Lemma filter_matches_keeps (m : Q) (p : bool) (docs : list customer) :
  filter (Store.matches (buildQuery m p)) docs = filter (keeps m p) docs.
Proof. apply filter_ext. intro c. apply matches_keeps. Qed.

Lemma keeps_row_ok (format : customer -> customerRow) (m : Q) (p : bool)
  (c : customer) :
  q4Revenue (format c) = or0 (Quarter_4_Revenue c) ->
  variance (format c) = or0 (Variance c) ->
  keeps m p c = true -> row_ok m p (format c).
Proof.
  intros Hq Hv H. unfold keeps in H. unfold row_ok. rewrite Hq, Hv.
  apply andb_true_iff in H. destruct H as [H1 H2].
  apply orb_true_iff in H1. apply orb_true_iff in H2. split.
  - destruct H1 as [H1 | H1]; apply Qle_bool_iff in H1; auto.
  - destruct H2 as [H2 | H2].
    + left. apply negb_true_iff, H2.
    + right. apply Qltb_lt, H2.
Qed.

Lemma limit_docs_incl (n : Z) (l : list customer) : incl (Store.limit_docs n l) l.
Proof.
  unfold Store.limit_docs. destruct (n =? 0)%Z.
  - apply incl_refl.
  - intros x Hx. rewrite <- (firstn_skipn (Z.abs_nat n) l).
    apply in_or_app. left. exact Hx.
Qed.

Lemma skipn_incl {A : Type} (n : nat) (l : list A) : incl (skipn n l) l.
Proof.
  intros x Hx. rewrite <- (firstn_skipn n l). apply in_or_app. right. exact Hx.
Qed.

(** Whatever the window, the documents fetched are among those the query
    selects. *)
Lemma found_are_selected (q : Store.query) (key : customer -> field)
  (skip limit : Z) (docs found : list customer) :
  Store.find_sort_skip_limit q key skip limit docs = Some found ->
  incl found (filter (Store.matches q) docs).
Proof.
  unfold Store.find_sort_skip_limit.
  destruct (skip <? 0)%Z; [discriminate |]. intros [= <-] x Hx.
  apply limit_docs_incl, skipn_incl in Hx.
  apply (Permutation_in _ (sort_perm _ _)) in Hx. exact Hx.
Qed.

Lemma found_defined (q : Store.query) (key : customer -> field)
  (skip limit : Z) (docs : list customer) :
  (0 <= skip)%Z ->
  exists found, Store.find_sort_skip_limit q key skip limit docs = Some found.
Proof.
  intro H. unfold Store.find_sort_skip_limit.
  apply Z.ltb_ge in H. rewrite H. eexists. reflexivity.
Qed.


Lemma rows_ok (format : customer -> customerRow) (m : Q) (p : bool)
  (found docs : list customer) :
  (forall c, q4Revenue (format c) = or0 (Quarter_4_Revenue c)) ->
  (forall c, variance (format c) = or0 (Variance c)) ->
  incl found (filter (Store.matches (buildQuery m p)) docs) ->
  Forall (row_ok m p) (map format found).
Proof.
  intros Hq Hv Hincl. apply Forall_forall. intros r Hr.
  apply in_map_iff in Hr. destruct Hr as (c & <- & Hc).
  apply Hincl in Hc. rewrite filter_matches_keeps in Hc.
  apply filter_In in Hc. apply keeps_row_ok; [apply Hq | apply Hv | apply Hc].
Qed.

(** C6. Whatever the filter, page and page size, every row the two
    paginated reports return satisfies
    (minQ4Revenue <= 0 or Q4 revenue >= minQ4Revenue) and
    (positiveGrowthOnly is false or variance > 0), and [totalItems] is
    the number of documents of the whole collection that satisfy it;
    a result is returned whenever the skip is not negative. *)
Theorem filtered_rows_and_total (f : filters) (docs : list customer) :
  let m := withDefault 0 (minQ4Revenue f) in
  let p := withDefault false (positiveGrowthOnly f) in
  let skip := ((withDefault 1 (page f) - 1) * withDefault 50 (limit f))%Z in
  (forall r : pageResult,
      RevenueService.getCustomerQuarterlyData f docs = Some r ->
      Forall (row_ok m p) (customers r)
      /\ totalItems (pagination r) = Z.of_nat (length (filter (keeps m p) docs)))
  /\ (forall r : pageResult,
         CustomersService.getCustomerAnalysis f docs = Some r ->
         Forall (row_ok m p) (customers r)
         /\ totalItems (pagination r)
            = Z.of_nat (length (filter (keeps m p) docs)))
  /\ ((0 <= skip)%Z ->
      (exists r, RevenueService.getCustomerQuarterlyData f docs = Some r)
      /\ (exists r, CustomersService.getCustomerAnalysis f docs = Some r)).
Proof.
  cbv zeta. split; [| split].
  - intros r. unfold RevenueService.getCustomerQuarterlyData.
    destruct (Store.find_sort_skip_limit _ _ _ _ docs) as [found |] eqn:E;
      [| discriminate].
    intros [= <-]. cbn [customers pagination totalItems]. split.
    + apply rows_ok with (docs := docs); [reflexivity | reflexivity |].
      exact (found_are_selected _ _ _ _ _ _ E).
    + unfold Store.countDocuments. rewrite filter_matches_keeps. reflexivity.
  - intros r. unfold CustomersService.getCustomerAnalysis.
    destruct (Store.find_sort_skip_limit _ _ _ _ docs) as [found |] eqn:E;
      [| discriminate].
    intros [= <-]. cbn [customers pagination totalItems]. split.
    + apply rows_ok with (docs := docs); [reflexivity | reflexivity |].
      exact (found_are_selected _ _ _ _ _ _ E).
    + unfold Store.countDocuments. rewrite filter_matches_keeps. reflexivity.
  - intro Hskip. split.
    + unfold RevenueService.getCustomerQuarterlyData.
      destruct (found_defined
                  (buildQuery (withDefault 0 (minQ4Revenue f))
                     (withDefault false (positiveGrowthOnly f)))
                  Variance _ (withDefault 50%Z (limit f)) docs Hskip)
        as [found ->].
      eexists. reflexivity.
    + unfold CustomersService.getCustomerAnalysis.
      destruct (found_defined
                  (buildQuery (withDefault 0 (minQ4Revenue f))
                     (withDefault false (positiveGrowthOnly f)))
                  Quarter_4_Revenue _ (withDefault 50%Z (limit f)) docs Hskip)
        as [found ->].
      eexists. reflexivity.
Qed.

Lemma filtered_rows_and_total_witness :
  exists r : pageResult,
    RevenueService.getCustomerQuarterlyData minQ4_150 threeCustomers = Some r
    /\ Forall (row_ok 150 false) (customers r)
    /\ map customerName (customers r) = ["Y"%string]
    /\ totalItems (pagination r) = 1%Z.
Proof.
  destruct (filtered_rows_and_total minQ4_150 threeCustomers) as (Hrows & _ & Hdef).
  destruct (proj1 (Hdef (Z.le_refl 0))) as [r Hr].
  destruct (Hrows r Hr) as [Hok Htotal].
  exists r. split; [exact Hr |]. split; [exact Hok |]. split; [| exact Htotal].
  assert (E : RevenueService.getCustomerQuarterlyData minQ4_150 threeCustomers
              = Some r) by exact Hr.
  vm_compute in E. injection E as <-. reflexivity.
Defined.

(** ** Pages beyond the last *)

Lemma ceil_times (T L P : Z) :
  (0 < L)%Z -> (Math.ceil (inject_Z T / inject_Z L) <= P)%Z -> (T <= P * L)%Z.
Proof.
  intros HL HP. unfold Math.ceil in HP.
  pose proof (Qle_ceiling (inject_Z T / inject_Z L)) as Hc.
  rewrite Zle_Qle in HP.
  assert (HLq : 0 < inject_Z L)
    by (change 0 with (inject_Z 0); rewrite <- Zlt_Qlt; exact HL).
  assert (Hx : inject_Z T / inject_Z L <= inject_Z P) by lra.
  apply (Qmult_le_compat_r _ _ (inject_Z L)) in Hx; [| lra].
  assert (E : inject_Z T / inject_Z L * inject_Z L == inject_Z T)
    by (field; lra).
  rewrite E, <- inject_Z_mult in Hx.
  rewrite Zle_Qle. exact Hx.
Qed.






Example third_page_of_three :
  match getCustomerAnalysis_handler "" thirdPage threeCustomers with
  | inl sent =>
      let resp := ResponseHandler.body sent in
      (ResponseHandler.data resp,
       ResponseHandler.totalPages (ResponseHandler.pagination resp),
       ResponseHandler.hasNextPage (ResponseHandler.pagination resp))
      = ([], 1%Z, false)
  | inr _ => False
  end.
Proof. reflexivity. Qed.

(** ** More on rounding to two decimals *)







(** ** More on the ranking and the share report *)


Lemma topCountries_descending (recs : list country) (limit : Z) :
  descending revenueOf (topCountries recs limit).
Proof.
  unfold topCountries. rewrite slice_head.
  apply descending_firstn, (sort_descending revenueOf).
Qed.

(** X2. The head rows of the share report come in descending order of
    revenue, and no record rolled into Others has more revenue than a
    record of the head. *)
Theorem share_rows_ordered (recs : list country) (limit : Z) :
  let head := topCountries recs limit in
  let rest := skipn (length head) (sort byRevenueDesc recs) in
  descending revenue
    (firstn (length head) (getRevenueShareByCountry recs limit))
  /\ (forall h r : country, In h head -> In r rest -> revenueOf r <= revenueOf h).
Proof.
  cbv zeta. split.
  - rewrite share_shape.
    rewrite <- (length_map (shareOf (sumRevenue recs))
                  (topCountries recs limit)) at 1.
    rewrite firstn_app, Nat.sub_diag, firstn_all. simpl. rewrite app_nil_r.
    apply (descending_map revenueOf); [reflexivity |].
    apply topCountries_descending.
  - pose proof (sort_descending revenueOf recs) as Hs.
    change (descBy revenueOf) with byRevenueDesc in Hs.
    rewrite <- (slice_split (sort byRevenueDesc recs) limit) in Hs.
    rewrite slice_tail_skipn in Hs.
    apply descending_app in Hs. apply Hs.
Qed.

Lemma share_rows_ordered_witness :
  In (mkCountry "B" (Num 300)) (topCountries abc 2)
  /\ In (mkCountry "A" (Num 100))
       (skipn (length (topCountries abc 2)) (sort byRevenueDesc abc))
  /\ revenueOf (mkCountry "A" (Num 100)) <= revenueOf (mkCountry "B" (Num 300)).
Proof.
  assert (H1 : In (mkCountry "B" (Num 300)) (topCountries abc 2))
    by (left; reflexivity).
  assert (H2 : In (mkCountry "A" (Num 100))
                 (skipn (length (topCountries abc 2)) (sort byRevenueDesc abc)))
    by (left; reflexivity).
  exact (conj H1 (conj H2 (proj2 (share_rows_ordered abc 2) _ _ H1 H2))).
Defined.

(** X3. With a limit of at least 1 and a non-empty collection the first
    record of the ranking has the largest revenue of all records, a
    missing revenue counting as 0. *)
Theorem ranking_top_is_max (recs : list country) (limit : Z) :
  (1 <= limit)%Z -> recs <> [] ->
  exists (top : country) (others : list country),
    topCountries recs limit = top :: others
    /\ In top recs
    /\ forall c : country, In c recs -> revenueOf c <= revenueOf top.
Proof.
  intros Hlimit Hrecs.
  pose proof (sort_perm byRevenueDesc recs) as Hperm.
  pose proof (sort_descending revenueOf recs) as Hdesc.
  change (descBy revenueOf) with byRevenueDesc in Hdesc.
  unfold topCountries. rewrite slice_head_nonneg by lia.
  destruct (sort byRevenueDesc recs) as [| top sorted] eqn:E.
  - apply Permutation_nil in Hperm. contradiction.
  - exists top, (firstn (Z.to_nat limit - 1) sorted). split; [| split].
    + destruct (Z.to_nat limit) as [| k] eqn:Ek; [lia |].
      simpl. rewrite Nat.sub_0_r. reflexivity.
    + apply (Permutation_in _ Hperm). left. reflexivity.
    + intros c Hc. apply (descending_head_max revenueOf top sorted Hdesc).
      apply (Permutation_in _ (Permutation_sym Hperm)), Hc.
Qed.

Lemma ranking_top_is_max_witness :
  (1 <= 2)%Z /\ abc <> []
  /\ exists (top : country) (others : list country),
       topCountries abc 2 = top :: others
       /\ In top abc
       /\ forall c : country, In c abc -> revenueOf c <= revenueOf top.
Proof.
  assert (H1 : (1 <= 2)%Z) by lia.
  assert (H2 : abc <> []) by discriminate.
  exact (conj H1 (conj H2 (ranking_top_is_max abc 2 H1 H2))).
Defined.

(** X4. For limits of 0 or more, ranking a ranking again with the same limit
    changes nothing, and a shorter ranking is the beginning of a longer
    one. *)
Theorem ranking_idempotent_and_nested (recs : list country) (limit : Z) :
  (0 <= limit)%Z ->
  topCountries (topCountries recs limit) limit = topCountries recs limit
  /\ forall more : nat,
       topCountries recs limit
       = firstn (Z.to_nat limit) (topCountries recs (limit + Z.of_nat more)).
Proof.
  intro Hlimit. split.
  - unfold topCountries at 1.
    change byRevenueDesc with (descBy revenueOf).
    rewrite (sort_descending_id revenueOf _ (topCountries_descending recs limit)).
    unfold topCountries. rewrite !slice_head_nonneg by lia.
    rewrite firstn_firstn, Nat.min_id. reflexivity.
  - intro more. unfold topCountries.
    rewrite !slice_head_nonneg by lia.
    rewrite firstn_firstn. f_equal. lia.
Qed.

Lemma ranking_idempotent_and_nested_witness :
  (0 <= 2)%Z
  /\ topCountries (topCountries abc 2) 2 = topCountries abc 2.
Proof.
  assert (H : (0 <= 2)%Z) by lia.
  exact (conj H (proj1 (ranking_idempotent_and_nested abc 2 H))).
Defined.

(** X5. For non-negative whole-number revenues with a total below 2^53
    the total and the revenues the share report shows (head rows, then
    Others) are computed without rounding error: the revenues shown add
    up to the total, and each lies between 0 and the total. *)
Theorem share_report_accounts (recs : list country) (limit : Z) :
  Forall (fun c => whole (revenueOf c)) recs ->
  sumQ (map revenueOf recs) < 2 ^ 53 ->
  exists (total : Q) (shown : list Q),
    CountriesService64.sumRevenue recs = B64.Fin total
    /\ total == sumQ (map revenueOf recs)
    /\ map CountriesService64.revenue
         (CountriesService64.getRevenueShareByCountry recs limit)
       = map B64.Fin shown
    /\ sumQ shown == total
    /\ Forall (fun v => 0 <= v /\ v <= total) shown.
Proof.
  intros Hwhole Hbound.
  destruct (whole_share_values recs limit Hwhole Hbound)
    as (t & vs & Et & Ht & Hrev & _ & Hvs & Hsum).
  exists t, vs. repeat split; assumption.
Qed.

Lemma share_report_accounts_witness :
  Forall (fun c => whole (revenueOf c)) abc
  /\ sumQ (map revenueOf abc) < 2 ^ 53
  /\ exists (total : Q) (shown : list Q),
       CountriesService64.sumRevenue abc = B64.Fin total
       /\ total == sumQ (map revenueOf abc)
       /\ map CountriesService64.revenue
            (CountriesService64.getRevenueShareByCountry abc 2)
          = map B64.Fin shown
       /\ sumQ shown == total
       /\ Forall (fun v => 0 <= v /\ v <= total) shown.
Proof.
  assert (H1 : Forall (fun c => whole (revenueOf c)) abc).
  { repeat constructor.
    - exists 100%Z. split; [lia | reflexivity].
    - exists 300%Z. split; [lia | reflexivity].
    - exists 200%Z. split; [lia | reflexivity]. }
  assert (H2 : sumQ (map revenueOf abc) < 2 ^ 53) by reflexivity.
  exact (conj H1 (conj H2 (share_report_accounts abc 2 H1 H2))).
Defined.

(** Without that the sums carry rounding errors that depend on the
    order: for 0.1, 0.2 and 0.3 the total, added in stored order, is
    0.6000000000000001, while at limit 0 the Others row, added in sorted
    order, shows 0.6. *)
Example share_sums_depend_on_order :
  CountriesService64.sumRevenue tenths = B64.round (6000000000000001 # 10000000000000000)
  /\ map CountriesService64.revenue
       (CountriesService64.getRevenueShareByCountry tenths 0)
     = [B64.round (6 # 10)]
  /\ B64.round (6000000000000001 # 10000000000000000) <> B64.round (6 # 10).
Proof.
  split; [vm_compute; reflexivity |].
  split; [vm_compute; reflexivity |].
  vm_compute. discriminate.
Qed.

(** X6. A limit below 0 counts from the end: the head keeps all but the
    last [-limit] sorted records and an Others row is always appended, on
    an empty collection too. At limit 0, or a negative limit that leaves
    no head, a non-empty collection gives the Others row alone; its
    revenue is the sum of all revenues added in sorted order. *)
Theorem share_nonpositive_limit (recs : list country) (limit : Z) :
  let n := Z.of_nat (length recs) in
  let sorted := sort byRevenueDesc recs in
  let total := CountriesService64.sumRevenue recs in
  ((limit < 0)%Z ->
   CountriesService64.getRevenueShareByCountry recs limit
   = map (CountriesService64.shareOf total) (firstn (Z.to_nat (n + limit)) sorted)
     ++ [CountriesService64.othersEntry total
           (skipn (Z.to_nat (n + limit)) sorted)])
  /\ ((limit = 0 \/ limit <= - n)%Z -> recs <> [] ->
      exists o : CountriesService64.shareEntry,
        CountriesService64.getRevenueShareByCountry recs limit = [o]
        /\ CountriesService64.countryName o = "Others"%string
        /\ CountriesService64.revenue o = sum64 (map revenueOf sorted)).
Proof.
  cbv zeta.
  assert (Hn : Z.of_nat (length (sort byRevenueDesc recs))
               = Z.of_nat (length recs)) by (rewrite sort_length; reflexivity).
  split.
  - intro Hneg. rewrite share64_shape.
    assert (E : (limit <? Z.of_nat (length recs))%Z = true)
      by (apply Z.ltb_lt; lia).
    rewrite E. unfold topCountries. rewrite slice_head, slice_tail, Hn.
    unfold rel_index.
    assert (E' : (limit <? 0)%Z = true) by (apply Z.ltb_lt; lia).
    rewrite E'.
    replace (Z.to_nat (Z.max (Z.of_nat (length recs) + limit) 0))
      with (Z.to_nat (Z.of_nat (length recs) + limit)) by lia.
    reflexivity.
  - intros Hlimit Hrecs.
    assert (Hlen : (0 < Z.of_nat (length recs))%Z)
      by (destruct recs; [contradiction | simpl; lia]).
    rewrite share64_shape.
    assert (E : (limit <? Z.of_nat (length recs))%Z = true)
      by (apply Z.ltb_lt; lia).
    rewrite E. unfold topCountries. rewrite slice_head, slice_tail, Hn.
    assert (E0 : Z.to_nat (rel_index (Z.of_nat (length recs)) limit) = 0%nat)
      by (unfold rel_index; destruct (limit <? 0)%Z eqn:El;
          [apply Z.ltb_lt in El | apply Z.ltb_ge in El]; lia).
    rewrite E0. cbn [firstn skipn map app].
    eexists. split; [reflexivity |]. split; [reflexivity |].
    unfold CountriesService64.othersEntry. cbn [CountriesService64.revenue].
    apply sumRevenue64_sum64.
Qed.

Lemma share_nonpositive_limit_witness :
  ((-1 < 0)%Z
   /\ map CountriesService64.countryName
        (CountriesService64.getRevenueShareByCountry abc (-1))
      = ["B"; "C"; "Others"]%string)
  /\ ((0 = 0 \/ 0 <= - 3)%Z /\ abc <> []
      /\ exists o : CountriesService64.shareEntry,
           CountriesService64.getRevenueShareByCountry abc 0 = [o]
           /\ CountriesService64.countryName o = "Others"%string
           /\ CountriesService64.revenue o
              = sum64 (map revenueOf (sort byRevenueDesc abc))).
Proof.
  destruct (share_nonpositive_limit abc (-1)) as [Hneg _].
  destruct (share_nonpositive_limit abc 0) as [_ Hzero].
  assert (H1 : (-1 < 0)%Z) by lia.
  assert (H2 : (0 = 0 \/ 0 <= - 3)%Z) by (left; reflexivity).
  assert (H3 : abc <> []) by discriminate.
  split.
  - split; [exact H1 |]. rewrite (Hneg H1). reflexivity.
  - exact (conj H2 (conj H3 (Hzero H2 H3))).
Defined.

Example share_of_nothing :
  CountriesService64.getRevenueShareByCountry [] 8 = []
  /\ map CountriesService64.countryName
       (CountriesService64.getRevenueShareByCountry [] (-1))
     = ["Others"%string].
Proof. split; reflexivity. Qed.

(** ** The middleware and the handlers of the customers routes *)

Import CustomersController.

Lemma sanitized_page (q : qparam) :
  (truthy_param q = false /\ sanitizeQuery_page q = q)
  \/ (truthy_param q = true
      /\ sanitizeQuery_page q = NumV (orElse (parseIntOf q) 1)).
Proof.
  unfold sanitizeQuery_page. destruct (truthy_param q); [right | left]; split;
    reflexivity.
Qed.

Lemma truthy_nonzero_number (n : Z) : n <> 0%Z -> truthy_param (NumV n) = true.
Proof. intro H. simpl. apply negb_true_iff, Z.eqb_neq, H. Qed.

(** What a handler reads after the middleware, for a parameter that
    [parseInt] reads as [n]: the fallback of the middleware when [n] is
    NaN or 0, and [n] itself when its magnitude is at most 2^53. *)
Lemma read_after_sanitize (q : qparam) (stored d : Z) :
  truthy_param q = true -> stored <> 0%Z ->
  (parseIntOf q = None \/ parseIntOf q = Some 0%Z ->
   orElse (parseIntOf (NumV (orElse (parseIntOf q) stored))) d
   = orElse (parseIntOf (NumV stored)) d)
  /\ (forall n : Z,
        parseIntOf q = Some n -> n <> 0%Z -> (Z.abs n <= 2 ^ 53)%Z ->
        orElse (parseIntOf (NumV (orElse (parseIntOf q) stored))) d = n).
Proof.
  intros Ht Hs. split.
  - intro Hp. rewrite (orElse_fallback (parseIntOf q)) by exact Hp. reflexivity.
  - intros n Hp Hn Hsafe.
    rewrite Hp, (orElse_pass n stored) by exact Hn.
    rewrite (parseIntOf_number n Hsafe). apply orElse_pass, Hn.
Qed.

(** X7. When [parseInt] reads the parameter as NaN, as 0 or as an integer
    of magnitude up to 2^53, running [sanitizeQuery] a second time
    changes neither the limit nor the page it stored, and a handler
    reads back exactly the number stored. The growth flag is different:
    a stored [true] is turned into [false] by a second run. *)
Theorem sanitizeQuery_twice :
  (forall q : qparam,
      (Z.abs (orElse (parseIntOf q) 10) <= 2 ^ 53)%Z ->
      sanitizeQuery_limit (sanitizeQuery_limit q) = sanitizeQuery_limit q)
  /\ (forall q : qparam,
         (Z.abs (orElse (parseIntOf q) 1) <= 2 ^ 53)%Z ->
         sanitizeQuery_page (sanitizeQuery_page q) = sanitizeQuery_page q)
  /\ (forall (q : qparam) (fallback : Z),
         truthy_param q = true ->
         (Z.abs (orElse (parseIntOf q) 10) <= 2 ^ 53)%Z ->
         orElse (parseIntOf (sanitizeQuery_limit q)) fallback
         = orElse (parseIntOf q) 10)
  /\ sanitizeQuery_positiveGrowthOnly
       (sanitizeQuery_positiveGrowthOnly (FlagStr "true"))
     = FlagBool false.
Proof.
  split; [| split; [| split]].
  - intros q Hsafe. destruct (sanitized_limit q) as [[Hf E] | [Ht E]].
    + rewrite E. exact E.
    + rewrite E. unfold sanitizeQuery_limit at 1.
      assert (Hnz : orElse (parseIntOf q) 10 <> 0%Z)
        by (apply orElse_nonzero; discriminate).
      rewrite (truthy_nonzero_number _ Hnz), (parseIntOf_number _ Hsafe),
        orElse_pass by exact Hnz.
      reflexivity.
  - intros q Hsafe. destruct (sanitized_page q) as [[Hf E] | [Ht E]].
    + rewrite E. exact E.
    + rewrite E. unfold sanitizeQuery_page at 1.
      assert (Hnz : orElse (parseIntOf q) 1 <> 0%Z)
        by (apply orElse_nonzero; discriminate).
      rewrite (truthy_nonzero_number _ Hnz), (parseIntOf_number _ Hsafe),
        orElse_pass by exact Hnz.
      reflexivity.
  - intros q fallback Ht Hsafe. unfold sanitizeQuery_limit. rewrite Ht.
    rewrite (parseIntOf_number _ Hsafe). apply orElse_pass.
    apply orElse_nonzero. discriminate.
  - reflexivity.
Qed.

Lemma sanitizeQuery_twice_witness :
  truthy_param (Str "abc") = true
  /\ (Z.abs (orElse (parseIntOf (Str "abc")) 10) <= 2 ^ 53)%Z
  /\ orElse (parseIntOf (sanitizeQuery_limit (Str "abc"))) 50
     = orElse (parseIntOf (Str "abc")) 10.
Proof.
  destruct sanitizeQuery_twice as (_ & _ & H & _).
  assert (Hs : (Z.abs (orElse (parseIntOf (Str "abc")) 10) <= 2 ^ 53)%Z)
    by (vm_compute; discriminate).
  exact (conj eq_refl (conj Hs (H (Str "abc") 50%Z eq_refl Hs))).
Defined.

(** Beyond that a second run does change the limit: 10^21 is stored,
    printed as 1e+21 and read again as 1. *)
Example sanitizeQuery_twice_large :
  sanitizeQuery_limit (Str "1000000000000000000000")
  = NumV 1000000000000000000000
  /\ sanitizeQuery_limit (sanitizeQuery_limit (Str "1000000000000000000000"))
     = NumV 1.
Proof. split; vm_compute; reflexivity. Qed.

(** X8. On the customers routes the limit is the handler's own fallback
    (20 for the concentration, 50 for the analysis) when the parameter is
    missing or empty; a non-empty parameter that [parseInt] reads as NaN
    or 0 gives the middleware's 10, and one read as a nonzero integer of
    magnitude up to 2^53 gives that integer. The page is 1 when
    [parseInt] reads NaN or 0 and the integer read when it is nonzero and
    of magnitude up to 2^53. Neither is ever 0. *)
Theorem customers_route_limit_and_page
  (minQ4 : Q) (flag : flagParam) (limitParam pageParam : qparam) :
  let f := route_analysis_filters minQ4 flag limitParam pageParam in
  (truthy_param limitParam = false ->
   route_concentration_limit limitParam = 20%Z /\ limit f = Some 50%Z)
  /\ (truthy_param limitParam = true ->
      parseIntOf limitParam = None \/ parseIntOf limitParam = Some 0%Z ->
      route_concentration_limit limitParam = 10%Z /\ limit f = Some 10%Z)
  /\ (forall n : Z,
        truthy_param limitParam = true -> parseIntOf limitParam = Some n ->
        n <> 0%Z -> (Z.abs n <= 2 ^ 53)%Z ->
        route_concentration_limit limitParam = n /\ limit f = Some n)
  /\ (parseIntOf pageParam = None \/ parseIntOf pageParam = Some 0%Z ->
      page f = Some 1%Z)
  /\ (forall n : Z,
        parseIntOf pageParam = Some n -> n <> 0%Z -> (Z.abs n <= 2 ^ 53)%Z ->
        page f = Some n)
  /\ route_concentration_limit limitParam <> 0%Z
  /\ limit f <> Some 0%Z
  /\ page f <> Some 0%Z.
Proof.
  cbv zeta.
  unfold route_concentration_limit, concentration_limit,
    route_analysis_filters, analysis_filters.
  cbn [limit page].
  assert (H10 : 10%Z <> 0%Z) by discriminate.
  assert (H1 : 1%Z <> 0%Z) by discriminate.
  split; [| split; [| split; [| split; [| split]]]].
  - intro Hf. destruct (sanitized_limit limitParam) as [[_ E] | [Ht _]];
      [| congruence].
    rewrite E, !orElse_fallback by (apply falsy_param_parse, Hf).
    split; reflexivity.
  - intros Ht Hp. unfold sanitizeQuery_limit. rewrite Ht.
    destruct (read_after_sanitize limitParam 10 20 Ht H10) as [R20 _].
    destruct (read_after_sanitize limitParam 10 50 Ht H10) as [R50 _].
    rewrite (R20 Hp), (R50 Hp). split; reflexivity.
  - intros n Ht Hp Hn Hsafe. unfold sanitizeQuery_limit. rewrite Ht.
    destruct (read_after_sanitize limitParam 10 20 Ht H10) as [_ R20].
    destruct (read_after_sanitize limitParam 10 50 Ht H10) as [_ R50].
    rewrite (R20 n Hp Hn Hsafe), (R50 n Hp Hn Hsafe). split; reflexivity.
  - intro Hp. destruct (sanitized_page pageParam) as [[_ E] | [Ht E]];
      rewrite E.
    + rewrite orElse_fallback by exact Hp. reflexivity.
    + destruct (read_after_sanitize pageParam 1 1 Ht H1) as [R _].
      rewrite (R Hp). reflexivity.
  - intros n Hp Hn Hsafe.
    destruct (sanitized_page pageParam) as [[_ E] | [Ht E]]; rewrite E.
    + rewrite Hp, orElse_pass by exact Hn. reflexivity.
    + destruct (read_after_sanitize pageParam 1 1 Ht H1) as [_ R].
      rewrite (R n Hp Hn Hsafe). reflexivity.
  - repeat split.
    + apply orElse_nonzero. discriminate.
    + intro H. injection H as H. revert H. apply orElse_nonzero. discriminate.
    + intro H. injection H as H. revert H. apply orElse_nonzero. discriminate.
Qed.

Lemma customers_route_limit_and_page_witness :
  truthy_param (Str "7") = true /\ parseIntOf (Str "7") = Some 7%Z
  /\ 7%Z <> 0%Z /\ (Z.abs 7 <= 2 ^ 53)%Z
  /\ route_concentration_limit (Str "7") = 7%Z
  /\ limit (route_analysis_filters 0 NoFlag (Str "7") Absent) = Some 7%Z.
Proof.
  destruct (customers_route_limit_and_page 0 NoFlag (Str "7") Absent)
    as (_ & _ & H & _).
  assert (H7 : 7%Z <> 0%Z) by discriminate.
  assert (Hs : (Z.abs 7 <= 2 ^ 53)%Z) by (vm_compute; discriminate).
  destruct (H 7%Z eq_refl eq_refl H7 Hs) as [Hc Hl].
  exact (conj eq_refl (conj eq_refl (conj H7 (conj Hs (conj Hc Hl))))).
Defined.

Example customers_limits_seen :
  map route_concentration_limit [Absent; Str ""; Str "abc"; Str "0"; Str "7"]
  = [20; 20; 10; 10; 7]%Z.
Proof. vm_compute. reflexivity. Qed.

(** X9. After [sanitizeQuery] has rewritten the growth flag, the handler's
    comparison with the string 'true' fails for every value of the
    parameter: the analysis route always asks the service with
    [positiveGrowthOnly] false, and counts and returns customers whose
    variance is not positive. Without the middleware the flag is true
    exactly for the string 'true'. *)
Theorem analysis_route_ignores_growth_flag :
  (forall (minQ4 : Q) (flag : flagParam) (limitParam pageParam : qparam),
      positiveGrowthOnly
        (route_analysis_filters minQ4 flag limitParam pageParam)
      = Some false)
  /\ (forall (minQ4 : Q) (flag : flagParam) (limitParam pageParam : qparam)
        (docs : list customer) (r : pageResult),
         CustomersService.getCustomerAnalysis
           (route_analysis_filters minQ4 flag limitParam pageParam) docs
         = Some r ->
         totalItems (pagination r)
         = Z.of_nat (length (filter (keeps minQ4 false) docs)))
  /\ (forall (minQ4 : Q) (s : string) (limitParam pageParam : qparam),
         positiveGrowthOnly
           (analysis_filters minQ4 (FlagStr s) limitParam pageParam)
         = Some (String.eqb s "true")).
Proof.
  assert (Hflag : forall flag,
            is_true_string (sanitizeQuery_positiveGrowthOnly flag) = false).
  { intros [| s | b]; unfold sanitizeQuery_positiveGrowthOnly; simpl.
    - reflexivity.
    - destruct (negb (String.eqb s "")) eqn:E; simpl; [reflexivity |].
      apply negb_false_iff, String.eqb_eq in E. subst s. reflexivity.
    - destruct b; reflexivity. }
  split; [| split].
  - intros. unfold route_analysis_filters, analysis_filters.
    cbn [positiveGrowthOnly]. rewrite Hflag. reflexivity.
  - intros minQ4 flag limitParam pageParam docs r.
    unfold CustomersService.getCustomerAnalysis, route_analysis_filters,
      analysis_filters.
    cbn [minQ4Revenue positiveGrowthOnly limit page withDefault].
    rewrite Hflag.
    destruct (Store.find_sort_skip_limit _ _ _ _ docs); [| discriminate].
    intros [= <-]. cbn [pagination totalItems].
    unfold Store.countDocuments. rewrite filter_matches_keeps. reflexivity.
  - reflexivity.
Qed.

Lemma analysis_route_ignores_growth_flag_witness :
  exists r : pageResult,
    CustomersService.getCustomerAnalysis
      (route_analysis_filters 0 (FlagStr "true") Absent Absent) threeCustomers
    = Some r
    /\ totalItems (pagination r) = 3%Z
    /\ map customerName (customers r) = ["Y"; "X"; "Z"]%string.
Proof.
  destruct analysis_route_ignores_growth_flag as (_ & H & _).
  eexists. split; [reflexivity |].
  split; [| reflexivity].
  exact (H 0 (FlagStr "true") Absent Absent threeCustomers _ eq_refl).
Defined.

(** ** The error envelope *)

(** X10. The body of an error response is [success: false] and [message],
    followed by [error] exactly when the error detail is truthy: a
    handler that catches an error with an empty message sends no error
    key. The status defaults to 500. *)
Theorem errorResponse_error_iff_truthy
  (statusCode : option Z) (message : option string) (error : jsval) :
  let sent := ResponseHandler.errorResponse statusCode message error in
  ResponseHandler.body sent
  = [ ("success"%string, JBool false);
      ("message"%string,
       JStr (withDefault "Internal server error"%string message)) ]
    ++ (if truthy error then [ ("error"%string, error) ] else [])
  /\ has_key "error" (ResponseHandler.body sent) = truthy error
  /\ has_key "data" (ResponseHandler.body sent) = false
  /\ ResponseHandler.status sent = withDefault 500%Z statusCode.
Proof.
  cbv zeta.
  assert (Hbody :
    ResponseHandler.body (ResponseHandler.errorResponse statusCode message error)
    = [ ("success"%string, JBool false);
        ("message"%string,
         JStr (withDefault "Internal server error"%string message)) ]
      ++ (if truthy error then [ ("error"%string, error) ] else [])).
  { unfold ResponseHandler.errorResponse, js_and. cbn [ResponseHandler.body].
    destruct message as [m |]; cbn [withDefault]; f_equal;
      (destruct error as [| | b | q | | s | items | props];
       cbn [ResponseHandler.default_arg truthy spread];
       try reflexivity;
       [ destruct b; reflexivity
       | destruct (negb (Qeqb q 0)); reflexivity
       | destruct s; reflexivity ]). }
  split; [exact Hbody |]. split; [| split].
  - rewrite Hbody. destruct (truthy error); reflexivity.
  - rewrite Hbody. destruct (truthy error); reflexivity.
  - destruct statusCode; reflexivity.
Qed.

(** ** Pages *)

Lemma ceil_bounds (T L : Z) :
  (0 < L)%Z ->
  let P := Math.ceil (inject_Z T / inject_Z L) in
  ((P - 1) * L < T)%Z /\ (T <= P * L)%Z.
Proof.
  intro HL. cbv zeta. split; [| apply ceil_times; [exact HL | lia]].
  unfold Math.ceil.
  pose proof (Qceiling_lt (inject_Z T / inject_Z L)) as Hc.
  set (P := Qceiling (inject_Z T / inject_Z L)) in *.
  assert (HLq : 0 < inject_Z L)
    by (change 0 with (inject_Z 0); rewrite <- Zlt_Qlt; exact HL).
  apply (Qmult_lt_compat_r _ _ (inject_Z L)) in Hc; [| exact HLq].
  assert (E : inject_Z T / inject_Z L * inject_Z L == inject_Z T)
    by (field; lra).
  rewrite E, <- inject_Z_mult in Hc.
  rewrite Zlt_Qlt. exact Hc.
Qed.



Lemma window_in_range (q : Store.query) (key : customer -> field)
  (skip limit : Z) (docs : list customer) :
  (0 <= skip)%Z -> (0 < limit)%Z ->
  Store.find_sort_skip_limit q key skip limit docs
  = Some (firstn (Z.to_nat limit)
            (skipn (Z.to_nat skip)
               (sort (Store.byKeyDesc key) (filter (Store.matches q) docs)))).
Proof.
  intros Hskip Hlimit. unfold Store.find_sort_skip_limit, Store.limit_docs.
  assert (E1 : (skip <? 0)%Z = false) by (apply Z.ltb_ge; lia).
  assert (E2 : (limit =? 0)%Z = false) by (apply Z.eqb_neq; lia).
  rewrite E1, E2. rewrite Zabs2Nat.abs_nat_nonneg by lia. reflexivity.
Qed.

Lemma analysisPage_window (m : Q) (p : bool) (pageSize : Z)
  (docs : list customer) (i : nat) :
  (0 < pageSize)%Z ->
  analysisPage m p pageSize docs (Z.of_nat i + 1)
  = map CustomersService.formatCustomer
      (firstn (Z.to_nat pageSize)
         (skipn (i * Z.to_nat pageSize) (analysisSelection m p docs))).
Proof.
  intro Hsize. unfold analysisPage, CustomersService.getCustomerAnalysis.
  cbn [minQ4Revenue positiveGrowthOnly limit page withDefault].
  rewrite window_in_range by nia. cbn [customers].
  rewrite filter_matches_keeps. unfold analysisSelection.
  replace (Z.to_nat ((Z.of_nat i + 1 - 1) * pageSize))
    with (i * Z.to_nat pageSize)%nat by nia.
  reflexivity.
Qed.

Lemma concat_windows {A : Type} (L : nat) (k : nat) (l : list A) :
  (0 < L)%nat -> (length l <= k * L)%nat ->
  concat (map (fun i => firstn L (skipn (i * L) l)) (seq 0 k)) = l.
Proof.
  intro HL. revert l. induction k as [| k IH]; intros l Hlen.
  - destruct l; [reflexivity | simpl in Hlen; lia].
  - cbn [seq map concat]. rewrite <- seq_shift, map_map.
    rewrite (map_ext _ (fun i => firstn L (skipn (i * L) (skipn L l)))).
    + rewrite IH by (rewrite length_skipn; lia).
      simpl. apply firstn_skipn.
    + intro i. rewrite skipn_skipn. f_equal. f_equal. lia.
Qed.

(** X12. For a page of 1 or more and a positive page size, a paginated
    report returns min(pageSize, items left after the skip) rows, never
    more than the page size. *)
Theorem page_row_count (m : Q) (p : bool) (pageSize pageNo : Z)
  (docs : list customer) :
  (1 <= pageNo)%Z -> (0 < pageSize)%Z ->
  let f := mkFilters (Some m) (Some p) (Some pageSize) (Some pageNo) in
  let total := Z.of_nat (length (filter (keeps m p) docs)) in
  let expected := Z.max 0 (Z.min pageSize (total - (pageNo - 1) * pageSize)) in
  (exists r, RevenueService.getCustomerQuarterlyData f docs = Some r
             /\ Z.of_nat (length (customers r)) = expected)
  /\ (exists r, CustomersService.getCustomerAnalysis f docs = Some r
                /\ Z.of_nat (length (customers r)) = expected).
Proof.
  intros Hpage Hsize. cbv zeta.
  assert (Hlen : forall key,
            Z.of_nat (length
              (firstn (Z.to_nat pageSize)
                 (skipn (Z.to_nat ((pageNo - 1) * pageSize))
                    (sort (Store.byKeyDesc key)
                       (filter (Store.matches (buildQuery m p)) docs)))))
            = Z.max 0 (Z.min pageSize
                         (Z.of_nat (length (filter (keeps m p) docs))
                          - (pageNo - 1) * pageSize))).
  { intro key. rewrite length_firstn, length_skipn, sort_length,
      filter_matches_keeps. nia. }
  split.
  - unfold RevenueService.getCustomerQuarterlyData.
    cbn [minQ4Revenue positiveGrowthOnly limit page withDefault].
    rewrite window_in_range by nia.
    eexists. split; [reflexivity |]. cbn [customers].
    rewrite length_map. apply Hlen.
  - unfold CustomersService.getCustomerAnalysis.
    cbn [minQ4Revenue positiveGrowthOnly limit page withDefault].
    rewrite window_in_range by nia.
    eexists. split; [reflexivity |]. cbn [customers].
    rewrite length_map. apply Hlen.
Qed.

Lemma page_row_count_witness :
  (1 <= 2)%Z /\ (0 < 2)%Z
  /\ exists r,
       CustomersService.getCustomerAnalysis
         (mkFilters (Some 0) (Some false) (Some 2%Z) (Some 2%Z)) threeCustomers
       = Some r
       /\ Z.of_nat (length (customers r)) = 1%Z.
Proof.
  assert (H1 : (1 <= 2)%Z) by lia.
  assert (H2 : (0 < 2)%Z) by lia.
  exact (conj H1 (conj H2 (proj2 (page_row_count 0 false 2 2 threeCustomers
                                    H1 H2)))).
Defined.

(** X13. When no two selected customers tie on Q4 revenue the store's
    descending order leaves one arrangement only, the one every page is
    cut from. For a positive page size the pages 1 .. totalPages of the
    analysis, one after the other, are then exactly the selected
    customers in that order: no row is lost and none is repeated. The
    response of a page says [hasNextPage] exactly when the following page
    has a row. *)
Theorem pages_partition_selection (m : Q) (p : bool) (pageSize : Z)
  (docs : list customer) :
  (0 < pageSize)%Z ->
  (forall a b : customer,
      In a (filter (keeps m p) docs) -> In b (filter (keeps m p) docs) ->
      field_le (Quarter_4_Revenue a) (Quarter_4_Revenue b) ->
      field_le (Quarter_4_Revenue b) (Quarter_4_Revenue a) -> a = b) ->
  let total := Z.of_nat (length (filter (keeps m p) docs)) in
  let totalPages := Math.ceil (inject_Z total / inject_Z pageSize) in
  (forall arranged : list customer,
      Permutation arranged (filter (keeps m p) docs) ->
      storedDescending Quarter_4_Revenue arranged ->
      arranged = analysisSelection m p docs)
  /\ concat (map (analysisPage m p pageSize docs) (pageNumbers totalPages))
     = map CustomersService.formatCustomer (analysisSelection m p docs)
  /\ forall pageNo : Z,
       (1 <= pageNo)%Z ->
       ResponseHandler.hasNextPage
         (ResponseHandler.pagination
            (ResponseHandler.body
               (ResponseHandler.paginatedResponse
                  (analysisPage m p pageSize docs pageNo)
                  pageNo pageSize total "")))
       = negb (Nat.eqb (length (analysisPage m p pageSize docs (pageNo + 1))) 0).
Proof.
  intros Hsize Hties. cbv zeta.
  assert (Hsel : length (analysisSelection m p docs)
                 = length (filter (keeps m p) docs))
    by (unfold analysisSelection; apply sort_length).
  destruct (ceil_bounds (Z.of_nat (length (filter (keeps m p) docs)))
              pageSize Hsize) as [Hlo Hhi].
  set (P := Math.ceil
              (inject_Z (Z.of_nat (length (filter (keeps m p) docs)))
               / inject_Z pageSize)) in *.
  split; [| split].
  - intros arranged Hperm Hdesc.
    apply (storedDescending_unique Quarter_4_Revenue).
    + intros a b Ha Hb. apply Hties; apply (Permutation_in _ Hperm); assumption.
    + apply (perm_trans Hperm). apply Permutation_sym.
      unfold analysisSelection. apply sort_perm.
    + exact Hdesc.
    + unfold analysisSelection.
      apply (sort_storedDescending Quarter_4_Revenue). intros a b. reflexivity.
  - unfold pageNumbers. rewrite map_map.
    rewrite (map_ext _ (fun i =>
               map CustomersService.formatCustomer
                 (firstn (Z.to_nat pageSize)
                    (skipn (i * Z.to_nat pageSize)
                       (analysisSelection m p docs)))))
      by (intro i; apply analysisPage_window, Hsize).
    rewrite <- (map_map (fun i => firstn (Z.to_nat pageSize)
                                   (skipn (i * Z.to_nat pageSize)
                                      (analysisSelection m p docs)))
                  (map CustomersService.formatCustomer)).
    rewrite <- concat_map. f_equal.
    apply concat_windows; [lia |]. rewrite Hsel. nia.
  - intros pageNo Hpage.
    replace (pageNo + 1)%Z with (Z.of_nat (Z.to_nat pageNo) + 1)%Z by lia.
    rewrite analysisPage_window by exact Hsize.
    rewrite length_map, length_firstn, length_skipn, Hsel.
    unfold ResponseHandler.paginatedResponse.
    cbn [ResponseHandler.body ResponseHandler.pagination
         ResponseHandler.hasNextPage].
    fold P.
    destruct (pageNo <? P)%Z eqn:E.
    + apply Z.ltb_lt in E. symmetry. apply negb_true_iff, Nat.eqb_neq. nia.
    + apply Z.ltb_ge in E. symmetry. apply negb_false_iff, Nat.eqb_eq. nia.
Qed.

Lemma pages_partition_selection_witness :
  (0 < 2)%Z
  /\ (forall a b : customer,
         In a (filter (keeps 0 false) threeCustomers) ->
         In b (filter (keeps 0 false) threeCustomers) ->
         field_le (Quarter_4_Revenue a) (Quarter_4_Revenue b) ->
         field_le (Quarter_4_Revenue b) (Quarter_4_Revenue a) -> a = b)
  /\ concat (map (analysisPage 0 false 2 threeCustomers) (pageNumbers 2))
     = map CustomersService.formatCustomer
         (analysisSelection 0 false threeCustomers).
Proof.
  assert (H : (0 < 2)%Z) by lia.
  assert (Hties : forall a b : customer,
             In a (filter (keeps 0 false) threeCustomers) ->
             In b (filter (keeps 0 false) threeCustomers) ->
             field_le (Quarter_4_Revenue a) (Quarter_4_Revenue b) ->
             field_le (Quarter_4_Revenue b) (Quarter_4_Revenue a) -> a = b).
  { intros a b Ha Hb.
    change (filter (keeps 0 false) threeCustomers) with threeCustomers in Ha, Hb.
    destruct Ha as [<- | [<- | [<- | []]]];
      destruct Hb as [<- | [<- | [<- | []]]];
      cbn [Quarter_4_Revenue field_le]; intros H1 H2;
      try reflexivity; exfalso;
      apply Qle_bool_iff in H1; apply Qle_bool_iff in H2;
      vm_compute in H1; vm_compute in H2; congruence. }
  exact (conj H (conj Hties
           (proj1 (proj2 (pages_partition_selection 0 false 2 threeCustomers
                            H Hties))))).
Defined.

(** ** The regions summary *)

(** X14. The regions summary keeps one row per region in the stored
    order, each showing the revenue stored or 0; a region counts as
    having data unless its revenue is null, so a region without the
    field counts too. The total is the sum of the revenues added in
    stored order in binary64. For non-negative whole-number revenues
    with a positive total below 2^53 that sum is exact, and the
    percentages, which are not rounded to hundredths, are finite and add
    up to 100 within 4 in 10^14 per region. *)
Theorem regions_summary_accounts (regs : list RegionsService.region) :
  let s := RegionsService.getRegionsSummary regs in
  let revenues := map (fun r => or0 (RegionsService.Yearly_Revenue r)) regs in
  RegionsService.totalRegions s = length regs
  /\ map RegionsService.regionName (RegionsService.regions s)
     = map RegionsService.Region regs
  /\ map RegionsService.revenue (RegionsService.regions s) = revenues
  /\ (RegionsService.regionsWithData s <= RegionsService.totalRegions s)%nat
  /\ RegionsService.regionsWithData s
     = length (filter (fun r => match RegionsService.Yearly_Revenue r with
                                | Null => false
                                | _ => true
                                end) regs)
  /\ RegionsService.totalRevenue s = sum64 revenues
  /\ (Forall whole revenues -> 0 < sumQ revenues -> sumQ revenues < 2 ^ 53 ->
      exists (t : Q) (ps : list Q),
        RegionsService.totalRevenue s = B64.Fin t
        /\ t == sumQ revenues
        /\ map RegionsService.percentage (RegionsService.regions s)
           = map B64.Fin ps
        /\ Qabs (sumQ ps - 100)
           <= (1 # 30000000000000) * of_nat (length regs)).
Proof.
  cbv zeta. unfold RegionsService.getRegionsSummary.
  cbn [RegionsService.totalRegions RegionsService.regions
       RegionsService.regionsWithData RegionsService.totalRevenue].
  rewrite (sum64_from_fold (fun r => or0 (RegionsService.Yearly_Revenue r))).
  fold (sum64 (map (fun r => or0 (RegionsService.Yearly_Revenue r)) regs)).
  set (revenues := map (fun r => or0 (RegionsService.Yearly_Revenue r)) regs).
  split; [reflexivity |].
  split; [rewrite map_map; reflexivity |].
  split; [rewrite map_map; reflexivity |].
  split; [apply filter_length_le |].
  split; [reflexivity |].
  split; [reflexivity |].
  intros Hwhole Hpos Hbound.
  destruct (sum64_whole revenues Hwhole Hbound) as (t & Et & Ht).
  assert (Ht0 : 0 < t) by lra.
  assert (Hgt : B64.gtb (B64.Fin t) (B64.Fin 0) = true)
    by (cbn [B64.gtb]; apply Qltb_lt; exact Ht0).
  destruct (computed_sum_close
              (fun v => B64.mul (B64.div (B64.Fin v) (B64.Fin t)) (B64.Fin 100))
              (fun v => v / t * 100) (1 # 30000000000000)
              (fun v => 0 <= v /\ v <= t) revenues)
    as (ps & Eps & Hlen & Hps).
  - intros v [Hv0 Hvt]. apply percent64_close; assumption.
  - apply Forall_forall. intros v Hv.
    pose proof (whole_all_nonneg revenues Hwhole) as Hnn. split.
    + rewrite Forall_forall in Hnn. apply Hnn, Hv.
    + pose proof (sumQ_member v revenues Hnn Hv). lra.
  - exists t, ps. split; [exact Et |]. split; [exact Ht |]. split.
    + rewrite Et, Hgt, map_map. cbn [RegionsService.percentage].
      rewrite <- Eps. unfold revenues. rewrite map_map. reflexivity.
    + rewrite sumQ_scaled in Hps.
      assert (E100 : sumQ revenues / t * 100 == 100) by (rewrite <- Ht; field; lra).
      rewrite E100 in Hps.
      assert (El : length revenues = length regs) by apply length_map.
      rewrite El in Hps. exact Hps.
Qed.

Lemma regions_summary_accounts_witness :
  Forall whole (map (fun r => or0 (RegionsService.Yearly_Revenue r)) twoRegions)
  /\ 0 < sumQ (map (fun r => or0 (RegionsService.Yearly_Revenue r)) twoRegions)
  /\ sumQ (map (fun r => or0 (RegionsService.Yearly_Revenue r)) twoRegions)
     < 2 ^ 53
  /\ RegionsService.regionsWithData (RegionsService.getRegionsSummary twoRegions)
     = 2%nat
  /\ exists (t : Q) (ps : list Q),
       RegionsService.totalRevenue (RegionsService.getRegionsSummary twoRegions)
       = B64.Fin t
       /\ t == sumQ (map (fun r => or0 (RegionsService.Yearly_Revenue r))
                      twoRegions)
       /\ map RegionsService.percentage
            (RegionsService.regions (RegionsService.getRegionsSummary twoRegions))
          = map B64.Fin ps
       /\ Qabs (sumQ ps - 100)
          <= (1 # 30000000000000) * of_nat (length twoRegions).
Proof.
  destruct (regions_summary_accounts twoRegions)
    as (_ & _ & _ & _ & Hdata & _ & Hpct).
  assert (H1 : Forall whole
                 (map (fun r => or0 (RegionsService.Yearly_Revenue r)) twoRegions)).
  { repeat constructor.
    - exists 30%Z. split; [lia | reflexivity].
    - exists 10%Z. split; [lia | reflexivity].
    - exists 0%Z. split; [lia | reflexivity]. }
  assert (H2 : 0 < sumQ (map (fun r => or0 (RegionsService.Yearly_Revenue r))
                           twoRegions)) by reflexivity.
  assert (H3 : sumQ (map (fun r => or0 (RegionsService.Yearly_Revenue r))
                       twoRegions) < 2 ^ 53) by reflexivity.
  exact (conj H1 (conj H2 (conj H3 (conj Hdata (Hpct H1 H2 H3))))).
Defined.

(** The percentages need not add up to 100 exactly: for revenues 1 and 2
    they are the doubles 33.33333333333333 and 66.66666666666666. *)
Example regions_one_and_two :
  map RegionsService.percentage
    (RegionsService.regions
       (RegionsService.getRegionsSummary
          [ RegionsService.mkRegion "North" (Num 1);
            RegionsService.mkRegion "South" (Num 2) ]))
  = [ B64.Fin (2345624805922133 # 70368744177664);
      B64.Fin (2345624805922133 # 35184372088832) ]
  /\ (2345624805922133 # 70368744177664) + (2345624805922133 # 35184372088832)
     < 100.
Proof. split; [vm_compute; reflexivity | reflexivity]. Qed.

(** ** Lookup by name *)

Lemma prefix_refl (s : string) : String.prefix s s = true.
Proof.
  induction s as [| c s IH]; [reflexivity |].
  simpl. destruct (ascii_dec c c); [exact IH | contradiction].
Qed.

Lemma includes_here (s sub : string) :
  String.prefix sub s = true -> Lookup.includes s sub = true.
Proof. intro H. destruct s; cbn [Lookup.includes]; rewrite H; reflexivity. Qed.

Lemma includes_after (pre s sub : string) :
  Lookup.includes s sub = true -> Lookup.includes (pre ++ s) sub = true.
Proof.
  intro H. induction pre as [| c pre IH]; [exact H |].
  change (String c pre ++ s)%string with (String c (pre ++ s)).
  cbn [Lookup.includes].
  destruct (String.prefix sub (String c (pre ++ s))); [reflexivity |].
  exact IH.
Qed.

Lemma not_found_message (name : string) :
  Lookup.includes ("Country '" ++ name ++ "' not found") "not found" = true.
Proof.
  apply (includes_after "Country '"), includes_after. reflexivity.
Qed.

Lemma findOne_none (name : string) (docs : list country) :
  Lookup.findOne name docs = None
  <-> forall c, In c docs -> Country c <> name.
Proof.
  unfold Lookup.findOne. split.
  - intros H c Hc E.
    apply (find_none _ _ H) in Hc. apply String.eqb_neq in Hc. contradiction.
  - intro H. induction docs as [| d docs IH]; [reflexivity |].
    simpl. destruct (String.eqb (Country d) name) eqn:E.
    + apply String.eqb_eq in E. exfalso. apply (H d); [left; reflexivity | exact E].
    + apply IH. intros c Hc. apply H. right. exact Hc.
Qed.

(** X15. GET /api/countries/:countryName answers 200 with the first stored
    country of that name (its revenue, or 0 when missing) and answers
    404 "Country not found", naming the country in the error detail,
    exactly when no stored country has that name. An error thrown by the
    store is answered 404 when its message contains "not found" and 500
    otherwise. *)
Theorem country_lookup (name : string) (docs : list country) :
  (forall c : country,
      Lookup.findOne name docs = Some c ->
      Country c = name /\ In c docs
      /\ Lookup.getCountryByName_handler name (Lookup.Returned docs)
         = ResponseHandler.mkSent 200%Z
             [ ("success"%string, JBool true);
               ("message"%string, JStr "Country retrieved successfully");
               ("data"%string,
                JObj [ ("countryName"%string, JStr name);
                       ("yearlyRevenue"%string, JNum (revenueOf c)) ]) ])
  /\ ((forall c, In c docs -> Country c <> name) <->
      Lookup.getCountryByName_handler name (Lookup.Returned docs)
      = ResponseHandler.mkSent 404%Z
          [ ("success"%string, JBool false);
            ("message"%string, JStr "Country not found");
            ("error"%string, JStr ("Country '" ++ name ++ "' not found")) ])
  /\ (forall message : string,
         ResponseHandler.status
           (Lookup.getCountryByName_handler name (Lookup.Thrown message))
         = if Lookup.includes message "not found" then 404%Z else 500%Z).
Proof.
  split; [| split].
  - intros c Hc.
    pose proof (find_some _ _ Hc) as [Hin Heq]. apply String.eqb_eq in Heq.
    split; [exact Heq |]. split; [exact Hin |].
    unfold Lookup.getCountryByName_handler, Lookup.getCountryByName.
    rewrite Hc, Heq. reflexivity.
  - rewrite <- findOne_none.
    unfold Lookup.getCountryByName_handler, Lookup.getCountryByName.
    destruct (Lookup.findOne name docs) as [c |]; split.
    + discriminate.
    + intro H. apply (f_equal ResponseHandler.status) in H. discriminate.
    + intros _. rewrite not_found_message.
      unfold ResponseHandler.errorResponse, js_and.
      cbn [ResponseHandler.default_arg truthy spread].
      reflexivity.
    + reflexivity.
  - intro message. unfold Lookup.getCountryByName_handler, Lookup.getCountryByName.
    destruct (Lookup.includes message "not found"); reflexivity.
Qed.

Lemma country_lookup_witness :
  Lookup.findOne "B" abc = Some (mkCountry "B" (Num 300))
  /\ ResponseHandler.status
       (Lookup.getCountryByName_handler "B" (Lookup.Returned abc)) = 200%Z
  /\ (forall c, In c abc -> Country c <> "Z"%string)
  /\ ResponseHandler.status
       (Lookup.getCountryByName_handler "Z" (Lookup.Returned abc)) = 404%Z.
Proof.
  destruct (country_lookup "B" abc) as (Hfound & _).
  destruct (country_lookup "Z" abc) as (_ & Hmissing & _).
  assert (HB : Lookup.findOne "B" abc = Some (mkCountry "B" (Num 300)))
    by reflexivity.
  assert (HZ : forall c, In c abc -> Country c <> "Z"%string).
  { intros c [<- | [<- | [<- | []]]]; discriminate. }
  split; [exact HB |]. split.
  - destruct (Hfound _ HB) as (_ & _ & E). rewrite E. reflexivity.
  - split; [exact HZ |]. rewrite (proj1 Hmissing HZ). reflexivity.
Defined.

(** X16. The success response of the revenue-share handler always carries a
    data key, an empty array on an empty collection, with one element
    per row of the report. *)
Theorem revenue_share_handler_has_data (limitParam : qparam)
  (docs : list country) :
  let sent := getRevenueShareByCountry_handler limitParam docs in
  ResponseHandler.status sent = 200%Z
  /\ exists rows : list jsval,
       ResponseHandler.body sent
       = [ ("success"%string, JBool true);
           ("message"%string,
            JStr "Revenue share by country retrieved successfully");
           ("data"%string, JArr rows) ]
       /\ length rows
          = length (CountriesService.getRevenueShareByCountry docs
                      (revenueShare_limit limitParam))
       /\ (docs = [] -> (0 <= revenueShare_limit limitParam)%Z -> rows = []).
Proof.
  cbv zeta. split; [reflexivity |].
  eexists. split; [reflexivity |]. split; [apply length_map |].
  intros -> Hlimit. rewrite share_shape.
  assert (E : (revenueShare_limit limitParam <? Z.of_nat (length (@nil country)))%Z
              = false)
    by (apply Z.ltb_ge, Hlimit).
  rewrite E. unfold topCountries. rewrite slice_head. cbn [sort].
  rewrite firstn_nil. reflexivity.
Qed.

Lemma revenue_share_handler_has_data_witness :
  (0 <= revenueShare_limit Absent)%Z
  /\ ResponseHandler.body (getRevenueShareByCountry_handler Absent [])
     = [ ("success"%string, JBool true);
         ("message"%string,
          JStr "Revenue share by country retrieved successfully");
         ("data"%string, JArr []) ].
Proof.
  assert (H : (0 <= revenueShare_limit Absent)%Z) by (vm_compute; discriminate).
  destruct (revenue_share_handler_has_data Absent []) as (_ & rows & Hb & _ & Hr).
  rewrite (Hr eq_refl H) in Hb. exact (conj H Hb).
Defined.

(** ** The error middleware *)

(** X17. Whatever the error, the middleware answers with [success: false], a
    status between 100 and 999 that the body repeats, and a message that
    is not empty; the stack is sent only in development. *)
Theorem errorHandler_answer_wellformed
  (err : ErrorHandler.jsError) (development : bool) :
  let sent := ErrorHandler.errorHandler err development in
  let info := ErrorHandler.error (ResponseHandler.body sent) in
  ErrorHandler.success (ResponseHandler.body sent) = false
  /\ ErrorHandler.info_statusCode info = ResponseHandler.status sent
  /\ (100 <= ResponseHandler.status sent <= 999)%Z
  /\ ErrorHandler.info_message info <> ""%string
  /\ (development = false -> ErrorHandler.info_stack info = None).
Proof.
  cbv zeta. unfold ErrorHandler.errorHandler.
  set (e0 := if match ErrorHandler.code err with
                | Some c => (c =? 11000)%Z
                | None => false
                end
             then (Some 400%Z, "Duplicate field value entered"%string)
             else (ErrorHandler.statusCode err, ErrorHandler.message err)).
  destruct (if String.eqb (ErrorHandler.name err) "ValidationError"
            then match ErrorHandler.errors err with
                 | Some messages =>
                     Some (Some 400%Z, ErrorHandler.joinMessages messages)
                 | None => None
                 end
            else Some e0) as [e1 |].
  2: { unfold ErrorHandler.fallbackAnswer. simpl.
       split; [reflexivity |]. split; [reflexivity |]. split; [lia |].
       split; [discriminate | reflexivity]. }
  set (e2 := if String.eqb (ErrorHandler.name err) "CastError"
             then (Some 404%Z, "Resource not found"%string) else e1).
  set (e3 := if String.eqb (ErrorHandler.name err) "JsonWebTokenError"
             then (Some 401%Z, "Invalid token"%string) else e2).
  set (e4 := if String.eqb (ErrorHandler.name err) "TokenExpiredError"
             then (Some 401%Z, "Token expired"%string) else e3).
  destruct (ErrorHandler.validStatus (orElse (fst e4) 500)) eqn:Ev.
  2: { unfold ErrorHandler.fallbackAnswer. simpl.
       split; [reflexivity |]. split; [reflexivity |]. split; [lia |].
       split; [discriminate | reflexivity]. }
  cbn [ResponseHandler.body ResponseHandler.status ErrorHandler.success
       ErrorHandler.error ErrorHandler.info_statusCode
       ErrorHandler.info_message ErrorHandler.info_stack].
  unfold ErrorHandler.validStatus in Ev.
  apply andb_true_iff in Ev. destruct Ev as [Ev1 Ev2].
  apply Z.leb_le in Ev1. apply Z.leb_le in Ev2.
  repeat split; try assumption.
  - destruct (String.eqb (snd e4) "") eqn:E; [discriminate |].
    apply String.eqb_neq, E.
  - intros ->. reflexivity.
Qed.

Lemma errorHandler_answer_wellformed_witness :
  false = false
  /\ ErrorHandler.info_stack
       (ErrorHandler.error
          (ResponseHandler.body
             (ErrorHandler.errorHandler
                (ErrorHandler.mkError "boom" "Error" None (Some 42%Z) None None
                   "at x")
                false))) = None.
Proof.
  exact (conj eq_refl
           (proj2 (proj2 (proj2 (proj2
              (errorHandler_answer_wellformed
                 (ErrorHandler.mkError "boom" "Error" None (Some 42%Z) None
                    None "at x") false)))) eq_refl)).
Defined.

(** X18. How the middleware classifies. The name decides before anything
    else: a TokenExpiredError or JsonWebTokenError is answered 401 and a
    CastError 404, whatever the code or status of the error; a
    ValidationError is answered 400 with its messages joined by ", ", or
    by the catch block with 500 when it carries no [errors]. For any
    other name a code of 11000 is answered 400, and otherwise the
    error's own status is used when it is a valid one other than 0, with
    500 for a missing or zero status. *)
Theorem errorHandler_classifies (err : ErrorHandler.jsError) (development : bool) :
  let sent := ErrorHandler.errorHandler err development in
  let info := ErrorHandler.error (ResponseHandler.body sent) in
  let other :=
    ErrorHandler.name err <> "ValidationError"%string
    /\ ErrorHandler.name err <> "CastError"%string
    /\ ErrorHandler.name err <> "JsonWebTokenError"%string
    /\ ErrorHandler.name err <> "TokenExpiredError"%string in
  (ErrorHandler.name err = "TokenExpiredError"%string ->
   ResponseHandler.status sent = 401%Z
   /\ ErrorHandler.info_message info = "Token expired"%string)
  /\ (ErrorHandler.name err = "JsonWebTokenError"%string ->
      ResponseHandler.status sent = 401%Z
      /\ ErrorHandler.info_message info = "Invalid token"%string)
  /\ (ErrorHandler.name err = "CastError"%string ->
      ResponseHandler.status sent = 404%Z
      /\ ErrorHandler.info_message info = "Resource not found"%string)
  /\ (ErrorHandler.name err = "ValidationError"%string ->
      match ErrorHandler.errors err with
      | None => sent = ErrorHandler.fallbackAnswer
      | Some messages =>
          ResponseHandler.status sent = 400%Z
          /\ (ErrorHandler.joinMessages messages <> ""%string ->
              ErrorHandler.info_message info
              = ErrorHandler.joinMessages messages)
      end)
  /\ (other -> ErrorHandler.code err = Some 11000%Z ->
      ResponseHandler.status sent = 400%Z
      /\ ErrorHandler.info_message info
         = "Duplicate field value entered"%string)
  /\ (other -> ErrorHandler.code err <> Some 11000%Z ->
      ResponseHandler.status sent
      = (let c := orElse (ErrorHandler.statusCode err) 500 in
         if ErrorHandler.validStatus c then c else 500%Z)).
Proof.
  cbv zeta. unfold ErrorHandler.errorHandler.
  split; [| split; [| split; [| split; [| split]]]].
  - intros ->.
    destruct (match ErrorHandler.code err with
              | Some c => (c =? 11000)%Z | None => false end);
      split; reflexivity.
  - intros ->.
    destruct (match ErrorHandler.code err with
              | Some c => (c =? 11000)%Z | None => false end);
      split; reflexivity.
  - intros ->.
    destruct (match ErrorHandler.code err with
              | Some c => (c =? 11000)%Z | None => false end);
      split; reflexivity.
  - intros ->.
    destruct (ErrorHandler.errors err) as [messages |]; [| reflexivity].
    split; [reflexivity |].
    intro Hm. apply String.eqb_neq in Hm.
    change (ErrorHandler.info_message
              (ErrorHandler.error
                 (ResponseHandler.body
                    (ResponseHandler.mkSent 400%Z
                       {| ErrorHandler.success := false;
                          ErrorHandler.error :=
                            {| ErrorHandler.info_message :=
                                 if String.eqb (ErrorHandler.joinMessages messages) ""
                                 then "Internal Server Error"%string
                                 else ErrorHandler.joinMessages messages;
                               ErrorHandler.info_statusCode := 400;
                               ErrorHandler.info_stack :=
                                 if development
                                 then Some (ErrorHandler.stack err)
                                 else None |} |})))
            = ErrorHandler.joinMessages messages).
    cbn [ResponseHandler.body ErrorHandler.error ErrorHandler.info_message].
    rewrite Hm. reflexivity.
  - intros (H1 & H2 & H3 & H4) Hcode.
    apply String.eqb_neq in H1, H2, H3, H4.
    rewrite H1, H2, H3, H4, Hcode. split; reflexivity.
  - intros (H1 & H2 & H3 & H4) Hcode.
    apply String.eqb_neq in H1, H2, H3, H4.
    rewrite H1, H2, H3, H4.
    assert (E : match ErrorHandler.code err with
                | Some c => (c =? 11000)%Z | None => false end = false).
    { destruct (ErrorHandler.code err) as [c |]; [| reflexivity].
      apply Z.eqb_neq. intro Hc. apply Hcode. rewrite Hc. reflexivity. }
    rewrite E. cbn [fst snd].
    destruct (ErrorHandler.validStatus
                (orElse (ErrorHandler.statusCode err) 500)); reflexivity.
Qed.

Lemma errorHandler_classifies_witness :
  (ErrorHandler.name
     (ErrorHandler.mkError "jwt expired" "TokenExpiredError" (Some 11000%Z)
        (Some 500%Z) None None "")
   = "TokenExpiredError"%string
   /\ ResponseHandler.status
        (ErrorHandler.errorHandler
           (ErrorHandler.mkError "jwt expired" "TokenExpiredError"
              (Some 11000%Z) (Some 500%Z) None None "") false) = 401%Z)
  /\ (ErrorHandler.name
        (ErrorHandler.mkError "bad" "ValidationError" None None None None "")
      = "ValidationError"%string
      /\ ErrorHandler.errorHandler
           (ErrorHandler.mkError "bad" "ValidationError" None None None None "")
           true
         = ErrorHandler.fallbackAnswer).
Proof.
  split.
  - destruct (errorHandler_classifies
                (ErrorHandler.mkError "jwt expired" "TokenExpiredError"
                   (Some 11000%Z) (Some 500%Z) None None "") false)
      as (H & _).
    exact (conj eq_refl (proj1 (H eq_refl))).
  - destruct (errorHandler_classifies
                (ErrorHandler.mkError "bad" "ValidationError" None None None
                   None "") true)
      as (_ & _ & _ & H & _).
    exact (conj eq_refl (H eq_refl)).
Defined.

(** X19. A request no route matches is answered 404 with the message
    "Route <url> not found"; the stack goes out only in development. *)
Theorem notFound_answer (originalUrl stack : string) (development : bool) :
  ErrorHandler.errorHandler (ErrorHandler.notFound originalUrl stack) development
  = ResponseHandler.mkSent 404%Z
      {| ErrorHandler.success := false;
         ErrorHandler.error :=
           {| ErrorHandler.info_message :=
                ("Route " ++ originalUrl ++ " not found")%string;
              ErrorHandler.info_statusCode := 404;
              ErrorHandler.info_stack :=
                if development then Some stack else None |} |}
  /\ ErrorHandler.status (ErrorHandler.notFound originalUrl stack)
     = Some "fail"%string.
Proof. split; reflexivity. Qed.

Lemma statusOf_hundred (base : Z) (label : string) :
  forallb (fun k => String.eqb (ErrorHandler.statusOf (base + Z.of_nat k)) label)
    (seq 0 100) = true ->
  forall c : Z, (base <= c < base + 100)%Z -> ErrorHandler.statusOf c = label.
Proof.
  intros H c Hc. rewrite forallb_forall in H.
  specialize (H (Z.to_nat (c - base))).
  rewrite Z2Nat.id in H by lia.
  replace (base + (c - base))%Z with c in H by lia.
  apply String.eqb_eq, H, in_seq. lia.
Qed.

(** X20. An [ApiError] is marked 'fail' for every status from 400 to 499 and
    'error' for every status from 500 to 599; the mark follows the first
    decimal digit, so a status such as 40 is 'fail' too. *)
Theorem apiError_status_mark :
  (forall c : Z, (400 <= c <= 499)%Z ->
     forall message stack : string,
       ErrorHandler.status (ErrorHandler.ApiError c message stack)
       = Some "fail"%string)
  /\ (forall c : Z, (500 <= c <= 599)%Z ->
        forall message stack : string,
          ErrorHandler.status (ErrorHandler.ApiError c message stack)
          = Some "error"%string)
  /\ ErrorHandler.statusOf 40 = "fail"%string.
Proof.
  split; [| split].
  - intros c Hc message stack. unfold ErrorHandler.ApiError.
    cbn [ErrorHandler.status]. f_equal.
    apply (statusOf_hundred 400); [vm_compute; reflexivity | lia].
  - intros c Hc message stack. unfold ErrorHandler.ApiError.
    cbn [ErrorHandler.status]. f_equal.
    apply (statusOf_hundred 500); [vm_compute; reflexivity | lia].
  - reflexivity.
Qed.

Lemma apiError_status_mark_witness :
  (400 <= 404 <= 499)%Z
  /\ ErrorHandler.status (ErrorHandler.ApiError 404 "x" "") = Some "fail"%string.
Proof.
  assert (H : (400 <= 404 <= 499)%Z) by lia.
  exact (conj H (proj1 apiError_status_mark 404%Z H "x"%string ""%string)).
Defined.

(** ** Growth labels and the statistics *)

Lemma filter_length_perm {A : Type} (f : A -> bool) (l1 l2 : list A) :
  Permutation l1 l2 -> length (filter f l1) = length (filter f l2).
Proof.
  induction 1 as [| x l1 l2 _ IH | x y l | l1 l2 l3 _ IH1 _ IH2]; simpl.
  - reflexivity.
  - destruct (f x); simpl; rewrite IH; reflexivity.
  - destruct (f x); destruct (f y); reflexivity.
  - rewrite IH1. exact IH2.
Qed.

Lemma keeps_all (c : customer) : keeps 0 false c = true.
Proof. reflexivity. Qed.

Lemma filter_keeps_all (docs : list customer) : filter (keeps 0 false) docs = docs.
Proof.
  induction docs as [| c docs IH]; [reflexivity |].
  cbn [filter]. rewrite keeps_all, IH. reflexivity.
Qed.

Lemma labelled_map (g : growth) (test : Q -> bool) (l : list customer) :
  (forall v, match CustomersService.growthOf v, g with
             | Positive, Positive | Negative, Negative | Neutral, Neutral => true
             | _, _ => false
             end = test v) ->
  labelled g (map CustomersService.formatCustomer l)
  = length (filter (fun c => test (or0 (Variance c))) l).
Proof.
  intro Ht. unfold labelled.
  induction l as [| c l IH]; [reflexivity |].
  cbn [map filter CustomersService.formatCustomer growthStatus].
  rewrite Ht. destruct (test (or0 (Variance c))); cbn [length]; rewrite IH;
    reflexivity.
Qed.

Lemma growthOf_cases (v : Q) :
  (CustomersService.growthOf v = Positive /\ Qgtb v 0 = true
   /\ Qltb v 0 = false /\ Qeqb v 0 = false)
  \/ (CustomersService.growthOf v = Negative /\ Qgtb v 0 = false
      /\ Qltb v 0 = true /\ Qeqb v 0 = false)
  \/ (CustomersService.growthOf v = Neutral /\ Qgtb v 0 = false
      /\ Qltb v 0 = false /\ Qeqb v 0 = true).
Proof.
  unfold CustomersService.growthOf.
  destruct (Qgtb v 0) eqn:Eg; destruct (Qltb v 0) eqn:El;
    destruct (Qeqb v 0) eqn:Ee; auto 10;
    exfalso; unfold Qgtb in Eg;
    try (apply Qltb_lt in Eg); try (apply Qltb_ge in Eg);
    try (apply Qltb_lt in El); try (apply Qltb_ge in El);
    try (apply Qeqb_eq in Ee); try lra.
  assert (Hv : v == 0) by lra.
  apply Qeqb_eq in Hv. congruence.
Qed.

(** X21. When the whole collection fits on the first page of the unfiltered
    analysis, the rows labelled positive, negative and neutral are as
    many as the customers the statistics count with growth, with
    decline and with no change. *)
Theorem analysis_labels_match_statistics (docs : list customer) (pageSize : Z) :
  (0 < pageSize)%Z -> (Z.of_nat (length docs) <= pageSize)%Z ->
  let rows := analysisPage 0 false pageSize docs 1 in
  let s := CustomersService.getCustomerStatistics docs in
  length rows = CustomersService.totalCustomers s
  /\ labelled Positive rows = CustomersService.customersWithGrowth s
  /\ labelled Negative rows = CustomersService.customersWithDecline s
  /\ labelled Neutral rows = CustomersService.customersNoChange s.
Proof.
  intros Hsize Hfit. cbv zeta.
  change 1%Z with (Z.of_nat 0 + 1)%Z.
  rewrite analysisPage_window by exact Hsize.
  unfold analysisSelection. rewrite filter_keeps_all.
  cbn [Nat.mul skipn].
  rewrite firstn_all2 by (rewrite sort_length; lia).
  unfold CustomersService.getCustomerStatistics.
  cbn [CustomersService.totalCustomers CustomersService.customersWithGrowth
       CustomersService.customersWithDecline CustomersService.customersNoChange].
  pose proof (sort_perm (Store.byKeyDesc Quarter_4_Revenue) docs) as Hperm.
  split; [rewrite length_map; apply sort_length |].
  split; [| split].
  - rewrite (labelled_map Positive (fun v => Qgtb v 0)).
    + apply filter_length_perm, Hperm.
    + intro v. destruct (growthOf_cases v) as [H | [H | H]];
        destruct H as (-> & -> & _); reflexivity.
  - rewrite (labelled_map Negative (fun v => Qltb v 0)).
    + apply filter_length_perm, Hperm.
    + intro v. destruct (growthOf_cases v) as [H | [H | H]];
        destruct H as (-> & _ & -> & _); reflexivity.
  - rewrite (labelled_map Neutral (fun v => Qeqb v 0)).
    + apply filter_length_perm, Hperm.
    + intro v. destruct (growthOf_cases v) as [H | [H | H]];
        destruct H as (-> & _ & _ & ->); reflexivity.
Qed.

Lemma analysis_labels_match_statistics_witness :
  (0 < 10)%Z /\ (Z.of_nat (length threeCustomers) <= 10)%Z
  /\ labelled Positive (analysisPage 0 false 10 threeCustomers 1)
     = CustomersService.customersWithGrowth
         (CustomersService.getCustomerStatistics threeCustomers).
Proof.
  assert (H1 : (0 < 10)%Z) by lia.
  assert (H2 : (Z.of_nat (length threeCustomers) <= 10)%Z)
    by (vm_compute; discriminate).
  destruct (analysis_labels_match_statistics threeCustomers 10 H1 H2)
    as (_ & H & _).
  exact (conj H1 (conj H2 H)).
Defined.

Lemma share_of_count (a n : nat) :
  (a <= n)%nat ->
  let pct := if Qgtb (of_nat n) 0 then of_nat a / of_nat n * 100 else 0 in
  0 <= pct /\ pct <= 100.
Proof.
  intro Ha. cbv zeta. destruct (Qgtb (of_nat n) 0) eqn:E; [| split; lra].
  apply Qltb_lt in E.
  pose proof (of_nat_nonneg a) as H0. pose proof (of_nat_le a n Ha) as H1.
  assert (Hinv : 0 < / of_nat n) by (apply Qinv_lt_0_compat, E).
  assert (Hx0 : 0 <= of_nat a * / of_nat n)
    by (apply Qmult_le_0_compat; lra).
  assert (Hx1 : of_nat a * / of_nat n <= of_nat n * / of_nat n)
    by (apply Qmult_le_compat_r; lra).
  assert (E1 : of_nat n * / of_nat n == 1) by (field; lra).
  rewrite E1 in Hx1. unfold Qdiv. split; lra.
Qed.

(** X22. In the customer statistics each of the three counts is at most the
    number of customers and each percentage lies between 0 and 100. *)
Theorem statistics_in_range (allCustomers : list customer) :
  let s := CustomersService.getCustomerStatistics allCustomers in
  (CustomersService.customersWithGrowth s <= CustomersService.totalCustomers s
   /\ CustomersService.customersWithDecline s <= CustomersService.totalCustomers s
   /\ CustomersService.customersNoChange s <= CustomersService.totalCustomers s)%nat
  /\ (0 <= CustomersService.growthPercentage s
      /\ CustomersService.growthPercentage s <= 100)
  /\ (0 <= CustomersService.declinePercentage s
      /\ CustomersService.declinePercentage s <= 100)
  /\ (0 <= CustomersService.noChangePercentage s
      /\ CustomersService.noChangePercentage s <= 100).
Proof.
  cbv zeta. unfold CustomersService.getCustomerStatistics.
  cbn [CustomersService.customersWithGrowth CustomersService.customersWithDecline
       CustomersService.customersNoChange CustomersService.totalCustomers
       CustomersService.growthPercentage CustomersService.declinePercentage
       CustomersService.noChangePercentage].
  split; [repeat split; apply filter_length_le |].
  split; [| split]; apply share_of_count, filter_length_le.
Qed.

(** ** Pages below 1 and the order of rows *)

(** X23. A page and a page size that make the skip negative, as a page below
    1 with a positive page size does, make the fetch fail: the handlers
    answer 500 with no data, where a page beyond the last gets an empty
    list. *)
Theorem negative_skip_is_answered_500 (error_message : string) (m : Q)
  (p : bool) (pageSize pageNo : Z) (docs : list customer) :
  ((pageNo - 1) * pageSize < 0)%Z ->
  let f := mkFilters (Some m) (Some p) (Some pageSize) (Some pageNo) in
  getCustomerAnalysis_handler error_message f docs
  = inr (ResponseHandler.errorResponse (Some 500%Z)
           (Some "Failed to retrieve customer analysis data"%string)
           (JStr error_message))
  /\ getCustomerQuarterlyData_handler error_message f docs
     = inr (ResponseHandler.errorResponse (Some 500%Z)
              (Some "Failed to retrieve customer quarterly data"%string)
              (JStr error_message))
  /\ CustomersService.getCustomerAnalysis f docs = None.
Proof.
  intro Hskip. cbv zeta.
  assert (E : ((pageNo - 1) * pageSize <? 0)%Z = true) by (apply Z.ltb_lt, Hskip).
  unfold getCustomerAnalysis_handler, getCustomerQuarterlyData_handler,
    CustomersService.getCustomerAnalysis,
    RevenueService.getCustomerQuarterlyData, Store.find_sort_skip_limit.
  cbn [minQ4Revenue positiveGrowthOnly limit page withDefault].
  rewrite E. repeat split.
Qed.

Lemma negative_skip_is_answered_500_witness :
  ((-1 - 1) * 10 < 0)%Z
  /\ CustomersService.getCustomerAnalysis
       (mkFilters (Some 0) (Some false) (Some 10%Z) (Some (-1)%Z)) threeCustomers
     = None.
Proof.
  assert (H : ((-1 - 1) * 10 < 0)%Z) by lia.
  exact (conj H (proj2 (proj2 (negative_skip_is_answered_500 "" 0 false 10 (-1)
                                 threeCustomers H)))).
Defined.

(** X24. When every stored customer has a numeric Q4 revenue, the rows of
    every page of the analysis come in descending order of Q4 revenue. *)
Theorem analysis_rows_descending (m : Q) (p : bool) (pageSize pageNo : Z)
  (docs : list customer) :
  (0 < pageSize)%Z -> (1 <= pageNo)%Z ->
  Forall (fun c => exists x, Quarter_4_Revenue c = Num x) docs ->
  descending q4Revenue (analysisPage m p pageSize docs pageNo).
Proof.
  intros Hsize Hpage Hnum.
  replace pageNo with (Z.of_nat (Z.to_nat (pageNo - 1)) + 1)%Z by lia.
  rewrite analysisPage_window by exact Hsize.
  apply (descending_map (fun c => or0 (Quarter_4_Revenue c)));
    [reflexivity |].
  apply descending_firstn, descending_skipn.
  unfold analysisSelection.
  rewrite (sort_ext _ (descBy (fun c => or0 (Quarter_4_Revenue c)))).
  - apply sort_descending.
  - intros a b Ha Hb. apply filter_In in Ha, Hb.
    rewrite Forall_forall in Hnum.
    destruct (Hnum a (proj1 Ha)) as [x Hx].
    destruct (Hnum b (proj1 Hb)) as [y Hy].
    unfold Store.byKeyDesc, descBy. rewrite Hx, Hy. reflexivity.
Qed.

Lemma analysis_rows_descending_witness :
  (0 < 2)%Z /\ (1 <= 1)%Z
  /\ Forall (fun c => exists x, Quarter_4_Revenue c = Num x) threeCustomers
  /\ descending q4Revenue (analysisPage 0 false 2 threeCustomers 1).
Proof.
  assert (H1 : (0 < 2)%Z) by lia.
  assert (H2 : (1 <= 1)%Z) by lia.
  assert (H3 : Forall (fun c => exists x, Quarter_4_Revenue c = Num x)
                 threeCustomers)
    by (repeat constructor; eexists; reflexivity).
  exact (conj H1 (conj H2 (conj H3
           (analysis_rows_descending 0 false 2 1 threeCustomers H1 H2 H3)))).
Defined.
